(** * Zoho Cliq bridge: token resolution and request dispatch

    A shallow embedding of the two deployment variants of the Cliq API
    client:

    - the OAuth variant ([Module OAuth]: [loadToken], [refreshAccessToken],
      [clearTokenCache], [apiRequest], [listChannels], [sendMessage],
      [replyToMessage]);
    - the webhook variant ([Module Webhook]: [opGet], [getZapikey],
      [getOAuthToken], [curlJson], [listChannels], [sendMessage] and the
      tool-call handler of the server).

    The code is synchronous and talks to the outside through subprocesses
    ([execSync]), one configuration file and the wall clock.  These are
    modelled by a state record threaded through a small state-and-exception
    monad, with the outside world's answers supplied by a [Runtime] record
    of oracles; every subprocess and every write of the configuration file
    is recorded in a trace.

    Conventions of the model:
    - JavaScript values coming out of [JSON.parse] have the type [json];
      [undefined] is [None]; numbers are integers with exact arithmetic;
    - [JSON.parse], [JSON.stringify], the coercions of strings and objects
      to numbers and of objects to strings, and [toISOString] are library
      functions, taken from the [Runtime];
    - a subprocess that exits with an error or runs into its timeout is a
      thrown exception;
    - the clock stands still except across a subprocess;
    - whether the module that holds [curlJson] has a [require] function (a
      CommonJS module has, an ES module has not) is a matter of how the
      program is built and run: the [Runtime] says what [require("fs")]
      does. *)

From Stdlib Require Import String Ascii List ZArith Lia Bool DecimalString.
Import ListNotations.
Open Scope string_scope.

Set Implicit Arguments.
Set Warnings "-register-all".

(* ================================================================== *)
(** ** JavaScript values *)

Module JS.

(** A value produced by [JSON.parse].  [undefined] is the [None] of
    [option json]. *)
Inductive json : Type :=
| JNull
| JBool (b : bool)
| JNum (n : Z)
| JStr (s : string)
| JArr (items : list json)
| JObj (fields : list (string * json)).

(** The double-quote character, as a one-character string. *)
Definition dq : string := String (ascii_of_nat 34) EmptyString.

Definition is_empty (s : string) : bool :=
  match s with EmptyString => true | String _ _ => false end.

(** ToBoolean. *)
Definition truthy (v : json) : bool :=
  match v with
  | JNull => false
  | JBool b => b
  | JNum n => negb (n =? 0)%Z
  | JStr s => negb (is_empty s)
  | JArr _ => true
  | JObj _ => true
  end.

Definition truthy_opt (v : option json) : bool :=
  match v with Some x => truthy x | None => false end.

(** [a || b] where [a] may be [undefined]. *)
Definition or_else (a : option json) (b : json) : json :=
  match a with
  | Some x => if truthy x then x else b
  | None => b
  end.

(** [a ?? null]. *)
Definition nullish_to_null (a : option json) : json :=
  match a with Some x => x | None => JNull end.

(** [process.env.X || dflt] for string settings. *)
Definition env_or (v : option string) (dflt : string) : string :=
  match v with
  | Some s => if is_empty s then dflt else s
  | None => dflt
  end.

Fixpoint lookup_field (k : string) (fs : list (string * json)) : option json :=
  match fs with
  | [] => None
  | (k', v) :: rest => if String.eqb k k' then Some v else lookup_field k rest
  end.

(** Outcome of an expression: a value or a thrown exception with its
    message. *)
Inductive Res (A : Type) : Type :=
| Ok (a : A)
| Throw (msg : string).
Arguments Ok {A} a.
Arguments Throw {A} msg.

Definition type_error : string := "TypeError".

(** Property read [v.k]: throws on [null], is [undefined] on the other
    primitives and on arrays (none of the keys read by the program is an
    inherited property). *)
Definition get_prop (v : json) (k : string) : Res (option json) :=
  match v with
  | JNull => Throw type_error
  | JObj fs => Ok (lookup_field k fs)
  | _ => Ok None
  end.

(** [arr.find(f => f.label === label)] on the items of an array. *)
Fixpoint find_label (label : string) (items : list json) : Res (option json) :=
  match items with
  | [] => Ok None
  | f :: rest =>
      match get_prop f "label" with
      | Throw e => Throw e
      | Ok (Some (JStr l)) => if String.eqb l label then Ok (Some f)
                              else find_label label rest
      | Ok _ => find_label label rest
      end
  end.

(** [parsed.find(f => f.label === label)?.value]; calling [find] on
    something that is not an array throws. *)
Definition find_value (label : string) (parsed : json) : Res (option json) :=
  match parsed with
  | JArr items =>
      match find_label label items with
      | Throw e => Throw e
      | Ok None => Ok None
      | Ok (Some f) => get_prop f "value"
      end
  | _ => Throw type_error
  end.

(** *** Strings *)

Fixpoint drop (n : nat) (s : string) : string :=
  match n, s with
  | O, _ => s
  | S n', String _ s' => drop n' s'
  | S _, EmptyString => EmptyString
  end.

(** [s.startsWith(p)]. *)
Definition startsWith (s p : string) : bool := String.prefix p s.

(** Position of the first occurrence of [pat] in [s], as the pair of the
    text before it and the text after it. *)
Fixpoint split_first (pat s : string) : option (string * string) :=
  if String.prefix pat s then Some (EmptyString, drop (String.length pat) s)
  else match s with
       | EmptyString => None
       | String c s' =>
           match split_first pat s' with
           | Some (b, a) => Some (String c b, a)
           | None => None
           end
       end.

Definition dollar : ascii := ascii_of_nat 36.
Definition ampersand : ascii := ascii_of_nat 38.
Definition backtick : ascii := ascii_of_nat 96.
Definition apostrophe : ascii := ascii_of_nat 39.
Definition backslash : ascii := ascii_of_nat 92.

(** GetSubstitution for a string pattern (no capture groups): the
    replacement text understands [$$], [$&], [$`] and [$']; any other use of
    the dollar sign stands for itself. *)
Fixpoint expand_replacement (rep matched before after : string) : string :=
  match rep with
  | EmptyString => EmptyString
  | String a rest =>
      if Ascii.eqb a dollar then
        match rest with
        | String b rest' =>
            if Ascii.eqb b dollar then String dollar (expand_replacement rest' matched before after)
            else if Ascii.eqb b ampersand then matched ++ expand_replacement rest' matched before after
            else if Ascii.eqb b backtick then before ++ expand_replacement rest' matched before after
            else if Ascii.eqb b apostrophe then after ++ expand_replacement rest' matched before after
            else String a (expand_replacement rest matched before after)
        | EmptyString => String a EmptyString
        end
      else String a (expand_replacement rest matched before after)
  end.

(** [s.replace(pat, rep)] with a string pattern: only the first occurrence
    is replaced. *)
Definition replace (s pat rep : string) : string :=
  match split_first pat s with
  | Some (before, after) =>
      before ++ expand_replacement rep pat before after ++ after
  | None => s
  end.

(** [s.replace(/'/g, "'\\''")]: every apostrophe becomes the four
    characters quote, backslash, quote, quote. *)
Fixpoint escape_quotes (s : string) : string :=
  match s with
  | EmptyString => EmptyString
  | String c s' =>
      if Ascii.eqb c apostrophe
      then String apostrophe (String backslash (String apostrophe
             (String apostrophe (escape_quotes s'))))
      else String c (escape_quotes s')
  end.

Fixpoint has_char (c : ascii) (s : string) : bool :=
  match s with
  | EmptyString => false
  | String c' s' => Ascii.eqb c c' || has_char c s'
  end.

(** Decimal rendering of an integer, as template literals print numbers. *)
Definition show_Z (z : Z) : string := NilZero.string_of_int (Z.to_int z).

End JS.
Export JS.

(* ================================================================== *)
(** ** The outside world and the effect monad *)

Module Sys.

(** What one HTTP exchange made by [curl] comes back with. *)
Record HttpResponse : Type := mkHttp { status : Z; body : string }.

(** The answers of everything the program does not define itself.  The
    subprocess oracles are indexed by the number of events that happened
    before the call, so that the same command may be answered differently
    at different moments; [Throw] stands for a subprocess that fails or
    times out. *)
Record Runtime : Type := mkRuntime {
  env : string -> option string;           (* process.env *)
  JSON_parse : string -> Res json;
  JSON_stringify : json -> string;
  JSON_stringify_pretty : json -> string;  (* JSON.stringify(v, null, 2) *)
  ToNumber_other : json -> option Z;       (* ToNumber on strings, arrays, objects; None is NaN *)
  ToString_other : json -> string;         (* ToString on arrays and objects *)
  toISOString : Z -> string;
  zod_error : option json -> string;       (* message of the ZodError for rejected arguments *)
  op_cli : nat -> string -> Res string;    (* stdout of an `op` command *)
  curl : nat -> string -> Res HttpResponse;
  time_after : nat -> Z;                   (* the clock once the n-th event is over *)
  require_fs : Res unit                    (* require("fs"): throws where the module has no [require] *)
}.

(** ToNumber; [None] is NaN. *)
Definition ToNumber (rt : Runtime) (v : json) : option Z :=
  match v with
  | JNull => Some 0%Z
  | JBool b => Some (if b then 1 else 0)%Z
  | JNum n => Some n
  | _ => ToNumber_other rt v
  end.

(** ToString, as performed by a template literal. *)
Definition ToString (rt : Runtime) (v : json) : string :=
  match v with
  | JStr s => s
  | JNull => "null"
  | JBool b => if b then "true" else "false"
  | JNum n => show_Z n
  | _ => ToString_other rt v
  end.

(** [n < v] for a number [n]; false as soon as [v] is NaN. *)
Definition lt_num (rt : Runtime) (n : Z) (v : json) : bool :=
  match ToNumber rt v with
  | Some x => (n <? x)%Z
  | None => false
  end.

(** Observable actions, in the order they happen. *)
Inductive Event : Type :=
| EvOp (cmd : string)                 (* secret-store lookup *)
| EvTokenExchange (cmd : string)      (* OAuth refresh call *)
| EvApi (cmd : string)                (* call to the chat API *)
| EvWrite (content : string) (mode : Z) (ok : bool).  (* cache file write *)

Definition is_api (e : Event) : bool :=
  match e with EvApi _ => true | _ => false end.

Definition is_secret_or_refresh (e : Event) : bool :=
  match e with EvOp _ | EvTokenExchange _ => true | _ => false end.

(** Permission bits of the cache file once the events [evs] are over;
    [before] is what they were, [None] when there was no file.  The [mode]
    option of [writeFileSync] is a creation mode: it is handed to [open]
    and takes effect, less the bits of the process umask, only when the
    call creates the file; a file that is already there is overwritten and
    keeps its bits.  Nothing in the program removes the file or changes its
    bits otherwise. *)
Fixpoint file_mode (umask : Z) (before : option Z) (evs : list Event)
  : option Z :=
  match evs with
  | [] => before
  | EvWrite _ mode true :: rest =>
      file_mode umask
        (match before with
         | Some bits => Some bits
         | None => Some (Z.ldiff mode umask)
         end) rest
  | _ :: rest => file_mode umask before rest
  end.

(** State and exception monad over a state type [S]. *)
Definition M (S A : Type) : Type := S -> Res A * S.

Definition ret {S A} (a : A) : M S A := fun w => (Ok a, w).

Definition throw {S A} (msg : string) : M S A := fun w => (Throw msg, w).

Definition bind {S A B} (m : M S A) (k : A -> M S B) : M S B :=
  fun w => match m w with
           | (Ok a, w') => k a w'
           | (Throw e, w') => (Throw e, w')
           end.

(** [try { m } catch (e) { h e }]. *)
Definition try_catch {S A} (m : M S A) (h : string -> M S A) : M S A :=
  fun w => match m w with
           | (Ok a, w') => (Ok a, w')
           | (Throw e, w') => h e w'
           end.

Definition lift {S A} (r : Res A) : M S A := fun w => (r, w).

Definition gets {S A} (f : S -> A) : M S A := fun w => (Ok (f w), w).

Definition modify {S} (f : S -> S) : M S unit := fun w => (Ok tt, f w).

Fixpoint mapM {S A B} (f : A -> M S B) (l : list A) : M S (list B) :=
  match l with
  | [] => ret []
  | x :: rest => bind (f x) (fun y => bind (mapM f rest) (fun ys => ret (y :: ys)))
  end.

End Sys.
Export Sys.

Declare Scope js_scope.
Delimit Scope js_scope with js.
Notation "x <- m ;; k" := (bind m (fun x => k))
  (at level 61, m at next level, right associativity) : js_scope.
Notation "m ;;; k" := (bind m (fun _ => k))
  (at level 61, right associativity) : js_scope.
Open Scope js_scope.

(* ================================================================== *)
(** ** Declarations the two variants have in common *)

Module Common.

Record CliqChannel : Type := mkChannel {
  id : option json;
  name : option json;
  unique_name : option json
}.

(** Truthiness of an optional string field and of [string | null]. *)
Definition present (o : option string) : bool :=
  match o with Some s => negb (is_empty s) | None => false end.

Definition field_text (o : option string) : string :=
  match o with Some s => s | None => "undefined" end.

Definition op_item_get (item field : string) : string :=
  "op item get " ++ dq ++ item ++ dq ++ " --fields label=" ++ field ++
  " --format json".

Definition token_exchange_cmd (refreshToken clientId clientSecret : string)
  : string :=
  "curl -s -X POST 'https://accounts.zoho.com/oauth/v2/token' " ++
  "-d 'refresh_token=" ++ refreshToken ++ "' " ++
  "-d 'client_id=" ++ clientId ++ "' " ++
  "-d 'client_secret=" ++ clientSecret ++ "' " ++
  "-d 'grant_type=refresh_token'".

Definition to_channel (c : json) : Res CliqChannel :=
  match get_prop c "id" with
  | Throw e => Throw e
  | Ok i =>
      match get_prop c "name" with
      | Throw e => Throw e
      | Ok n =>
          match get_prop c "unique_name" with
          | Throw e => Throw e
          | Ok u => Ok (mkChannel i n u)
          end
      end
  end.

End Common.
Export Common.

(* ================================================================== *)
(** ** OAuth variant of the client *)

Module OAuth.

(** The configuration file [~/.cliq-api-config.json]. *)
Inductive file_state : Type :=
| Absent
| Unreadable
| Content (s : string).

Record World : Type := mkWorld {
  cachedToken : json;        (* the in-memory slot: a token or null *)
  config_file : file_state;
  disk_writable : bool;
  now : Z;                   (* Date.now() *)
  trace : list Event
}.

Definition set_cachedToken (t : json) (w : World) : World :=
  mkWorld t (config_file w) (disk_writable w) (now w) (trace w).

Record ApiResponse : Type := mkApi { data : json; error : option string }.

Inductive Method : Type := GET | POST | PUT | DELETE.

Definition method_name (m : Method) : string :=
  match m with GET => "GET" | POST => "POST" | PUT => "PUT" | DELETE => "DELETE" end.

Record SendMessageInput : Type := mkInput {
  text : string;
  channelId : option string;
  channelName : option string;
  chatId : option string;
  userId : option string
}.

Record ReplyInput : Type := mkReply { messageId : string; reply_text : string }.

Record ChannelsResult : Type := mkChannels {
  channels : list CliqChannel; channels_error : option string }.
Record SendResult : Type := mkSend {
  message : json; send_error : option string }.
Record ReplyResult : Type := mkReplyResult {
  reply : json; reply_error : option string }.

(** The object handed to [JSON.stringify] for the cache file; a NaN expiry
    is serialised as [null]. *)
Definition cache_record (token : json) (expires_at : option Z)
  (created : string) : json :=
  JObj [("access_token", token);
        ("expires_at", match expires_at with Some z => JNum z | None => JNull end);
        ("created", JStr created);
        ("source", JStr "1password-refresh")].

(** Owner read/write: 0o600. *)
Definition mode_0o600 : Z := 384.

Definition is_auth_rejection (code : option json) : bool :=
  match code with
  | Some (JStr c) => String.eqb c "INVALID_OAUTH" || String.eqb c "OAUTH_EXPIRED"
  | _ => false
  end.

(** Endpoint chosen by [sendMessage]: the if/else-if chain over the four
    selectors. *)
Definition select_endpoint (input : SendMessageInput) : option string :=
  if present (channelId input) then
    Some ("/channels/" ++ field_text (channelId input) ++ "/messages")
  else if present (channelName input) then
    Some ("/channelsbyname/" ++ field_text (channelName input) ++ "/message")
  else if present (chatId input) then
    Some ("/chats/" ++ field_text (chatId input) ++ "/messages")
  else if present (userId input) then
    Some ("/users/" ++ field_text (userId input) ++ "/messages")
  else None.

(** What the handler of the server hands back to the transport. *)
Record ToolResult : Type := mkTool { content_text : string; isError : bool }.

Definition error_result (msg : string) : ToolResult :=
  mkTool ("Error: " ++ msg) true.

(** A channel as [JSON.stringify] sees it: undefined fields are left out. *)
Definition channel_json (c : CliqChannel) : json :=
  JObj ((match id c with Some v => [("id", v)] | None => [] end) ++
        (match name c with Some v => [("name", v)] | None => [] end) ++
        (match unique_name c with Some v => [("unique_name", v)] | None => [] end)).

Section Program.

Variable rt : Runtime.

Definition OP_ITEM_ID : string :=
  env_or (env rt "CLIQ_OP_ITEM") "cliq.zoho.com".
Definition BASE_URL : string :=
  env_or (env rt "CLIQ_BASE_URL") "https://cliq.zoho.com/api/v2".

(** [execSync(cmd)]: the call is recorded, the oracle answers, the clock
    moves. *)
Definition execSync {A} (ev : string -> Event)
  (oracle : nat -> string -> Res A) (cmd : string) : M World A :=
  fun w =>
    let n := List.length (trace w) in
    (oracle n cmd,
     mkWorld (cachedToken w) (config_file w) (disk_writable w)
             (time_after rt n) (trace w ++ [ev cmd])).

(** Standard output of [curl -s]: the response body, whatever the status. *)
Definition curl_stdout (n : nat) (cmd : string) : Res string :=
  match curl rt n cmd with
  | Ok r => Ok (body r)
  | Throw e => Throw e
  end.

Definition existsSync : M World bool :=
  gets (fun w => match config_file w with Absent => false | _ => true end).

Definition readFileSync : M World string :=
  fun w => match config_file w with
           | Content s => (Ok s, w)
           | _ => (Throw "EACCES", w)
           end.

(** [writeFileSync(CONFIG_PATH, content, { mode })]: the call and its mode
    are recorded, whether it succeeds or throws. *)
Definition writeFileSync (content : string) (mode : Z) : M World unit :=
  fun w =>
    if disk_writable w then
      (Ok tt, mkWorld (cachedToken w) (Content content) true (now w)
                      (trace w ++ [EvWrite content mode true]))
    else
      (Throw "EACCES",
       mkWorld (cachedToken w) (config_file w) false (now w)
               (trace w ++ [EvWrite content mode false])).

Definition Date_now : M World Z := gets now.

(** [now + expiresIn * 1000] on numbers. *)
Definition expiry_instant (t : Z) (expiresIn : json) : option Z :=
  match ToNumber rt expiresIn with
  | Some e => Some (t + e * 1000)%Z
  | None => None
  end.

Definition refreshAccessToken (refreshToken : json) : M World json :=
  try_catch
    (clientIdResult <- execSync EvOp (op_cli rt) (op_item_get OP_ITEM_ID "client_id") ;;
     clientSecretResult <- execSync EvOp (op_cli rt) (op_item_get OP_ITEM_ID "client_secret") ;;
     p1 <- lift (JSON_parse rt clientIdResult) ;;
     clientId <- lift (find_value "client_id" p1) ;;
     p2 <- lift (JSON_parse rt clientSecretResult) ;;
     clientSecret <- lift (find_value "client_secret" p2) ;;
     match clientId, clientSecret with
     | Some cid, Some cs =>
         if negb (truthy cid) || negb (truthy cs) then ret JNull
         else
           result <- execSync EvTokenExchange curl_stdout
                       (token_exchange_cmd (ToString rt refreshToken)
                          (ToString rt cid) (ToString rt cs)) ;;
           response <- lift (JSON_parse rt result) ;;
           access <- lift (get_prop response "access_token") ;;
           match access with
           | Some token =>
               if truthy token then
                 expires_in <- lift (get_prop response "expires_in") ;;
                 let expiresIn := or_else expires_in (JNum 3600) in
                 try_catch
                   (t <- Date_now ;;
                    created <- Date_now ;;
                    writeFileSync
                      (JSON_stringify rt
                         (cache_record token (expiry_instant t expiresIn)
                            (toISOString rt created)))
                      mode_0o600)
                   (fun _ => ret tt) ;;;
                 modify (set_cachedToken token) ;;;
                 ret token
               else ret JNull
           | None => ret JNull
           end
     | _, _ => ret JNull
     end)
    (fun _ => ret JNull).

(** Step 2 of [loadToken]: the configuration file.  [Some t] when the
    function returns [t] from here, [None] when control falls through. *)
Definition fromConfigFile : M World (option json) :=
  ex <- existsSync ;;
  if ex then
    try_catch
      (raw <- readFileSync ;;
       config <- lift (JSON_parse rt raw) ;;
       access <- lift (get_prop config "access_token") ;;
       match access with
       | Some token =>
           if truthy token then
             expires <- lift (get_prop config "expires_at") ;;
             match expires with
             | Some e =>
                 if truthy e then
                   t <- Date_now ;;
                   if lt_num rt t e then
                     modify (set_cachedToken token) ;;; ret (Some token)
                   else ret None
                 else ret None
             | None => ret None
             end
           else ret None
       | None => ret None
       end)
      (fun _ => ret None)
  else ret None.

(** Step 3 of [loadToken]: the refresh token from the secret store, then
    the refresh exchange. *)
Definition fromSecretStore : M World json :=
  try_catch
    (result <- execSync EvOp (op_cli rt) (op_item_get OP_ITEM_ID "refresh_token") ;;
     parsed <- lift (JSON_parse rt result) ;;
     refreshToken <- lift (find_value "refresh_token" parsed) ;;
     match refreshToken with
     | Some r => if truthy r then refreshAccessToken r else ret JNull
     | None => ret JNull
     end)
    (fun _ => ret JNull).

Definition loadToken : M World json :=
  cached <- gets cachedToken ;;
  if truthy cached then ret cached
  else
    if present (env rt "CLIQ_ACCESS_TOKEN") then
      let envToken := JStr (field_text (env rt "CLIQ_ACCESS_TOKEN")) in
      modify (set_cachedToken envToken) ;;; ret envToken
    else
      fromFile <- fromConfigFile ;;
      match fromFile with
      | Some token => ret token
      | None => fromSecretStore
      end.

Definition clearTokenCache : M World unit :=
  modify (set_cachedToken JNull) ;;;
  try_catch
    (ex <- existsSync ;;
     if ex then writeFileSync "{}" mode_0o600 else ret tt)
    (fun _ => ret tt).

Definition authorization (token : json) : string :=
  "Zoho-oauthtoken " ++ ToString rt token.

Definition curl_command (method : Method) (url : string) (token : json)
  (body : option json) : string :=
  "curl -s -X " ++ method_name method ++ " '" ++ url ++ "' " ++
  "-H 'Authorization: " ++ authorization token ++ "' " ++
  "-H 'Content-Type: application/json' " ++
  match body with
  | Some b =>
      if truthy b then "-d '" ++ escape_quotes (JSON_stringify rt b) ++ "'"
      else ""
  | None => ""
  end.

Definition request_url (endpoint : string) : string :=
  if startsWith endpoint "http" then endpoint else BASE_URL ++ endpoint.

Definition no_token_message : string :=
  "No access token available. Check CLIQ_ACCESS_TOKEN env var or 1Password item.".

Definition apiRequest (endpoint : string) (method : Method)
  (body : option json) : M World ApiResponse :=
  token <- loadToken ;;
  if negb (truthy token) then ret (mkApi JNull (Some no_token_message))
  else
    let url := request_url endpoint in
    try_catch
      (let curlCmd := curl_command method url token body in
       result <- execSync EvApi curl_stdout curlCmd ;;
       data <- lift (JSON_parse rt result) ;;
       code <- lift (get_prop data "code") ;;
       if is_auth_rejection code then
         clearTokenCache ;;;
         newToken <- loadToken ;;
         if negb (truthy newToken) then
           ret (mkApi JNull (Some "Failed to refresh access token"))
         else
           let retryCmd :=
             replace curlCmd (authorization token) (authorization newToken) in
           retryResult <- execSync EvApi curl_stdout retryCmd ;;
           retried <- lift (JSON_parse rt retryResult) ;;
           ret (mkApi retried None)
       else ret (mkApi data None))
      (fun msg => ret (mkApi JNull (Some msg))).

(** [error || !data] on an [ApiResponse]. *)
Definition failed (r : ApiResponse) : bool :=
  present (error r) || negb (truthy (data r)).

Definition listChannels : M World ChannelsResult :=
  r <- apiRequest "/channels" GET None ;;
  if failed r then ret (mkChannels [] (error r))
  else
    chans <- lift (get_prop (data r) "channels") ;;
    if negb (truthy_opt chans) then
      ret (mkChannels [] (Some "Unexpected response format"))
    else
      match chans with
      | Some (JArr items) =>
          cs <- mapM (fun c => lift (to_channel c)) items ;;
          ret (mkChannels cs None)
      | _ => throw type_error
      end.

Definition send_payload (input : SendMessageInput) : json :=
  JObj [("text", JStr (text input)); ("sync_message", JBool true)].

Definition sendMessage (input : SendMessageInput) : M World SendResult :=
  if is_empty (text input) then
    ret (mkSend JNull (Some "Message text is required"))
  else
    match select_endpoint input with
    | None =>
        ret (mkSend JNull
               (Some "Must specify channelId, channelName, chatId, or userId"))
    | Some endpoint =>
        r <- apiRequest endpoint POST (Some (send_payload input)) ;;
        if failed r then ret (mkSend JNull (error r))
        else ret (mkSend (data r) None)
    end.

Definition reply_payload (input : ReplyInput) : json :=
  JObj [("text", JStr (reply_text input));
        ("parent_message_id", JStr (messageId input))].

Definition replyToMessage (input : ReplyInput) : M World ReplyResult :=
  if is_empty (reply_text input) || is_empty (messageId input) then
    ret (mkReplyResult JNull (Some "Message ID and text are required"))
  else
    r <- apiRequest "/messages" POST (Some (reply_payload input)) ;;
    if failed r then ret (mkReplyResult JNull (error r))
    else ret (mkReplyResult (data r) None).

(** *** Argument schemas and the tool-call handler of the server *)

(** A field declared [z.string().optional()]: absent, or a string. *)
Definition optional_string (k : string) (fs : list (string * json))
  : option (option string) :=
  match lookup_field k fs with
  | None => Some None
  | Some (JStr v) => Some (Some v)
  | Some _ => None
  end.

(** [z.object({}).parse(args)]. *)
Definition ListChannelsSchema_parse (args : option json) : Res unit :=
  match args with
  | Some (JObj _) => Ok tt
  | _ => Throw (zod_error rt args)
  end.

(** [SendMessageSchema.parse(args)]: a non-empty [text], four optional
    string selectors, and the refinement that one of them is truthy. *)
Definition SendMessageSchema_parse (args : option json) : Res SendMessageInput :=
  match args with
  | Some (JObj fs) =>
      match lookup_field "text" fs with
      | Some (JStr t) =>
          if is_empty t then Throw (zod_error rt args)
          else
            match optional_string "channelId" fs,
                  optional_string "channelName" fs,
                  optional_string "chatId" fs,
                  optional_string "userId" fs with
            | Some cid, Some cn, Some ch, Some u =>
                if present cid || present cn || present ch || present u
                then Ok (mkInput t cid cn ch u)
                else Throw (zod_error rt args)
            | _, _, _, _ => Throw (zod_error rt args)
            end
      | _ => Throw (zod_error rt args)
      end
  | _ => Throw (zod_error rt args)
  end.

(** [ReplyToMessageSchema.parse(args)]. *)
Definition ReplyToMessageSchema_parse (args : option json) : Res ReplyInput :=
  match args with
  | Some (JObj fs) =>
      match lookup_field "messageId" fs, lookup_field "text" fs with
      | Some (JStr mid), Some (JStr t) =>
          if is_empty mid || is_empty t then Throw (zod_error rt args)
          else Ok (mkReply mid t)
      | _, _ => Throw (zod_error rt args)
      end
  | _ => Throw (zod_error rt args)
  end.

Definition newline : string := String (ascii_of_nat 10) EmptyString.

Definition callTool (tool : string) (args : option json) : M World ToolResult :=
  try_catch
    (if String.eqb tool "cliq_list_channels" then
       lift (ListChannelsSchema_parse args) ;;;
       result <- listChannels ;;
       if present (channels_error result) then
         ret (error_result (field_text (channels_error result)))
       else
         ret (mkTool (JSON_stringify_pretty rt
                        (JArr (map channel_json (channels result)))) false)
     else if String.eqb tool "cliq_send_message" then
       validated <- lift (SendMessageSchema_parse args) ;;
       result <- sendMessage validated ;;
       if present (send_error result) then
         ret (error_result (field_text (send_error result)))
       else
         ret (mkTool ("Message sent successfully." ++ newline ++
                      JSON_stringify_pretty rt (message result)) false)
     else if String.eqb tool "cliq_reply_to_message" then
       validated <- lift (ReplyToMessageSchema_parse args) ;;
       result <- replyToMessage validated ;;
       if present (reply_error result) then
         ret (error_result (field_text (reply_error result)))
       else
         ret (mkTool ("Reply sent successfully." ++ newline ++
                      JSON_stringify_pretty rt (reply result)) false)
     else
       ret (mkTool ("Unknown tool: " ++ tool) true))
    (fun msg => ret (error_result msg)).

End Program.

End OAuth.

(* ================================================================== *)
(** ** Webhook variant of the client and its tool-call handler *)

Module Webhook.

Record World : Type := mkWorld {
  cachedZapikey : json;
  cachedOAuthToken : json;
  oauthExpiresAt : option Z;          (* a number; None is NaN *)
  response_file : option string;     (* /tmp/cliq-mcp-response.txt *)
  now : Z;
  trace : list Event
}.

Definition set_cachedZapikey (k : json) (w : World) : World :=
  mkWorld k (cachedOAuthToken w) (oauthExpiresAt w) (response_file w)
          (now w) (trace w).

Definition set_oauth (t : json) (e : option Z) (w : World) : World :=
  mkWorld (cachedZapikey w) t e (response_file w) (now w) (trace w).

Inductive Method : Type := GET | POST.

Definition method_name (m : Method) : string :=
  match m with GET => "GET" | POST => "POST" end.

Record SendMessageInput : Type := mkInput {
  text : string;
  channelName : option string;
  chatId : option string;
  userId : option string
}.

Record CurlResult : Type := mkCurl { data : json; status : Z }.

Record ChannelsResult : Type := mkChannels {
  channels : list CliqChannel; channels_error : option string }.
Record SendResult : Type := mkSend {
  success : bool; send_error : option string }.

(** What the handler hands back to the transport. *)
Record ToolResult : Type := mkTool { content_text : string; isError : bool }.

Definition BASE_URL : string := "https://cliq.zoho.com/api/v2".

Definition header_flag (h : string * string) : string :=
  "-H '" ++ fst h ++ ": " ++ snd h ++ "'".

Definition status_ok (st : Z) : bool := (200 <=? st)%Z && (st <? 300)%Z.

Definition http_error (rt : Runtime) (st : Z) (d : json) : string :=
  "HTTP " ++ show_Z st ++ ": " ++ JSON_stringify rt d.

(** A channel as [JSON.stringify] sees it: undefined fields are left out. *)
Definition channel_json (c : CliqChannel) : json :=
  JObj ((match id c with Some v => [("id", v)] | None => [] end) ++
        (match name c with Some v => [("name", v)] | None => [] end) ++
        (match unique_name c with Some v => [("unique_name", v)] | None => [] end)).

Section Program.

Variable rt : Runtime.

Definition BOT_NAME : string := env_or (env rt "CLIQ_BOT_NAME") "guidobarton".
Definition DEFAULT_CHANNEL : string :=
  env_or (env rt "CLIQ_DEFAULT_CHANNEL") "luminous".
Definition WEBHOOK_OP_ITEM : string :=
  env_or (env rt "CLIQ_WEBHOOK_OP_ITEM") "Cliq luminous-agent-api".
Definition OAUTH_OP_ITEM : string :=
  env_or (env rt "CLIQ_OAUTH_OP_ITEM") "cliq.zoho.com".

Definition execSync {A} (ev : string -> Event)
  (oracle : nat -> string -> Res A) (cmd : string) : M World A :=
  fun w =>
    let n := List.length (trace w) in
    (oracle n cmd,
     mkWorld (cachedZapikey w) (cachedOAuthToken w) (oauthExpiresAt w)
             (response_file w) (time_after rt n) (trace w ++ [ev cmd])).

Definition curl_stdout (n : nat) (cmd : string) : Res string :=
  match curl rt n cmd with
  | Ok r => Ok (body r)
  | Throw e => Throw e
  end.

Definition Date_now : M World Z := gets now.

Definition opGet (item field : string) : M World json :=
  try_catch
    (result <- execSync EvOp (op_cli rt) (op_item_get item field) ;;
     parsed <- lift (JSON_parse rt result) ;;
     match parsed with
     | JArr _ =>
         v <- lift (find_value field parsed) ;; ret (nullish_to_null v)
     | _ =>
         v <- lift (get_prop parsed "value") ;; ret (nullish_to_null v)
     end)
    (fun _ => ret JNull).

Definition getZapikey : M World json :=
  cached <- gets cachedZapikey ;;
  if truthy cached then ret cached
  else
    if present (env rt "CLIQ_ZAPIKEY") then
      let envKey := JStr (field_text (env rt "CLIQ_ZAPIKEY")) in
      modify (set_cachedZapikey envKey) ;;; ret envKey
    else
      k <- opGet WEBHOOK_OP_ITEM "credential" ;;
      modify (set_cachedZapikey k) ;;; ret k.

Definition lt_expiry (t : Z) (e : option Z) : bool :=
  match e with Some x => (t <? x)%Z | None => false end.

Definition expiry_instant (t : Z) (expiresIn : json) : option Z :=
  match ToNumber rt expiresIn with
  | Some e => Some (t + e * 1000)%Z
  | None => None
  end.

Definition getOAuthToken : M World json :=
  cached <- gets cachedOAuthToken ;;
  t <- Date_now ;;
  expires <- gets oauthExpiresAt ;;
  if truthy cached && lt_expiry t expires then ret cached
  else
    refreshToken <- opGet OAUTH_OP_ITEM "refresh_token" ;;
    if negb (truthy refreshToken) then ret JNull
    else
      clientId <- opGet OAUTH_OP_ITEM "client_id" ;;
      clientSecret <- opGet OAUTH_OP_ITEM "client_secret" ;;
      if negb (truthy clientId) || negb (truthy clientSecret) then ret JNull
      else
        try_catch
          (result <- execSync EvTokenExchange curl_stdout
                       (token_exchange_cmd (ToString rt refreshToken)
                          (ToString rt clientId) (ToString rt clientSecret)) ;;
           response <- lift (JSON_parse rt result) ;;
           access <- lift (get_prop response "access_token") ;;
           match access with
           | Some token =>
               if truthy token then
                 expires_in <- lift (get_prop response "expires_in") ;;
                 t' <- Date_now ;;
                 modify (set_oauth token
                           (expiry_instant t' (or_else expires_in (JNum 3600)))) ;;;
                 ret token
               else ret JNull
           | None => ret JNull
           end)
          (fun _ => ret JNull).

Definition curl_command (url : string) (method : Method)
  (headers : list (string * string)) (body : option json) : string :=
  "curl -s -o /tmp/cliq-mcp-response.txt -w " ++ dq ++ "%{http_code}" ++ dq ++
  " " ++ "-X " ++ method_name method ++ " '" ++ url ++ "' " ++
  String.concat " " (map header_flag headers) ++ " " ++
  match body with
  | Some b =>
      if truthy b then "-d '" ++ escape_quotes (JSON_stringify rt b) ++ "'"
      else ""
  | None => ""
  end.

(** The [curl] subprocess of [curlJson]: the body lands in the response
    file, and the status is the number [parseInt] reads back from the
    digits printed by [-w %{http_code}]. *)
Definition run_curl (cmd : string) : M World Z :=
  fun w =>
    let n := List.length (trace w) in
    match curl rt n cmd with
    | Ok r =>
        (Ok (Sys.status r),
         mkWorld (cachedZapikey w) (cachedOAuthToken w) (oauthExpiresAt w)
                 (Some (body r)) (time_after rt n) (trace w ++ [EvApi cmd]))
    | Throw e =>
        (Throw e,
         mkWorld (cachedZapikey w) (cachedOAuthToken w) (oauthExpiresAt w)
                 (response_file w) (time_after rt n) (trace w ++ [EvApi cmd]))
    end.

Definition read_response_file : M World string :=
  fun w => match response_file w with
           | Some s => (Ok s, w)
           | None => (Throw "ENOENT", w)
           end.

(** [curlJson]: the subprocess may throw.  What follows is inside the
    [try]: [require("fs")], reading the response file and parsing it; an
    exception of any of the three leaves [data] at [null]. *)
Definition curlJson (url : string) (method : Method)
  (headers : list (string * string)) (body : option json)
  : M World CurlResult :=
  st <- run_curl (curl_command url method headers body) ;;
  d <- try_catch
         (lift (require_fs rt) ;;;
          raw <- read_response_file ;;
          if is_empty raw then ret JNull else lift (JSON_parse rt raw))
         (fun _ => ret JNull) ;;
  ret (mkCurl d st).

Definition no_oauth_message : string :=
  "No OAuth token available. Check 1Password item 'cliq.zoho.com'.".

Definition listChannels : M World ChannelsResult :=
  token <- getOAuthToken ;;
  if negb (truthy token) then ret (mkChannels [] (Some no_oauth_message))
  else
    r <- curlJson (BASE_URL ++ "/channels") GET
           [("Authorization", "Zoho-oauthtoken " ++ ToString rt token);
            ("Content-Type", "application/json")] None ;;
    if (status r <? 200)%Z || (300 <=? status r)%Z then
      ret (mkChannels [] (Some (http_error rt (status r) (data r))))
    else
      match data r with
      | JNull => ret (mkChannels [] (Some "Unexpected response format"))
      | d =>
          chans <- lift (get_prop d "channels") ;;
          if negb (truthy_opt chans) then
            ret (mkChannels [] (Some "Unexpected response format"))
          else
            match chans with
            | Some (JArr items) =>
                cs <- mapM (fun c => lift (to_channel c)) items ;;
                ret (mkChannels cs None)
            | _ => throw type_error
            end
      end.

Definition no_webhook_message : string :=
  "No webhook token available. Check 1Password item 'Cliq luminous-agent-api'.".

Definition send_payload (input : SendMessageInput) : json :=
  JObj [("text", JStr (text input));
        ("channel", JStr (if present (channelName input)
                          then field_text (channelName input)
                          else DEFAULT_CHANNEL))].

Definition webhook_url (zapikey : json) : string :=
  BASE_URL ++ "/bots/" ++ BOT_NAME ++ "/incoming?zapikey=" ++ ToString rt zapikey.

Definition sendMessage (input : SendMessageInput) : M World SendResult :=
  if is_empty (text input) then
    ret (mkSend false (Some "Message text is required"))
  else
    zapikey <- getZapikey ;;
    if negb (truthy zapikey) then ret (mkSend false (Some no_webhook_message))
    else
      r <- curlJson (webhook_url zapikey) POST
             [("Content-Type", "application/json")]
             (Some (send_payload input)) ;;
      if status_ok (status r) then ret (mkSend true None)
      else ret (mkSend false (Some (http_error rt (status r) (data r)))).

(** *** Argument schemas and the tool-call handler *)

(** [z.object({}).parse(args)]. *)
Definition ListChannelsSchema_parse (args : option json) : Res unit :=
  match args with
  | Some (JObj _) => Ok tt
  | _ => Throw (zod_error rt args)
  end.

(** [z.object({ text: z.string().min(1), channelName: z.string().optional() })
    .parse(args)]; unknown keys are dropped. *)
Definition SendMessageSchema_parse (args : option json) : Res SendMessageInput :=
  match args with
  | Some (JObj fs) =>
      match lookup_field "text" fs with
      | Some (JStr t) =>
          if is_empty t then Throw (zod_error rt args)
          else
            match lookup_field "channelName" fs with
            | None => Ok (mkInput t None None None)
            | Some (JStr c) => Ok (mkInput t (Some c) None None)
            | Some _ => Throw (zod_error rt args)
            end
      | _ => Throw (zod_error rt args)
      end
  | _ => Throw (zod_error rt args)
  end.

Definition error_result (msg : string) : ToolResult :=
  mkTool ("Error: " ++ msg) true.

Definition not_supported : ToolResult :=
  mkTool "Reply-to-message is not yet supported via bot webhook." true.

Definition callTool (tool : string) (args : option json) : M World ToolResult :=
  try_catch
    (if String.eqb tool "cliq_list_channels" then
       lift (ListChannelsSchema_parse args) ;;;
       result <- listChannels ;;
       if present (channels_error result) then
         ret (error_result (field_text (channels_error result)))
       else
         ret (mkTool (JSON_stringify_pretty rt
                        (JArr (map channel_json (channels result)))) false)
     else if String.eqb tool "cliq_send_message" then
       validated <- lift (SendMessageSchema_parse args) ;;
       result <- sendMessage validated ;;
       if present (send_error result) then
         ret (error_result (field_text (send_error result)))
       else
         ret (mkTool ("Message sent to #" ++
                      (if present (channelName validated)
                       then field_text (channelName validated)
                       else "luminous") ++ " as bot.") false)
     else if String.eqb tool "cliq_reply_to_message" then
       ret not_supported
     else
       ret (mkTool ("Unknown tool: " ++ tool) true))
    (fun msg => ret (error_result msg)).

End Program.

End Webhook.

(* ================================================================== *)
(** ** Vocabulary of the specification *)

Module Spec.

Import OAuth.

(** The four destination selectors, in the order [sendMessage] looks at
    them. *)
Inductive Selector : Type := ChannelId | ChannelName | ChatId | UserId.

Definition priority : list Selector := [ChannelId; ChannelName; ChatId; UserId].

(** The URL template of a selector kind. *)
Definition template (k : Selector) (v : string) : string :=
  match k with
  | ChannelId => "/channels/" ++ v ++ "/messages"
  | ChannelName => "/channelsbyname/" ++ v ++ "/message"
  | ChatId => "/chats/" ++ v ++ "/messages"
  | UserId => "/users/" ++ v ++ "/messages"
  end.

Definition selector_value (k : Selector) (input : SendMessageInput)
  : option string :=
  match k with
  | ChannelId => channelId input
  | ChannelName => channelName input
  | ChatId => chatId input
  | UserId => userId input
  end.

Definition selector_eqb (a b : Selector) : bool :=
  match a, b with
  | ChannelId, ChannelId | ChannelName, ChannelName
  | ChatId, ChatId | UserId, UserId => true
  | _, _ => false
  end.

(** A selector is present when its field is defined and not empty. *)
Definition selected (k : Selector) (input : SendMessageInput) : bool :=
  present (selector_value k input).

(** The endpoint of the first selector present, in priority order. *)
Definition by_priority (input : SendMessageInput) : option string :=
  match find (fun k => selected k input) priority with
  | Some k => Some (template k (field_text (selector_value k input)))
  | None => None
  end.

(** The command line of [apiRequest] around the authorization value. *)
Definition header_prefix (method : Method) (url : string) : string :=
  "curl -s -X " ++ method_name method ++ " '" ++ url ++ "' " ++
  "-H 'Authorization: ".

Definition header_suffix (rt : Runtime) (body : option json) : string :=
  "' " ++ "-H 'Content-Type: application/json' " ++
  match body with
  | Some b =>
      if truthy b then "-d '" ++ escape_quotes (JSON_stringify rt b) ++ "'"
      else ""
  | None => ""
  end.

(** The world once the subprocess [cmd] has run in [w]. *)
Definition after_call (rt : Runtime) (ev : string -> Event) (cmd : string)
  (w : World) : World :=
  mkWorld (cachedToken w) (config_file w) (disk_writable w)
          (time_after rt (List.length (trace w))) (trace w ++ [ev cmd]).

(** The response built from the answer to the retried call. *)
Definition retried_response (rt : Runtime) (answer : Res HttpResponse)
  : ApiResponse :=
  match answer with
  | Ok r2 =>
      match JSON_parse rt (body r2) with
      | Ok d2 => mkApi d2 None
      | Throw msg => mkApi JNull (Some msg)
      end
  | Throw msg => mkApi JNull (Some msg)
  end.

(** [w'] continues [w] by events none of which is an API call. *)
Definition quiet (w w' : World) : Prop :=
  exists evs, trace w' = (trace w ++ evs)%list /\
              Forall (fun e => is_api e = false) evs.

(** The token the configuration file offers: the file is there and
    readable, it parses, its token and expiry are set, and the expiry lies
    strictly after the current instant. *)
Definition disk_token (rt : Runtime) (w : World) : option json :=
  match config_file w with
  | Content s =>
      match JSON_parse rt s with
      | Ok cfg =>
          match get_prop cfg "access_token", get_prop cfg "expires_at" with
          | Ok (Some tok), Ok (Some e) =>
              if truthy tok && truthy e && lt_num rt (now w) e
              then Some tok else None
          | _, _ => None
          end
      | Throw _ => None
      end
  | _ => None
  end.

(** The runtime [rt] with the status of every HTTP answer replaced by what
    [f] says; the bodies stay. *)
Definition with_statuses (f : nat -> string -> Z) (rt : Runtime) : Runtime :=
  mkRuntime (env rt) (JSON_parse rt) (JSON_stringify rt)
    (JSON_stringify_pretty rt) (ToNumber_other rt) (ToString_other rt)
    (toISOString rt) (zod_error rt) (op_cli rt)
    (fun n cmd => match curl rt n cmd with
                  | Ok r => Ok (mkHttp (f n cmd) (Sys.body r))
                  | Throw e => Throw e
                  end)
    (time_after rt) (require_fs rt).

(** What [curlJson] makes of the body of an answer: [null] when
    [require("fs")] throws, when the body is empty and when it is not JSON;
    the parsed body otherwise. *)
Definition response_data (rt : Runtime) (r : HttpResponse) : json :=
  match require_fs rt with
  | Throw _ => JNull
  | Ok _ =>
      if is_empty (Sys.body r) then JNull
      else match JSON_parse rt (Sys.body r) with
           | Ok v => v
           | Throw _ => JNull
           end
  end.

(** The webhook variant's world once [curl] has answered [cmd] with [r]. *)
Definition after_curl (rt : Runtime) (cmd : string) (r : HttpResponse)
  (w : Webhook.World) : Webhook.World :=
  Webhook.mkWorld (Webhook.cachedZapikey w) (Webhook.cachedOAuthToken w)
    (Webhook.oauthExpiresAt w) (Some (Sys.body r))
    (time_after rt (List.length (Webhook.trace w)))
    (Webhook.trace w ++ [EvApi cmd]).

End Spec.

(* ================================================================== *)
(** ** Vocabulary for the traces *)

Module Trace.

Definition is_write (e : Event) : bool :=
  match e with EvWrite _ _ _ => true | _ => false end.

Definition is_exchange (e : Event) : bool :=
  match e with EvTokenExchange _ => true | _ => false end.

Definition is_lookup (e : Event) : bool :=
  match e with EvOp _ => true | _ => false end.

(** The four ways a run of [refreshAccessToken] can go, by the events it
    leaves: the first lookup only, both lookups, both lookups and the
    exchange, or all of these and the write of the cache file. *)
Inductive refresh_shape (item : string) : list Event -> Prop :=
| stopped_at_client_id :
    refresh_shape item [EvOp (op_item_get item "client_id")]
| stopped_at_client_secret :
    refresh_shape item [EvOp (op_item_get item "client_id");
                        EvOp (op_item_get item "client_secret")]
| stopped_at_exchange (cmd : string) :
    refresh_shape item [EvOp (op_item_get item "client_id");
                        EvOp (op_item_get item "client_secret");
                        EvTokenExchange cmd]
| wrote_record (cmd content : string) (ok : bool) :
    refresh_shape item [EvOp (op_item_get item "client_id");
                        EvOp (op_item_get item "client_secret");
                        EvTokenExchange cmd;
                        EvWrite content 384 ok].

(** What [apiRequest] answers when it made a single call, by the answer
    [a] that call got. *)
Definition single_call_response (rt : Runtime) (a : Res HttpResponse)
  : OAuth.ApiResponse :=
  match a with
  | Throw e => OAuth.mkApi JNull (Some e)
  | Ok r =>
      match JSON_parse rt (Sys.body r) with
      | Throw e => OAuth.mkApi JNull (Some e)
      | Ok d =>
          match get_prop d "code" with
          | Throw e => OAuth.mkApi JNull (Some e)
          | Ok code =>
              if OAuth.is_auth_rejection code
              then OAuth.mkApi JNull (Some "Failed to refresh access token")
              else OAuth.mkApi d None
          end
      end
  end.

(** The webhook variant's world once the lookup [cmd] has run in [w]. *)
Definition after_lookup (rt : Runtime) (cmd : string) (w : Webhook.World)
  : Webhook.World :=
  Webhook.mkWorld (Webhook.cachedZapikey w) (Webhook.cachedOAuthToken w)
    (Webhook.oauthExpiresAt w) (Webhook.response_file w)
    (time_after rt (List.length (Webhook.trace w)))
    (Webhook.trace w ++ [EvOp cmd]).

(** The value [opGet] draws from the answer of the secret store. *)
Definition lookup_value (rt : Runtime) (field : string) (answer : Res string)
  : json :=
  match answer with
  | Throw _ => JNull
  | Ok out =>
      match JSON_parse rt out with
      | Throw _ => JNull
      | Ok (JArr items) =>
          match find_value field (JArr items) with
          | Ok v => nullish_to_null v
          | Throw _ => JNull
          end
      | Ok p =>
          match get_prop p "value" with
          | Ok v => nullish_to_null v
          | Throw _ => JNull
          end
      end
  end.

(** The ways a run of the webhook variant's [getOAuthToken] can go past its
    cache: the lookup of the refresh token alone; the three lookups; the
    three lookups and the exchange. *)
Inductive oauth_shape (item : string) : list Event -> Prop :=
| stopped_at_refresh_token :
    oauth_shape item [EvOp (op_item_get item "refresh_token")]
| stopped_at_client_fields :
    oauth_shape item [EvOp (op_item_get item "refresh_token");
                      EvOp (op_item_get item "client_id");
                      EvOp (op_item_get item "client_secret")]
| reached_exchange (cmd : string) :
    oauth_shape item [EvOp (op_item_get item "refresh_token");
                      EvOp (op_item_get item "client_id");
                      EvOp (op_item_get item "client_secret");
                      EvTokenExchange cmd].

End Trace.

(* ================================================================== *)
(** ** How the shell reads a quoted word *)

Module Shell.

(** The text a POSIX shell makes of a word built from single-quoted
    stretches and backslash-escaped characters: inside quotes every
    character up to the closing quote stands for itself; outside, a quote
    opens a stretch and a backslash makes the next character literal.
    [None] for a word with an unclosed quote or any other construct. *)
Fixpoint word (inside : bool) (s : string) : option string :=
  match s with
  | EmptyString => if inside then None else Some EmptyString
  | String c rest =>
      if inside then
        if Ascii.eqb c apostrophe then word false rest
        else option_map (String c) (word true rest)
      else
        if Ascii.eqb c apostrophe then word true rest
        else if Ascii.eqb c backslash then
          match rest with
          | String d rest' => option_map (String d) (word false rest')
          | EmptyString => None
          end
        else None
  end.

End Shell.

(* ================================================================== *)
(** ** Concrete runs

    Small closed worlds on which the program can be evaluated: the
    environment, the documents the parser knows, and the answers of the
    subprocesses in the order they are asked for. *)

Module Fixtures.

(** A JSON string literal and a one-member object text. *)
Definition q (s : string) : string := dq ++ s ++ dq.
Definition member (k v : string) : string := "{" ++ q k ++ ":" ++ v ++ "}".

Fixpoint assoc {A} (k : string) (l : list (string * A)) : option A :=
  match l with
  | [] => None
  | (k', v) :: rest => if String.eqb k k' then Some v else assoc k rest
  end.

(** A runtime given by tables.  [docs] lists the texts the parser accepts
    (it agrees with [JSON.parse] on them); [ops] and [https] give the answer
    of the subprocess started as the n-th event, a missing entry being a
    failed subprocess.  The program runs as an ES module, as its [import]
    statements are written: there is no [require]. *)
Definition table_runtime (envs : list (string * string))
  (docs : list (string * json)) (ops : list (option string))
  (https : list (option HttpResponse)) (clock : nat -> Z) : Runtime :=
  mkRuntime
    (fun k => assoc k envs)
    (fun s => match assoc s docs with
              | Some v => Ok v
              | None => Throw "SyntaxError"
              end)
    (fun v => match v with
              | JObj [("text", JStr t); ("sync_message", JBool true)] =>
                  "{" ++ q "text" ++ ":" ++ q t ++ "," ++ q "sync_message" ++ ":true}"
              | JObj [("text", JStr t); ("channel", JStr c)] =>
                  "{" ++ q "text" ++ ":" ++ q t ++ "," ++ q "channel" ++ ":" ++ q c ++ "}"
              | JObj [("message", JStr t)] => member "message" (q t)
              | JObj [("access_token", JStr t); ("expires_at", JNum e);
                      ("created", JStr c); ("source", JStr o)] =>
                  "{" ++ q "access_token" ++ ":" ++ q t ++ "," ++
                  q "expires_at" ++ ":" ++ show_Z e ++ "," ++
                  q "created" ++ ":" ++ q c ++ "," ++
                  q "source" ++ ":" ++ q o ++ "}"
              | JNull => "null"
              | JBool b => if b then "true" else "false"
              | _ => "{}"
              end)
    (fun _ => "[]")
    (fun _ => None)
    (fun _ => "[object Object]")
    (fun _ => "1970-01-01T00:00:00.000Z")
    (fun _ => "invalid arguments")
    (fun n _ => match nth n ops None with
                | Some s => Ok s
                | None => Throw "Command failed: op"
                end)
    (fun n _ => match nth n https None with
                | Some r => Ok r
                | None => Throw "Command failed: curl"
                end)
    clock
    (Throw "require is not defined").

(** The same runtime for a CommonJS build, where [require("fs")] gives the
    file-system module. *)
Definition commonjs (rt : Runtime) : Runtime :=
  mkRuntime (env rt) (JSON_parse rt) (JSON_stringify rt)
    (JSON_stringify_pretty rt) (ToNumber_other rt) (ToString_other rt)
    (toISOString rt) (zod_error rt) (op_cli rt) (curl rt) (time_after rt)
    (Ok tt).

Definition rejected_text : string := member "code" (q "INVALID_OAUTH").
Definition rejected : json := JObj [("code", JStr "INVALID_OAUTH")].

(** The override is set; the API rejects the token twice. *)
Definition rt_rejecting : Runtime :=
  table_runtime [("CLIQ_ACCESS_TOKEN", "tok-123")]
    [(rejected_text, rejected)]
    []
    [Some (mkHttp 401 rejected_text); Some (mkHttp 401 rejected_text)]
    (fun _ => 1000%Z).

Definition fresh : OAuth.World := OAuth.mkWorld JNull OAuth.Absent true 1000 [].

(** The command of [GET /channels] under the override token. *)
Definition channels_cmd : string :=
  OAuth.curl_command rt_rejecting OAuth.GET
    (OAuth.request_url rt_rejecting "/channels") (JStr "tok-123") None.

(** The world after the first call, and after the re-resolution. *)
Definition after_first : OAuth.World :=
  OAuth.mkWorld (JStr "tok-123") OAuth.Absent true 1000 [EvApi channels_cmd].
Definition after_second : OAuth.World :=
  OAuth.mkWorld (JStr "tok-123") OAuth.Absent true 1000
    [EvApi channels_cmd; EvApi channels_cmd].

(** The override is set; the API answers a send with status 500 and an
    error document. *)
Definition failure_text : string := member "message" (q "boom").
Definition failure_doc : json := JObj [("message", JStr "boom")].

Definition rt_server_error : Runtime :=
  table_runtime [("CLIQ_ACCESS_TOKEN", "tok-123")]
    [(failure_text, failure_doc)]
    []
    [Some (mkHttp 500 failure_text)]
    (fun _ => 1000%Z).

(** No override; the configuration file holds a token that expires at
    instant 500. *)
Definition record_text : string :=
  "{" ++ q "access_token" ++ ":" ++ q "disk-tok" ++ "," ++
  q "expires_at" ++ ":500}".
Definition record_doc : json :=
  JObj [("access_token", JStr "disk-tok"); ("expires_at", JNum 500)].

Definition rt_disk : Runtime :=
  table_runtime [] [(record_text, record_doc)] [] [] (fun _ => 1000%Z).

Definition disk_world (slot : json) (t : Z) : OAuth.World :=
  OAuth.mkWorld slot (OAuth.Content record_text) true t [].

(** The secret store knows the client id and secret; the token endpoint
    answers with a token that lives 7200 seconds. *)
Definition field_text_of (label value : string) : string :=
  "[{" ++ q "label" ++ ":" ++ q label ++ "," ++ q "value" ++ ":" ++ q value ++ "}]".
Definition field_doc (label value : string) : json :=
  JArr [JObj [("label", JStr label); ("value", JStr value)]].

Definition grant_text : string :=
  "{" ++ q "access_token" ++ ":" ++ q "new-tok" ++ "," ++
  q "expires_in" ++ ":7200}".
Definition grant_doc : json :=
  JObj [("access_token", JStr "new-tok"); ("expires_in", JNum 7200)].

Definition rt_refresh : Runtime :=
  table_runtime []
    [(field_text_of "client_id" "cid", field_doc "client_id" "cid");
     (field_text_of "client_secret" "sec", field_doc "client_secret" "sec");
     (grant_text, grant_doc)]
    [Some (field_text_of "client_id" "cid");
     Some (field_text_of "client_secret" "sec")]
    [None; None; Some (mkHttp 200 grant_text)]
    (fun _ => 5000%Z).

(** As [rt_refresh], but the token endpoint gives the token a lifetime of
    zero seconds. *)
Definition spent_grant_text : string :=
  "{" ++ q "access_token" ++ ":" ++ q "new-tok" ++ "," ++
  q "expires_in" ++ ":0}".
Definition spent_grant_doc : json :=
  JObj [("access_token", JStr "new-tok"); ("expires_in", JNum 0)].

Definition rt_spent_grant : Runtime :=
  table_runtime []
    [(field_text_of "client_id" "cid", field_doc "client_id" "cid");
     (field_text_of "client_secret" "sec", field_doc "client_secret" "sec");
     (spent_grant_text, spent_grant_doc)]
    [Some (field_text_of "client_id" "cid");
     Some (field_text_of "client_secret" "sec")]
    [None; None; Some (mkHttp 200 spent_grant_text)]
    (fun _ => 5000%Z).

(** The override is set; the API accepts a send with status 201. *)
Definition sent_text : string := member "id" (q "m1").
Definition sent_doc : json := JObj [("id", JStr "m1")].

Definition rt_accepting : Runtime :=
  table_runtime [("CLIQ_ACCESS_TOKEN", "tok-123")]
    [(sent_text, sent_doc)]
    []
    [Some (mkHttp 201 sent_text)]
    (fun _ => 1000%Z).


(** The webhook key is set in the environment; the webhook answers with
    status 500 and an error document. *)
Definition rt_webhook_error : Runtime :=
  table_runtime [("CLIQ_ZAPIKEY", "key-1")]
    [(failure_text, failure_doc)]
    []
    [Some (mkHttp 500 failure_text)]
    (fun _ => 1000%Z).

Definition fresh_webhook : Webhook.World :=
  Webhook.mkWorld JNull JNull (Some 0%Z) None 1000 [].

(** The secret store prints the field as an object, or the fields as an
    array, each with its id and type before label and value. *)
Definition vault_entry_text (label kind value : string) : string :=
  "{" ++ q "id" ++ ":" ++ q label ++ "," ++ q "type" ++ ":" ++ q kind ++ "," ++
  q "label" ++ ":" ++ q label ++ "," ++ q "value" ++ ":" ++ q value ++ "}".
Definition vault_entry (label kind value : string) : json :=
  JObj [("id", JStr label); ("type", JStr kind);
        ("label", JStr label); ("value", JStr value)].

Definition rt_vault_field : Runtime :=
  table_runtime []
    [(vault_entry_text "credential" "CONCEALED" "key-9",
      vault_entry "credential" "CONCEALED" "key-9")]
    [Some (vault_entry_text "credential" "CONCEALED" "key-9")]
    []
    (fun _ => 1000%Z).

Definition vault_list_text : string :=
  "[" ++ vault_entry_text "username" "STRING" "bot" ++ "," ++
  vault_entry_text "credential" "CONCEALED" "key-9" ++ "]".

Definition rt_vault_list : Runtime :=
  table_runtime []
    [(vault_list_text,
      JArr [vault_entry "username" "STRING" "bot";
            vault_entry "credential" "CONCEALED" "key-9"])]
    [Some vault_list_text]
    []
    (fun _ => 1000%Z).

(** A world whose OAuth token is good until instant 2000. *)
Definition warm_webhook (t : Z) : Webhook.World :=
  Webhook.mkWorld JNull (JStr "tok-w") (Some 2000%Z) None t [].

(** The key is set and the default channel is configured to be [ops]; the
    webhook accepts the message. *)
Definition rt_webhook_ops : Runtime :=
  table_runtime [("CLIQ_ZAPIKEY", "key-1"); ("CLIQ_DEFAULT_CHANNEL", "ops")]
    [] [] [Some (mkHttp 204 "")] (fun _ => 1000%Z).

Definition hi_default : Webhook.SendMessageInput :=
  Webhook.mkInput "hi" None None None.

(** The override is set; the API answers the channel listing with status
    200 and the JSON document [false]. *)
Definition rt_false_body : Runtime :=
  table_runtime [("CLIQ_ACCESS_TOKEN", "tok-123")]
    [("false", JBool false)]
    []
    [Some (mkHttp 200 "false")]
    (fun _ => 1000%Z).

(** As [rt_disk], with a parser that also reads the empty object. *)
Definition rt_disk_reset : Runtime :=
  table_runtime [] [(record_text, record_doc); ("{}", JObj [])] [] []
    (fun _ => 1000%Z).

(** The same file on a disk that refuses writes. *)
Definition locked_world (slot : json) (t : Z) : OAuth.World :=
  OAuth.mkWorld slot (OAuth.Content record_text) false t [].

(** The override is set; the API lists one channel. *)
Definition general_entry : json :=
  JObj [("id", JStr "1"); ("name", JStr "General");
        ("unique_name", JStr "general")].
Definition listing_text : string :=
  "{" ++ q "channels" ++ ":[{" ++ q "id" ++ ":" ++ q "1" ++ "," ++
  q "name" ++ ":" ++ q "General" ++ "," ++
  q "unique_name" ++ ":" ++ q "general" ++ "}]}".
Definition listing_doc : json := JObj [("channels", JArr [general_entry])].

Definition rt_listing : Runtime :=
  table_runtime [("CLIQ_ACCESS_TOKEN", "tok-123")]
    [(listing_text, listing_doc)]
    []
    [Some (mkHttp 200 listing_text)]
    (fun _ => 1000%Z).

(** Arguments of a send with an empty channel id and a user id. *)
Definition send_args : json :=
  JObj [("text", JStr "hi"); ("channelId", JStr ""); ("userId", JStr "7")].

Definition hi_42 : OAuth.SendMessageInput :=
  OAuth.mkInput "hi" (Some "42") None None None.

(** As [rt_refresh], with a parser that also reads the record the refresh
    writes: the token, good until 5000 + 7200 * 1000. *)
Definition refreshed_record : json :=
  OAuth.cache_record (JStr "new-tok") (Some 7205000%Z)
    "1970-01-01T00:00:00.000Z".

Definition rt_round_trip : Runtime :=
  table_runtime []
    [(field_text_of "client_id" "cid", field_doc "client_id" "cid");
     (field_text_of "client_secret" "sec", field_doc "client_secret" "sec");
     (grant_text, grant_doc);
     (JSON_stringify rt_refresh refreshed_record, refreshed_record)]
    [Some (field_text_of "client_id" "cid");
     Some (field_text_of "client_secret" "sec")]
    [None; None; Some (mkHttp 200 grant_text)]
    (fun _ => 5000%Z).

End Fixtures.

(* ================================================================== *)
(** * Properties *)

Unset Implicit Arguments.

(** ** Strings *)

Lemma append_assoc (a b c : string) : (a ++ b) ++ c = a ++ (b ++ c).
Proof.
  induction a as [|x a IH]; simpl; [reflexivity | now rewrite IH].
Qed.

Lemma prefix_append (p s : string) : String.prefix p (p ++ s) = true.
Proof.
  induction p as [|x p IH]; simpl.
  - destruct s; reflexivity.
  - destruct (ascii_dec x x) as [_|n]; [exact IH | now elim n].
Qed.

Lemma drop_append (p s : string) : drop (String.length p) (p ++ s) = s.
Proof.
  induction p as [|x p IH]; simpl; [reflexivity | exact IH].
Qed.

Lemma prefix_head_mismatch (c d : ascii) (p s : string) :
  c <> d -> String.prefix (String c p) (String d s) = false.
Proof.
  intros Hne. simpl. destruct (ascii_dec c d) as [e|_]; [now elim Hne | reflexivity].
Qed.

(** A replacement text without a dollar sign is inserted as it is. *)
Lemma expand_replacement_plain (rep matched before after : string) :
  has_char dollar rep = false ->
  expand_replacement rep matched before after = rep.
Proof.
  induction rep as [|a rep IH]; [reflexivity|].
  cbn [has_char expand_replacement].
  intros H. apply orb_false_iff in H as [Ha Hrep].
  rewrite Ascii.eqb_sym in Ha. rewrite Ha. now rewrite IH.
Qed.

Lemma split_first_eq (pat s : string) :
  split_first pat s =
  if String.prefix pat s then Some (EmptyString, drop (String.length pat) s)
  else match s with
       | EmptyString => None
       | String c s' =>
           match split_first pat s' with
           | Some (b, a) => Some (String c b, a)
           | None => None
           end
       end.
Proof.
  destruct s; reflexivity.
Qed.

(** The first occurrence of a pattern that starts with [c] lies after any
    text in which [c] does not occur. *)
Lemma split_first_skip (c : ascii) (p pre post : string) :
  has_char c pre = false ->
  split_first (String c p) (pre ++ String c p ++ post) = Some (pre, post).
Proof.
  induction pre as [|d pre IH]; intros H.
  - change (EmptyString ++ String c p ++ post) with (String c p ++ post).
    rewrite split_first_eq, prefix_append.
    now rewrite drop_append.
  - cbn [has_char] in H. apply orb_false_iff in H as [Hd Hpre].
    change ((String d pre) ++ String c p ++ post)
      with (String d (pre ++ String c p ++ post)).
    rewrite split_first_eq, prefix_head_mismatch.
    + now rewrite (IH Hpre).
    + intros ->. now rewrite Ascii.eqb_refl in Hd.
Qed.

Lemma replace_first (s pat rep before after : string) :
  split_first pat s = Some (before, after) ->
  has_char dollar rep = false ->
  replace s pat rep = before ++ rep ++ after.
Proof.
  intros Hs Hd. unfold replace. rewrite Hs.
  now rewrite expand_replacement_plain.
Qed.

Lemma is_empty_false (s : string) : s <> "" -> is_empty s = false.
Proof.
  destruct s; [intros H; now elim H | reflexivity].
Qed.

Lemma length_snoc {A} (l : list A) (x : A) :
  List.length (l ++ [x]) = S (List.length l).
Proof.
  rewrite List.length_app. simpl. lia.
Qed.

Lemma filter_snoc {A} (f : A -> bool) (l : list A) (x : A) :
  filter f (l ++ [x]) = (filter f l ++ (if f x then [x] else []))%list.
Proof.
  rewrite filter_app. reflexivity.
Qed.

(** ** Symbolic execution *)

(** One step of case analysis on the innermost scrutinee of the goal. *)
Ltac run_step :=
  match goal with
  | |- context [match ?x with _ => _ end] =>
      lazymatch x with
      | context [match _ with _ => _ end] => fail
      | _ => destruct x eqn:?
      end
  end.

Ltac run := repeat (run_step; cbn).

Ltac trace_eq :=
  cbn; repeat rewrite filter_snoc; cbn; repeat rewrite app_nil_r;
  repeat rewrite length_snoc; try reflexivity.

Lemma no_api_filter (l : list Event) :
  Forall (fun e => is_api e = false) l -> filter is_api l = [].
Proof.
  induction 1 as [|x l Hx _ IH]; cbn; [reflexivity | now rewrite Hx].
Qed.

Lemma quiet_refl (w : OAuth.World) : Spec.quiet w w.
Proof.
  exists []. split; [now rewrite app_nil_r | constructor].
Qed.

Lemma quiet_trans (a b c : OAuth.World) :
  Spec.quiet a b -> Spec.quiet b c -> Spec.quiet a c.
Proof.
  intros (e1 & H1 & F1) (e2 & H2 & F2). exists (e1 ++ e2)%list. split.
  - now rewrite H2, H1, app_assoc.
  - apply Forall_app. now split.
Qed.

(** Closes [quiet w w'] when the trace of [w'] is the trace of [w] followed
    by explicit events. *)
Ltac quiet_tac :=
  first
    [ apply quiet_refl
    | exists []; split; [cbn; now rewrite app_nil_r | constructor]
    | unfold Spec.quiet; cbn; repeat rewrite <- app_assoc; cbn;
      eexists; split; [reflexivity | repeat constructor] ].

(** The program's functions are unfolded on request only. *)
Arguments OAuth.refreshAccessToken : simpl never.
Arguments OAuth.fromConfigFile : simpl never.
Arguments OAuth.fromSecretStore : simpl never.
Arguments OAuth.loadToken : simpl never.
Arguments OAuth.clearTokenCache : simpl never.
Arguments OAuth.apiRequest : simpl never.
Arguments OAuth.curl_command : simpl never.
Arguments OAuth.authorization : simpl never.
Arguments OAuth.request_url : simpl never.
Arguments op_item_get : simpl never.
Arguments token_exchange_cmd : simpl never.
Arguments replace : simpl never.
Arguments Webhook.opGet : simpl never.
Arguments Webhook.getZapikey : simpl never.
Arguments Webhook.getOAuthToken : simpl never.
Arguments Webhook.curlJson : simpl never.
Arguments Webhook.curl_command : simpl never.
Arguments Webhook.http_error : simpl never.

(** ** OAuth variant: the resolver *)

Section ResolverFacts.

Import OAuth.
Variable rt : Runtime.

(** The refresh exchange never throws; it yields [null] and leaves the slot
    alone, or yields a truthy token and stores it; it makes no API call. *)
Lemma refreshAccessToken_total (r : json) (w : World) :
  exists tok w', refreshAccessToken rt r w = (Ok tok, w') /\
    (tok = JNull /\ cachedToken w' = cachedToken w \/
     truthy tok = true /\ cachedToken w' = tok) /\
    Spec.quiet w w'.
Proof.
  unfold refreshAccessToken, try_catch, bind, execSync, lift, ret, modify,
    Date_now, gets, writeFileSync, curl_stdout.
  cbn. run.
  all: eexists; eexists; split; [reflexivity|]; cbn; split; [auto|]; quiet_tac.
Qed.

(** The configuration-file step reads only: either it falls through and
    nothing changed, or it accepts a truthy token and stores it. *)
Lemma fromConfigFile_total (w : World) :
  fromConfigFile rt w = (Ok None, w) \/
  exists tok, truthy tok = true /\
    fromConfigFile rt w = (Ok (Some tok), set_cachedToken tok w).
Proof.
  unfold fromConfigFile, try_catch, bind, existsSync, readFileSync, lift, ret,
    modify, Date_now, gets.
  destruct w as [c f d n t]; destruct f; cbn; try (left; reflexivity).
  run.
  all: try (left; reflexivity).
  all: right; eexists; split; [|reflexivity]; assumption.
Qed.

Lemma fromSecretStore_total (w : World) :
  exists tok w', fromSecretStore rt w = (Ok tok, w') /\
    (tok = JNull /\ cachedToken w' = cachedToken w \/
     truthy tok = true /\ cachedToken w' = tok) /\
    Spec.quiet w w'.
Proof.
  unfold fromSecretStore, try_catch, bind, execSync, lift, ret.
  cbn.
  destruct (op_cli rt _ _) as [s|e]; cbn;
    [destruct (JSON_parse rt s) as [p|e]; cbn;
     [destruct (find_value "refresh_token" p) as [[v|]|e]; cbn;
      [destruct (truthy v) eqn:Hv|..]|]|].
  2-6: eexists; eexists; split; [reflexivity|]; cbn; split; [auto|]; quiet_tac.
  match goal with
  | |- context [refreshAccessToken rt v ?w0] =>
      destruct (refreshAccessToken_total v w0) as (tok & w' & E & Hc & Ht)
  end.
  rewrite E. exists tok, w'. split; [reflexivity|].
  split; [exact Hc|]. eapply quiet_trans; [|exact Ht]. quiet_tac.
Qed.

(** [loadToken] never throws.  Its result is [null], with the slot
    untouched, or a truthy token that is now in the slot; no API call is
    made on the way. *)
Lemma loadToken_total (w : World) :
  exists tok w', loadToken rt w = (Ok tok, w') /\
    (tok = JNull /\ cachedToken w' = cachedToken w \/
     truthy tok = true /\ cachedToken w' = tok) /\
    Spec.quiet w w'.
Proof.
  unfold loadToken, bind, gets, ret, modify. cbn.
  destruct (truthy (cachedToken w)) eqn:Hc; cbn.
  { exists (cachedToken w), w. split; [reflexivity|]. split; [auto|quiet_tac]. }
  destruct (present (env rt "CLIQ_ACCESS_TOKEN")) eqn:He; cbn.
  { eexists; eexists; split; [reflexivity|]. split; [|quiet_tac].
    right. split; [|reflexivity].
    destruct (env rt "CLIQ_ACCESS_TOKEN"); [exact He | discriminate]. }
  destruct (fromConfigFile_total w) as [E | (tok & Ht & E)]; rewrite E; cbn.
  - apply fromSecretStore_total.
  - eexists; eexists; split; [reflexivity|]. split; [|quiet_tac].
    right. split; [exact Ht | reflexivity].
Qed.

(** A token in the slot is returned at once, with nothing read or written. *)
Lemma loadToken_cached (w : World) :
  truthy (cachedToken w) = true -> loadToken rt w = (Ok (cachedToken w), w).
Proof.
  intros H. unfold loadToken, bind, gets, ret. cbn. now rewrite H.
Qed.

Lemma clearTokenCache_spec (w : World) :
  exists w', clearTokenCache w = (Ok tt, w') /\
    cachedToken w' = JNull /\
    now w' = now w /\
    Spec.quiet w w' /\
    filter is_secret_or_refresh (trace w') = filter is_secret_or_refresh (trace w).
Proof.
  unfold clearTokenCache, try_catch, bind, modify, existsSync, gets,
    writeFileSync, ret.
  cbn. run.
  all: eexists; split; [reflexivity|]; cbn; repeat split; try quiet_tac; trace_eq.
Qed.

End ResolverFacts.

(** ** The in-memory slot *)

(** C9.  Once [loadToken] has returned a token, the token is in the
    in-memory slot, and every later resolution that finds it there returns
    it as it is and changes nothing, whatever the clock and the
    configuration file say by then (no expiry check is made on the slot);
    [clearTokenCache] is what empties the slot. *)
Theorem in_memory_token_never_expires
  (rt : Runtime) (w w1 : OAuth.World) (tok : json) :
  OAuth.loadToken rt w = (Ok tok, w1) ->
  truthy tok = true ->
  OAuth.cachedToken w1 = tok /\
  (forall w2 : OAuth.World,
      OAuth.cachedToken w2 = tok ->
      OAuth.loadToken rt w2 = (Ok tok, w2)) /\
  (forall (t : Z) (f : OAuth.file_state),
      OAuth.loadToken rt
        (OAuth.mkWorld (OAuth.cachedToken w1) f (OAuth.disk_writable w1) t
           (OAuth.trace w1))
      = (Ok tok,
         OAuth.mkWorld (OAuth.cachedToken w1) f (OAuth.disk_writable w1) t
           (OAuth.trace w1))) /\
  (forall w2 : OAuth.World,
      OAuth.cachedToken (snd (OAuth.clearTokenCache w2)) = JNull).
Proof.
  intros Hload Htok.
  assert (Hslot : OAuth.cachedToken w1 = tok).
  { destruct (loadToken_total rt w) as (tok' & w' & E & [[Hn _] | [_ Hc]] & _);
      rewrite E in Hload; injection Hload as Et Ew.
    - rewrite <- Et, Hn in Htok. discriminate Htok.
    - now rewrite <- Et, <- Ew. }
  assert (Hlater : forall w2, OAuth.cachedToken w2 = tok ->
                         OAuth.loadToken rt w2 = (Ok tok, w2)).
  { intros w2 H2. rewrite <- H2. apply loadToken_cached. now rewrite H2. }
  repeat split.
  - exact Hslot.
  - exact Hlater.
  - intros t f. apply Hlater. exact Hslot.
  - intros w2. destruct (clearTokenCache_spec w2) as (w' & E & Hc & _).
    rewrite E. exact Hc.
Qed.

Lemma in_memory_token_never_expires_witness :
  OAuth.cachedToken (OAuth.set_cachedToken (JStr "tok-123") Fixtures.fresh)
    = JStr "tok-123" /\
  (forall w2 : OAuth.World,
      OAuth.cachedToken w2 = JStr "tok-123" ->
      OAuth.loadToken Fixtures.rt_rejecting w2 = (Ok (JStr "tok-123"), w2)) /\
  (forall (t : Z) (f : OAuth.file_state),
      OAuth.loadToken Fixtures.rt_rejecting
        (OAuth.mkWorld (JStr "tok-123") f true t [])
      = (Ok (JStr "tok-123"), OAuth.mkWorld (JStr "tok-123") f true t [])) /\
  (forall w2 : OAuth.World,
      OAuth.cachedToken (snd (OAuth.clearTokenCache w2)) = JNull).
Proof.
  apply (in_memory_token_never_expires Fixtures.rt_rejecting Fixtures.fresh
           (OAuth.set_cachedToken (JStr "tok-123") Fixtures.fresh)
           (JStr "tok-123")).
  - reflexivity.
  - reflexivity.
Defined.

(** ** Input validation *)

(** C6.  With an empty text [sendMessage] answers "Message text is
    required" whatever the selectors are, in both variants, and the world
    is left exactly as it was: no credential is resolved, no subprocess is
    started.  [replyToMessage] does the same, with its own message, when the
    text or the message id is empty. *)
Theorem empty_input_rejected_before_any_effect (rt : Runtime) :
  (forall (cid cn ch u : option string) (w : OAuth.World),
      OAuth.sendMessage rt (OAuth.mkInput "" cid cn ch u) w
      = (Ok (OAuth.mkSend JNull (Some "Message text is required")), w)) /\
  (forall (cn ch u : option string) (w : Webhook.World),
      Webhook.sendMessage rt (Webhook.mkInput "" cn ch u) w
      = (Ok (Webhook.mkSend false (Some "Message text is required")), w)) /\
  (forall (txt : string) (w : OAuth.World),
      OAuth.replyToMessage rt (OAuth.mkReply "" txt) w
      = (Ok (OAuth.mkReplyResult JNull
               (Some "Message ID and text are required")), w)) /\
  (forall (mid : string) (w : OAuth.World),
      OAuth.replyToMessage rt (OAuth.mkReply mid "") w
      = (Ok (OAuth.mkReplyResult JNull
               (Some "Message ID and text are required")), w)).
Proof.
  repeat split; intros.
  all: unfold OAuth.sendMessage, Webhook.sendMessage, OAuth.replyToMessage.
  all: cbn; try rewrite orb_true_r; reflexivity.
Qed.

(** ** The webhook server's handler *)

(** C8.  In the webhook variant a call of the reply tool is answered with
    the fixed "not supported" error, for any arguments, and the world is
    left exactly as it was: neither a credential lookup nor a network call
    happens. *)
Theorem reply_tool_not_supported
  (rt : Runtime) (args : option json) (w : Webhook.World) :
  Webhook.callTool rt "cliq_reply_to_message" args w
  = (Ok (Webhook.mkTool
           "Reply-to-message is not yet supported via bot webhook." true), w).
Proof.
  reflexivity.
Qed.

(** ** OAuth variant: the dispatcher *)

Section DispatcherFacts.

Import OAuth.
Variable rt : Runtime.

Lemma curl_command_split (m : Method) (url : string) (tok : json)
  (body : option json) :
  curl_command rt m url tok body
  = Spec.header_prefix m url ++ authorization rt tok ++ Spec.header_suffix rt body.
Proof.
  unfold curl_command, Spec.header_prefix, Spec.header_suffix.
  now repeat rewrite append_assoc.
Qed.

(** When the first occurrence of the old authorization value is the one of
    the header and the new token has no dollar sign, the retried command is
    the command of the same request under the new token. *)
Lemma retry_command (m : Method) (url : string) (tok newTok : json)
  (body : option json) :
  split_first (authorization rt tok) (curl_command rt m url tok body)
    = Some (Spec.header_prefix m url, Spec.header_suffix rt body) ->
  has_char dollar (ToString rt newTok) = false ->
  replace (curl_command rt m url tok body) (authorization rt tok)
    (authorization rt newTok)
  = curl_command rt m url newTok body.
Proof.
  intros Hs Hd.
  rewrite (replace_first _ _ _ _ _ Hs).
  - now rewrite curl_command_split.
  - unfold authorization.
    change ("Zoho-oauthtoken " ++ ToString rt newTok)
      with (String "Z" ("oho-oauthtoken " ++ ToString rt newTok)).
    cbn [has_char append]. exact Hd.
Qed.

(** The header's occurrence is the first one as soon as the URL has no
    capital Z. *)
Lemma first_occurrence_in_header (m : Method) (url : string) (tok : json)
  (body : option json) :
  has_char "Z" url = false ->
  split_first (authorization rt tok) (curl_command rt m url tok body)
    = Some (Spec.header_prefix m url, Spec.header_suffix rt body).
Proof.
  intros Hz. rewrite curl_command_split.
  unfold authorization.
  change ("Zoho-oauthtoken " ++ ToString rt tok)
    with (String "Z" ("oho-oauthtoken " ++ ToString rt tok)).
  apply split_first_skip.
  unfold Spec.header_prefix.
  assert (Happ : forall a b, has_char "Z" (a ++ b)
                             = has_char "Z" a || has_char "Z" b).
  { induction a as [|x a IH]; intros b; cbn [append has_char];
      [reflexivity | now rewrite IH, orb_assoc]. }
  repeat rewrite Happ. rewrite Hz. now destruct m.
Qed.

End DispatcherFacts.

Section ApiRequestFacts.

Import OAuth.
Variable rt : Runtime.

(** Without a token nothing is sent. *)
Lemma apiRequest_no_token (endpoint : string) (m : Method)
  (body : option json) (w w1 : World) (token : json) :
  loadToken rt w = (Ok token, w1) ->
  truthy token = false ->
  apiRequest rt endpoint m body w
  = (Ok (mkApi JNull (Some no_token_message)), w1).
Proof.
  intros Hl Ht. unfold apiRequest, bind. rewrite Hl. cbn. now rewrite Ht.
Qed.

(** With a token, the run is the first call and what follows it. *)
Lemma apiRequest_first_call (endpoint : string) (m : Method)
  (body : option json) (w w1 : World) (token : json) :
  loadToken rt w = (Ok token, w1) ->
  truthy token = true ->
  let cmd := curl_command rt m (request_url rt endpoint) token body in
  exists resp w' evs,
    apiRequest rt endpoint m body w = (Ok resp, w') /\
    trace w' = (trace w1 ++ EvApi cmd :: evs)%list /\
    (List.length (filter is_api evs) <= 1)%nat.
Proof.
  intros Hl Ht cmd. unfold apiRequest, bind. rewrite Hl. cbn. rewrite Ht. cbn.
  unfold try_catch, execSync, lift, ret, curl_stdout. fold cmd.
  destruct (curl rt (List.length (trace w1)) cmd) as [r1|e]; cbn.
  2: { eexists; eexists; exists []; split; [reflexivity|]. split; [reflexivity|].
       cbn; lia. }
  destruct (JSON_parse rt (Sys.body r1)) as [d1|e]; cbn.
  2: { eexists; eexists; exists []; split; [reflexivity|]. split; [reflexivity|].
       cbn; lia. }
  destruct (get_prop d1 "code") as [code|e]; cbn.
  2: { eexists; eexists; exists []; split; [reflexivity|]. split; [reflexivity|].
       cbn; lia. }
  destruct (is_auth_rejection code); cbn.
  2: { eexists; eexists; exists []; split; [reflexivity|]. split; [reflexivity|].
       cbn; lia. }
  match goal with
  | |- context [clearTokenCache ?w0] =>
      destruct (clearTokenCache_spec w0) as (w3 & Ec & _ & _ & (e3 & Hq3 & F3) & _)
  end.
  rewrite Ec. cbn.
  destruct (loadToken_total rt w3) as (newTok & w4 & El & _ & (e4 & Hq4 & F4)).
  rewrite El. cbn.
  assert (Hnone : filter is_api (e3 ++ e4) = []).
  { now rewrite filter_app, (no_api_filter _ F3), (no_api_filter _ F4). }
  destruct (truthy newTok); cbn.
  - destruct (curl rt _ _) as [r2|e]; cbn;
      [destruct (JSON_parse rt (Sys.body r2)) as [d2|e]; cbn|].
    all: eexists; eexists; eexists; split; [reflexivity|]; cbn.
    all: rewrite Hq4, Hq3; cbn.
    all: repeat rewrite <- app_assoc; cbn.
    all: split; [reflexivity|].
    all: repeat rewrite filter_app; cbn.
    all: rewrite filter_app in Hnone; apply app_eq_nil in Hnone as [-> ->];
      cbn; lia.
  - eexists; eexists; exists (e3 ++ e4)%list; split; [reflexivity|].
    rewrite Hq4, Hq3; cbn. repeat rewrite <- app_assoc; cbn.
    split; [reflexivity|]. rewrite Hnone. cbn; lia.
Qed.

End ApiRequestFacts.

Section RetryProtocol.

Import OAuth.
Variable rt : Runtime.

Lemma quiet_api_calls (a b : World) :
  Spec.quiet a b -> filter is_api (trace b) = filter is_api (trace a).
Proof.
  intros (evs & E & F). rewrite E, filter_app, (no_api_filter _ F).
  now rewrite app_nil_r.
Qed.

Lemma loadToken_quiet (w w1 : World) (token : json) :
  loadToken rt w = (Ok token, w1) -> Spec.quiet w w1.
Proof.
  intros Hl. destruct (loadToken_total rt w) as (t & w' & E & _ & Hq).
  rewrite E in Hl. injection Hl as _ <-. exact Hq.
Qed.

(** Every call of [apiRequest] returns a response, never an exception, and
    makes at most two calls to the API. *)
Lemma apiRequest_at_most_two_calls (endpoint : string) (m : Method)
  (b : option json) (w : World) :
  exists resp w' evs,
    apiRequest rt endpoint m b w = (Ok resp, w') /\
    trace w' = (trace w ++ evs)%list /\
    (List.length (filter is_api evs) <= 2)%nat.
Proof.
  destruct (loadToken_total rt w) as (token & w1 & El & _ & (e1 & Hq1 & F1)).
  destruct (truthy token) eqn:Ht.
  - destruct (apiRequest_first_call rt endpoint m b w w1 token El Ht)
      as (resp & w' & evs & E & Htr & Hn).
    exists resp, w', (e1 ++ EvApi (curl_command rt m (request_url rt endpoint) token b) :: evs)%list.
    split; [exact E|]. split.
    + now rewrite Htr, Hq1, <- app_assoc.
    + rewrite filter_app, (no_api_filter _ F1). cbn. lia.
  - exists (mkApi JNull (Some no_token_message)), w1, e1.
    split; [now apply apiRequest_no_token with (token := token)|].
    split; [exact Hq1|]. rewrite (no_api_filter _ F1). cbn. lia.
Qed.

End RetryProtocol.

(** C1, as the code has it.  Every call of [apiRequest] returns a response
    and makes at most two API calls, that is at most one retry.  When the
    parsed answer to the first call carries the code INVALID_OAUTH or
    OAUTH_EXPIRED, the slot is emptied ([clearTokenCache]) and the token is
    resolved once more.  If that yields no token the result is the error
    "Failed to refresh access token" and nothing more is sent.  Otherwise,
    provided the old authorization value first occurs in the header and the
    new token has no dollar sign, the same request (method, URL, body) is
    sent once more with the new token in the authorization header, these
    two are the only API calls, and the parsed answer to the second call is
    the result as it is, with no error, whatever it carries, a second
    rejection included. *)
Theorem auth_rejection_retried_once
  (rt : Runtime) (endpoint : string) (m : OAuth.Method) (b : option json)
  (w : OAuth.World) :
  (exists resp w' evs,
      OAuth.apiRequest rt endpoint m b w = (Ok resp, w') /\
      OAuth.trace w' = (OAuth.trace w ++ evs)%list /\
      (List.length (filter is_api evs) <= 2)%nat) /\
  (forall (token : json) (w1 : OAuth.World) (r1 : HttpResponse) (d1 : json)
          (code : option json) (newToken : json) (w4 : OAuth.World),
      let url := OAuth.request_url rt endpoint in
      let cmd := OAuth.curl_command rt m url token b in
      let w3 := snd (OAuth.clearTokenCache (Spec.after_call rt EvApi cmd w1)) in
      let retryCmd := OAuth.curl_command rt m url newToken b in
      OAuth.loadToken rt w = (Ok token, w1) ->
      truthy token = true ->
      curl rt (List.length (OAuth.trace w1)) cmd = Ok r1 ->
      JSON_parse rt (Sys.body r1) = Ok d1 ->
      get_prop d1 "code" = Ok code ->
      OAuth.is_auth_rejection code = true ->
      OAuth.loadToken rt w3 = (Ok newToken, w4) ->
      OAuth.cachedToken w3 = JNull /\
      (truthy newToken = false ->
         OAuth.apiRequest rt endpoint m b w
         = (Ok (OAuth.mkApi JNull (Some "Failed to refresh access token")), w4) /\
         filter is_api (OAuth.trace w4)
         = (filter is_api (OAuth.trace w) ++ [EvApi cmd])%list) /\
      (truthy newToken = true ->
         split_first (OAuth.authorization rt token) cmd
           = Some (Spec.header_prefix m url, Spec.header_suffix rt b) ->
         has_char dollar (ToString rt newToken) = false ->
         OAuth.apiRequest rt endpoint m b w
         = (Ok (Spec.retried_response rt
                  (curl rt (List.length (OAuth.trace w4)) retryCmd)),
            Spec.after_call rt EvApi retryCmd w4) /\
         filter is_api (OAuth.trace (Spec.after_call rt EvApi retryCmd w4))
         = (filter is_api (OAuth.trace w) ++ [EvApi cmd; EvApi retryCmd])%list)).
Proof.
  split; [apply apiRequest_at_most_two_calls|].
  intros token w1 r1 d1 code newToken w4 url cmd w3 retryCmd
         Hl Ht Hc Hp Hcode Hrej Hl2.
  destruct (clearTokenCache_spec (Spec.after_call rt EvApi cmd w1))
    as (w3' & Ec & Hslot & _ & Hq3 & _).
  assert (Ew3 : w3 = w3') by (unfold w3; now rewrite Ec).
  assert (Hcalls : filter is_api (OAuth.trace w4)
                   = (filter is_api (OAuth.trace w) ++ [EvApi cmd])%list).
  { rewrite (quiet_api_calls w3 w4 (loadToken_quiet rt _ _ _ Hl2)).
    rewrite Ew3, (quiet_api_calls _ _ Hq3). cbn.
    rewrite filter_snoc. cbn.
    now rewrite (quiet_api_calls w w1 (loadToken_quiet rt _ _ _ Hl)). }
  assert (Hrun : OAuth.apiRequest rt endpoint m b w
                 = (if negb (truthy newToken)
                    then (Ok (OAuth.mkApi JNull
                                (Some "Failed to refresh access token")), w4)
                    else (Ok (Spec.retried_response rt
                                (curl rt (List.length (OAuth.trace w4))
                                   (replace cmd (OAuth.authorization rt token)
                                      (OAuth.authorization rt newToken)))),
                          Spec.after_call rt EvApi
                            (replace cmd (OAuth.authorization rt token)
                               (OAuth.authorization rt newToken)) w4))).
  { unfold OAuth.apiRequest, bind. rewrite Hl. cbn. rewrite Ht. cbn.
    unfold try_catch, OAuth.execSync, lift, ret, OAuth.curl_stdout.
    fold url. fold cmd. rewrite Hc. cbn. rewrite Hp. cbn. rewrite Hcode. cbn.
    rewrite Hrej. cbn.
    change (OAuth.mkWorld (OAuth.cachedToken w1) (OAuth.config_file w1)
              (OAuth.disk_writable w1)
              (time_after rt (List.length (OAuth.trace w1)))
              (OAuth.trace w1 ++ [EvApi cmd]))
      with (Spec.after_call rt EvApi cmd w1).
    rewrite Ec. cbn. rewrite <- Ew3, Hl2. cbn.
    destruct (truthy newToken); cbn; [|reflexivity].
    unfold Spec.retried_response, Spec.after_call.
    destruct (curl rt (List.length (OAuth.trace w4)) _) as [r2|e]; cbn;
      [|reflexivity].
    destruct (JSON_parse rt (Sys.body r2)); reflexivity. }
  split; [now rewrite Ew3|]. split.
  - intros Hn. rewrite Hrun, Hn. cbn [negb].
    split; [reflexivity | exact Hcalls].
  - intros Hn Hs Hd. rewrite Hrun, Hn. cbn [negb].
    unfold cmd. rewrite (retry_command rt m url token newToken b Hs Hd).
    fold retryCmd. split; [reflexivity|].
    unfold Spec.after_call. cbn [OAuth.trace].
    rewrite filter_snoc, Hcalls. cbn [is_api]. now rewrite <- app_assoc.
Qed.

Lemma auth_rejection_retried_once_witness :
  OAuth.apiRequest Fixtures.rt_rejecting "/channels" OAuth.GET None
    Fixtures.fresh
  = (Ok (OAuth.mkApi Fixtures.rejected None), Fixtures.after_second) /\
  filter is_api (OAuth.trace Fixtures.after_second)
  = [EvApi Fixtures.channels_cmd; EvApi Fixtures.channels_cmd].
Proof.
  refine (proj2 (proj2
    (proj2 (auth_rejection_retried_once Fixtures.rt_rejecting "/channels"
              OAuth.GET None Fixtures.fresh)
       (JStr "tok-123")
       (OAuth.set_cachedToken (JStr "tok-123") Fixtures.fresh)
       (mkHttp 401 Fixtures.rejected_text) Fixtures.rejected
       (Some (JStr "INVALID_OAUTH")) (JStr "tok-123") Fixtures.after_first
       _ _ _ _ _ _ _)) _ _ _); reflexivity.
Defined.

(** C1, as stated, fails: the API rejects the token of the first call and
    of the retried call alike (status 401, code INVALID_OAUTH); the second
    rejection comes back as the data of a response whose error is null, the
    shape of a success, after exactly two API calls. *)
Lemma second_rejection_returned_without_error :
  let run := OAuth.apiRequest Fixtures.rt_rejecting "/channels" OAuth.GET None
               Fixtures.fresh in
  fst run = Ok (OAuth.mkApi Fixtures.rejected None) /\
  OAuth.error (OAuth.mkApi Fixtures.rejected None) = None /\
  (exists code, get_prop Fixtures.rejected "code" = Ok code /\
                OAuth.is_auth_rejection code = true) /\
  List.length (filter is_api (OAuth.trace (snd run))) = 2%nat.
Proof.
  cbv zeta. split; [reflexivity|]. split; [reflexivity|].
  split; [|reflexivity].
  exists (Some (JStr "INVALID_OAUTH")). split; reflexivity.
Qed.

(** ** OAuth variant: the order of the sources *)

Section ResolutionOrder.

Import OAuth.
Variable rt : Runtime.

(** The configuration-file step accepts exactly the token [disk_token]
    describes, and otherwise leaves the world as it found it. *)
Lemma fromConfigFile_disk_token (w : World) :
  fromConfigFile rt w
  = match Spec.disk_token rt w with
    | Some tok => (Ok (Some tok), set_cachedToken tok w)
    | None => (Ok None, w)
    end.
Proof.
  unfold fromConfigFile, Spec.disk_token, try_catch, bind, existsSync,
    readFileSync, lift, ret, modify, Date_now, gets.
  destruct w as [c f d n t]; destruct f as [| |s]; cbn; try reflexivity.
  destruct (JSON_parse rt s) as [cfg|e]; cbn; [|reflexivity].
  destruct (get_prop cfg "access_token") as [[tok|]|e] eqn:Ha; cbn;
    try reflexivity.
  - destruct (truthy tok); cbn.
    + destruct (get_prop cfg "expires_at") as [[x|]|e']; cbn; try reflexivity.
      destruct (truthy x); cbn; [|reflexivity].
      destruct (lt_num rt n x); reflexivity.
    + destruct (get_prop cfg "expires_at") as [[x|]|e']; reflexivity.
Qed.

(** The secret-store step starts with the lookup of the refresh token and
    never throws. *)
Lemma fromSecretStore_first_event (w : World) :
  exists tok w' evs,
    fromSecretStore rt w = (Ok tok, w') /\
    trace w'
    = (trace w ++ EvOp (op_item_get (OP_ITEM_ID rt) "refresh_token") :: evs)%list.
Proof.
  unfold fromSecretStore, try_catch, bind, execSync, lift, ret.
  cbn.
  destruct (op_cli rt _ _) as [s|e]; cbn;
    [destruct (JSON_parse rt s) as [p|e]; cbn;
     [destruct (find_value "refresh_token" p) as [[v|]|e]; cbn;
      [destruct (truthy v) eqn:Hv|..]|]|].
  2-6: eexists; eexists; exists []; split; reflexivity.
  match goal with
  | |- context [refreshAccessToken rt v ?w0] =>
      destruct (refreshAccessToken_total rt v w0)
        as (tok & w' & E & _ & (evs & Ht & _))
  end.
  rewrite E. exists tok, w', evs. split; [reflexivity|].
  rewrite Ht. cbn. now rewrite <- app_assoc.
Qed.

End ResolutionOrder.

(** C3, as the code has it: the order of the sources holds for a
    resolution that finds the in-memory slot empty.  Then an override in
    the environment is returned at once and stored in the slot; without an
    override the token of the configuration file is returned and stored
    when the file is there, parses, and its expiry lies strictly after the
    current instant, and in that case nothing else happens (the trace is
    unchanged: no secret-store lookup, no refresh); otherwise resolution is
    the secret-store step, which begins with the lookup of the refresh
    token.  A resolution that returned a token returns the same token again
    and changes nothing.  [loadToken] never throws, and when it yields no
    token it yields [null], which [apiRequest] reports as the "No access
    token available" error without sending anything. *)
Theorem resolution_order_from_empty_slot (rt : Runtime) (w : OAuth.World) :
  truthy (OAuth.cachedToken w) = false ->
  (forall e : string,
      env rt "CLIQ_ACCESS_TOKEN" = Some e -> e <> "" ->
      OAuth.loadToken rt w = (Ok (JStr e), OAuth.set_cachedToken (JStr e) w)) /\
  (present (env rt "CLIQ_ACCESS_TOKEN") = false ->
   forall tok : json,
     Spec.disk_token rt w = Some tok ->
     OAuth.loadToken rt w = (Ok tok, OAuth.set_cachedToken tok w)) /\
  (present (env rt "CLIQ_ACCESS_TOKEN") = false ->
   Spec.disk_token rt w = None ->
   OAuth.loadToken rt w = OAuth.fromSecretStore rt w /\
   exists tok w' evs,
     OAuth.loadToken rt w = (Ok tok, w') /\
     OAuth.trace w'
     = (OAuth.trace w
        ++ EvOp (op_item_get (OAuth.OP_ITEM_ID rt) "refresh_token") :: evs)%list) /\
  (forall (s : string) (cfg tok : json) (x : Z),
      OAuth.config_file w = OAuth.Content s ->
      JSON_parse rt s = Ok cfg ->
      get_prop cfg "access_token" = Ok (Some tok) ->
      get_prop cfg "expires_at" = Ok (Some (JNum x)) ->
      ((x <= OAuth.now w)%Z -> Spec.disk_token rt w = None) /\
      ((OAuth.now w < x)%Z -> x <> 0%Z -> truthy tok = true ->
       Spec.disk_token rt w = Some tok)) /\
  (forall (tok : json) (w' : OAuth.World),
      OAuth.loadToken rt w = (Ok tok, w') -> truthy tok = true ->
      OAuth.loadToken rt w' = (Ok tok, w')) /\
  (exists tok w',
      OAuth.loadToken rt w = (Ok tok, w') /\
      (truthy tok = false ->
       tok = JNull /\
       forall (endpoint : string) (m : OAuth.Method) (b : option json),
         OAuth.apiRequest rt endpoint m b w
         = (Ok (OAuth.mkApi JNull (Some OAuth.no_token_message)), w'))).
Proof.
  intros Hslot.
  assert (Hrun : OAuth.loadToken rt w
                 = if present (env rt "CLIQ_ACCESS_TOKEN")
                   then (Ok (JStr (field_text (env rt "CLIQ_ACCESS_TOKEN"))),
                         OAuth.set_cachedToken
                           (JStr (field_text (env rt "CLIQ_ACCESS_TOKEN"))) w)
                   else match Spec.disk_token rt w with
                        | Some tok => (Ok tok, OAuth.set_cachedToken tok w)
                        | None => OAuth.fromSecretStore rt w
                        end).
  { unfold OAuth.loadToken, bind, gets, ret, modify. cbn. rewrite Hslot. cbn.
    destruct (present (env rt "CLIQ_ACCESS_TOKEN")); cbn; [reflexivity|].
    rewrite fromConfigFile_disk_token.
    destruct (Spec.disk_token rt w); reflexivity. }
  repeat apply conj.
  - intros e He Hne. rewrite Hrun, He. cbn.
    destruct e; [now elim Hne | reflexivity].
  - intros He tok Hd. now rewrite Hrun, He, Hd.
  - intros He Hd. rewrite Hrun, He, Hd. split; [reflexivity|].
    apply fromSecretStore_first_event.
  - intros s cfg tok x Hf Hp Ha He. unfold Spec.disk_token.
    rewrite Hf, Hp, Ha, He. unfold lt_num. cbn. split.
    + intros Hle. destruct (Z.ltb_spec (OAuth.now w) x); [lia|].
      now rewrite !andb_false_r.
    + intros Hlt Hx Ht. rewrite Ht.
      destruct (Z.eqb_spec x 0); [contradiction|].
      destruct (Z.ltb_spec (OAuth.now w) x); [reflexivity | lia].
  - intros tok w' Hl Ht.
    destruct (loadToken_total rt w) as (t & w1 & E & [[Hn _] | [_ Hc]] & _);
      rewrite E in Hl; injection Hl as Et Ew.
    + rewrite <- Et, Hn in Ht. discriminate Ht.
    + rewrite <- Ew, <- Et, <- Hc. apply loadToken_cached.
      now rewrite Hc, Et.
  - destruct (loadToken_total rt w) as (t & w1 & E & [[Hn _] | [Ht _]] & _).
    + exists t, w1. split; [exact E|]. intros _. split; [exact Hn|].
      intros endpoint m b. apply apiRequest_no_token with (token := t);
        [exact E | now rewrite Hn].
    + exists t, w1. split; [exact E|]. intros Hf. rewrite Hf in Ht.
      discriminate Ht.
Qed.

Lemma resolution_order_from_empty_slot_witness :
  OAuth.loadToken Fixtures.rt_disk (Fixtures.disk_world JNull 100)
  = (Ok (JStr "disk-tok"), Fixtures.disk_world (JStr "disk-tok") 100).
Proof.
  refine (proj1 (proj2
    (resolution_order_from_empty_slot Fixtures.rt_disk
       (Fixtures.disk_world JNull 100) _)) _ (JStr "disk-tok") _); reflexivity.
Defined.

(** C3, as stated, fails.  The file holds a token that expires at instant
    500.  A resolution at instant 100 accepts it and puts it in the slot.
    At instant 1000 the record has expired and there is no override, yet the
    next resolution neither goes to the secret store nor refreshes: it
    returns the token kept in the slot, and the trace stays empty. *)
Lemma expired_record_served_from_slot :
  OAuth.loadToken Fixtures.rt_disk (Fixtures.disk_world JNull 100)
  = (Ok (JStr "disk-tok"), Fixtures.disk_world (JStr "disk-tok") 100) /\
  present (env Fixtures.rt_disk "CLIQ_ACCESS_TOKEN") = false /\
  Spec.disk_token Fixtures.rt_disk (Fixtures.disk_world (JStr "disk-tok") 1000)
  = None /\
  OAuth.loadToken Fixtures.rt_disk (Fixtures.disk_world (JStr "disk-tok") 1000)
  = (Ok (JStr "disk-tok"), Fixtures.disk_world (JStr "disk-tok") 1000) /\
  OAuth.trace (Fixtures.disk_world (JStr "disk-tok") 1000) = [] /\
  OAuth.loadToken Fixtures.rt_disk (Fixtures.disk_world (JStr "disk-tok") 1000)
  <> OAuth.fromSecretStore Fixtures.rt_disk
       (Fixtures.disk_world (JStr "disk-tok") 1000).
Proof.
  repeat split; try reflexivity.
  intros H. discriminate H.
Qed.

(** ** OAuth variant: the refresh exchange *)

(** The bits of mode 0o600 are owner bits only: whatever the umask, a file
    created with that mode gives nothing to group and others (0o077). *)
Lemma owner_only_whatever_umask (umask : Z) :
  Z.land (Z.ldiff OAuth.mode_0o600 umask) 63 = 0%Z.
Proof.
  rewrite Z.ldiff_land, <- Z.land_assoc, (Z.land_comm (Z.lnot umask)),
    Z.land_assoc.
  reflexivity.
Qed.

(** C4, as the code has it.  [refreshAccessToken] never throws, and it
    returns a token only when the exchange answered, the answer parsed and
    carried that token as its truthy [access_token]; in every other case
    the result is [null].

    When the two client fields are found: if the exchange fails, its answer
    does not parse or is [null], or its [access_token] is missing or falsy
    (an empty string, [null], 0, [false]), the result is [null] after the
    two lookups and the exchange, and slot and file are untouched.  If the
    answer carries a truthy [access_token], the function makes the two
    lookups, the exchange and one write of the cache file, asked for with
    mode 0o600 (384); the text written is the serialised record of the
    token, the expiry, the creation instant and the source; the token is
    put in the in-memory slot and returned, whether the write succeeds or
    fails.  The expiry is [now + expires_in * 1000], with 3600 for
    [expires_in] when the answer's [expires_in] is missing or falsy (0
    included), [now] being the clock after the exchange; it is serialised
    as [null] when that number is NaN.  The mode is a creation mode: a file
    the write creates gets 0o600 less the umask bits, which never includes
    a group or other bit; a file that was there keeps the bits it had. *)
Theorem refresh_exchange_outcome
  (rt : Runtime) (refreshToken : json) (w : OAuth.World) :
  (exists tok w',
      OAuth.refreshAccessToken rt refreshToken w = (Ok tok, w') /\
      (tok = JNull \/
       truthy tok = true /\
       exists n cmd r resp,
         curl rt n cmd = Ok r /\ JSON_parse rt (Sys.body r) = Ok resp /\
         get_prop resp "access_token" = Ok (Some tok))) /\
  (forall (s1 s2 : string) (p1 p2 cid cs : json),
      let n := List.length (OAuth.trace w) in
      let lookup1 := op_item_get (OAuth.OP_ITEM_ID rt) "client_id" in
      let lookup2 := op_item_get (OAuth.OP_ITEM_ID rt) "client_secret" in
      let exchange := token_exchange_cmd (ToString rt refreshToken)
                        (ToString rt cid) (ToString rt cs) in
      let t := time_after rt (S (S n)) in
      let nothing_cached :=
        exists w',
          OAuth.refreshAccessToken rt refreshToken w = (Ok JNull, w') /\
          OAuth.trace w'
          = (OAuth.trace w
             ++ [EvOp lookup1; EvOp lookup2; EvTokenExchange exchange])%list /\
          OAuth.cachedToken w' = OAuth.cachedToken w /\
          OAuth.config_file w' = OAuth.config_file w in
      op_cli rt n lookup1 = Ok s1 ->
      op_cli rt (S n) lookup2 = Ok s2 ->
      JSON_parse rt s1 = Ok p1 ->
      find_value "client_id" p1 = Ok (Some cid) -> truthy cid = true ->
      JSON_parse rt s2 = Ok p2 ->
      find_value "client_secret" p2 = Ok (Some cs) -> truthy cs = true ->
      (forall e : string, curl rt (S (S n)) exchange = Throw e ->
                          nothing_cached) /\
      (forall (r : HttpResponse) (e : string),
          curl rt (S (S n)) exchange = Ok r ->
          JSON_parse rt (Sys.body r) = Throw e -> nothing_cached) /\
      (forall (r : HttpResponse) (resp : json) (access : option json),
          curl rt (S (S n)) exchange = Ok r ->
          JSON_parse rt (Sys.body r) = Ok resp ->
          (resp = JNull -> nothing_cached) /\
          (get_prop resp "access_token" = Ok access ->
           truthy_opt access = false -> nothing_cached) /\
          (forall (token : json) (expires_in : option json),
              get_prop resp "access_token" = Ok (Some token) ->
              truthy token = true ->
              get_prop resp "expires_in" = Ok expires_in ->
              let expiry :=
                OAuth.expiry_instant rt t (or_else expires_in (JNum 3600)) in
              let record :=
                JSON_stringify rt
                  (JObj [("access_token", token);
                         ("expires_at", match expiry with
                                        | Some instant => JNum instant
                                        | None => JNull
                                        end);
                         ("created", JStr (toISOString rt t));
                         ("source", JStr "1password-refresh")]) in
              let events :=
                [EvOp lookup1; EvOp lookup2; EvTokenExchange exchange;
                 EvWrite record 384 (OAuth.disk_writable w)] in
              (exists w',
                  OAuth.refreshAccessToken rt refreshToken w = (Ok token, w') /\
                  OAuth.cachedToken w' = token /\
                  OAuth.trace w' = (OAuth.trace w ++ events)%list /\
                  (OAuth.disk_writable w = true ->
                   OAuth.config_file w' = OAuth.Content record) /\
                  (OAuth.disk_writable w = false ->
                   OAuth.config_file w' = OAuth.config_file w)) /\
              (truthy_opt expires_in = false ->
               expiry = Some (t + 3600 * 1000)%Z) /\
              (forall secs : Z,
                  expires_in = Some (JNum secs) -> secs <> 0%Z ->
                  expiry = Some (t + secs * 1000)%Z) /\
              (forall (umask : Z) (bits : option Z),
                  (OAuth.disk_writable w = true -> bits = None ->
                   file_mode umask bits events = Some (Z.ldiff 384 umask) /\
                   Z.land (Z.ldiff 384 umask) 63 = 0%Z) /\
                  (forall kept : Z, bits = Some kept ->
                                    file_mode umask bits events = Some kept) /\
                  (OAuth.disk_writable w = false ->
                   file_mode umask bits events = bits))))).
Proof.
  split.
  - unfold OAuth.refreshAccessToken, try_catch, bind, OAuth.execSync, lift,
      ret, modify, OAuth.Date_now, gets, OAuth.writeFileSync, OAuth.curl_stdout.
    cbn. run.
    all: eexists; eexists; split; [reflexivity|].
    all: try (left; reflexivity).
    all: right; split; [assumption|].
    all: do 4 eexists; repeat split; eassumption.
  - intros s1 s2 p1 p2 cid cs n lookup1 lookup2 exchange t nothing_cached
           H1 H2 Hp1 Hc1 Ht1 Hp2 Hc2 Ht2.
    unfold nothing_cached.
    unfold OAuth.refreshAccessToken, try_catch, bind, OAuth.execSync, lift,
      ret, modify, OAuth.Date_now, gets, OAuth.writeFileSync,
      OAuth.curl_stdout.
    cbn. fold n. fold lookup1. fold lookup2. rewrite H1. cbn.
    rewrite length_snoc. fold n. rewrite H2. cbn.
    rewrite Hp1. cbn. rewrite Hc1. cbn. rewrite Hp2. cbn. rewrite Hc2. cbn.
    rewrite Ht1, Ht2. cbn.
    rewrite !length_snoc. fold n. fold exchange.
    repeat apply conj.
    + intros e Hx. rewrite Hx. cbn.
      eexists; split; [reflexivity|]; cbn.
      repeat rewrite <- app_assoc. repeat split; reflexivity.
    + intros r e Hx Hp. rewrite Hx. cbn. rewrite Hp. cbn.
      eexists; split; [reflexivity|]; cbn.
      repeat rewrite <- app_assoc. repeat split; reflexivity.
    + intros r resp access Hx Hpr. rewrite Hx. cbn. rewrite Hpr. cbn.
      repeat apply conj.
      * intros ->. cbn.
        eexists; split; [reflexivity|]; cbn.
        repeat rewrite <- app_assoc. repeat split; reflexivity.
      * intros Ha Hf. rewrite Ha. cbn.
        destruct access as [v|]; cbn in Hf; [rewrite Hf|]; cbn.
        all: eexists; split; [reflexivity|]; cbn.
        all: repeat rewrite <- app_assoc; repeat split; reflexivity.
      * intros token expires_in Ha Htok He.
        rewrite Ha. cbn. rewrite Htok. cbn. rewrite He. cbn.
        repeat apply conj.
        -- destruct (OAuth.disk_writable w) eqn:Hw; cbn.
           all: eexists; split; [reflexivity|]; cbn.
           all: repeat rewrite <- app_assoc; cbn.
           all: repeat split; try reflexivity; intros; congruence.
        -- intros Hf. unfold or_else.
           destruct expires_in as [v|]; [|reflexivity].
           cbn in Hf. now rewrite Hf.
        -- intros secs -> Hs. unfold or_else. cbn.
           destruct (Z.eqb_spec secs 0); [contradiction | reflexivity].
        -- intros umask bits.
           repeat apply conj.
           ++ intros Hw ->. rewrite Hw. split; [reflexivity|].
              apply owner_only_whatever_umask.
           ++ intros kept ->. destruct (OAuth.disk_writable w); reflexivity.
           ++ intros Hw. now rewrite Hw.
Qed.

Lemma refresh_exchange_outcome_witness :
  exists w',
    OAuth.refreshAccessToken Fixtures.rt_refresh (JStr "rtok") Fixtures.fresh
    = (Ok (JStr "new-tok"), w') /\
    OAuth.cachedToken w' = JStr "new-tok" /\
    OAuth.trace w'
    = [EvOp (op_item_get "cliq.zoho.com" "client_id");
       EvOp (op_item_get "cliq.zoho.com" "client_secret");
       EvTokenExchange (token_exchange_cmd "rtok" "cid" "sec");
       EvWrite
         (JSON_stringify Fixtures.rt_refresh
            (JObj [("access_token", JStr "new-tok");
                   ("expires_at", JNum (5000 + 7200 * 1000));
                   ("created", JStr "1970-01-01T00:00:00.000Z");
                   ("source", JStr "1password-refresh")]))
         384 true] /\
    (true = true ->
     OAuth.config_file w'
     = OAuth.Content
         (JSON_stringify Fixtures.rt_refresh
            (JObj [("access_token", JStr "new-tok");
                   ("expires_at", JNum (5000 + 7200 * 1000));
                   ("created", JStr "1970-01-01T00:00:00.000Z");
                   ("source", JStr "1password-refresh")]))) /\
    (true = false -> OAuth.config_file w' = OAuth.Absent).
Proof.
  refine (proj1
    (proj2 (proj2
       (proj2 (proj2
          (proj2
             (refresh_exchange_outcome Fixtures.rt_refresh (JStr "rtok")
                Fixtures.fresh)
             (Fixtures.field_text_of "client_id" "cid")
             (Fixtures.field_text_of "client_secret" "sec")
             (Fixtures.field_doc "client_id" "cid")
             (Fixtures.field_doc "client_secret" "sec")
             (JStr "cid") (JStr "sec") _ _ _ _ _ _ _ _))
          (mkHttp 200 Fixtures.grant_text) Fixtures.grant_doc
          (Some (JStr "new-tok")) _ _))
       (JStr "new-tok") (Some (JNum 7200)) _ _ _)); reflexivity.
Defined.

(** C4, as stated, fails when the server gives a lifetime of zero seconds:
    the field is there, yet the record written expires an hour after the
    exchange, not at the instant of the exchange. *)
Lemma zero_lifetime_becomes_an_hour :
  curl Fixtures.rt_spent_grant 2 (token_exchange_cmd "rtok" "cid" "sec")
  = Ok (mkHttp 200 Fixtures.spent_grant_text) /\
  JSON_parse Fixtures.rt_spent_grant Fixtures.spent_grant_text
  = Ok Fixtures.spent_grant_doc /\
  get_prop Fixtures.spent_grant_doc "access_token" = Ok (Some (JStr "new-tok")) /\
  get_prop Fixtures.spent_grant_doc "expires_in" = Ok (Some (JNum 0)) /\
  OAuth.refreshAccessToken Fixtures.rt_spent_grant (JStr "rtok") Fixtures.fresh
  = (Ok (JStr "new-tok"),
     OAuth.mkWorld (JStr "new-tok")
       (OAuth.Content
          (JSON_stringify Fixtures.rt_spent_grant
             (JObj [("access_token", JStr "new-tok");
                    ("expires_at", JNum (5000 + 3600 * 1000));
                    ("created", JStr "1970-01-01T00:00:00.000Z");
                    ("source", JStr "1password-refresh")])))
       true 5000
       [EvOp (op_item_get "cliq.zoho.com" "client_id");
        EvOp (op_item_get "cliq.zoho.com" "client_secret");
        EvTokenExchange (token_exchange_cmd "rtok" "cid" "sec");
        EvWrite
          (JSON_stringify Fixtures.rt_spent_grant
             (JObj [("access_token", JStr "new-tok");
                    ("expires_at", JNum (5000 + 3600 * 1000));
                    ("created", JStr "1970-01-01T00:00:00.000Z");
                    ("source", JStr "1password-refresh")]))
          384 true]) /\
  (5000 + 3600 * 1000 <> 5000 + 0 * 1000)%Z.
Proof.
  repeat split; try reflexivity. discriminate.
Qed.

(** ** OAuth variant: destination of a message *)

Section Destinations.

Import OAuth.
Variable rt : Runtime.

(** The if/else-if chain of [sendMessage] picks the first selector present
    in priority order. *)
Lemma select_endpoint_by_priority (input : SendMessageInput) :
  select_endpoint input = Spec.by_priority input.
Proof.
  unfold select_endpoint, Spec.by_priority, Spec.priority, Spec.selected.
  cbn.
  destruct (present (channelId input)); [reflexivity|].
  destruct (present (channelName input)); [reflexivity|].
  destruct (present (chatId input)); [reflexivity|].
  destruct (present (userId input)); reflexivity.
Qed.




End Destinations.


(** ** OAuth variant: the HTTP status is never read *)

Section StatusBlind.
Import OAuth.
Variable rt : Runtime.
Variable f : nat -> string -> Z.

Ltac same_runtime :=
  change (OP_ITEM_ID (Spec.with_statuses f rt)) with (OP_ITEM_ID rt) in *;
  change (BASE_URL (Spec.with_statuses f rt)) with (BASE_URL rt) in *;
  change (ToString (Spec.with_statuses f rt)) with (ToString rt) in *;
  change (expiry_instant (Spec.with_statuses f rt)) with (expiry_instant rt) in *;
  change (lt_num (Spec.with_statuses f rt)) with (lt_num rt) in *;
  change (curl_command (Spec.with_statuses f rt)) with (curl_command rt) in *;
  change (request_url (Spec.with_statuses f rt)) with (request_url rt) in *;
  change (authorization (Spec.with_statuses f rt)) with (authorization rt) in *;
  change (fromConfigFile (Spec.with_statuses f rt)) with (fromConfigFile rt) in *.

(** Replacing the statuses of all answers changes no run of the OAuth
    variant. *)
Lemma refresh_ignores_status r w :
  refreshAccessToken (Spec.with_statuses f rt) r w = refreshAccessToken rt r w.
Proof.
  unfold refreshAccessToken, try_catch, bind, execSync, lift,
      ret, modify, Date_now, gets, writeFileSync, curl_stdout.
  cbn. same_runtime.
  run.
  all: reflexivity.
Qed.

Lemma fromSecretStore_ignores_status w :
  fromSecretStore (Spec.with_statuses f rt) w = fromSecretStore rt w.
Proof.
  unfold fromSecretStore, try_catch, bind, execSync, lift, ret.
  cbn. same_runtime.
  destruct (op_cli rt _ _) as [s|e]; cbn; [|reflexivity].
  destruct (JSON_parse rt s) as [p|e]; cbn; [|reflexivity].
  destruct (find_value "refresh_token" p) as [[v|]|e]; cbn; try reflexivity.
  destruct (truthy v); [|reflexivity].
  now rewrite refresh_ignores_status.
Qed.

Lemma loadToken_ignores_status w :
  loadToken (Spec.with_statuses f rt) w = loadToken rt w.
Proof.
  unfold loadToken, bind, gets, ret, modify. cbn. same_runtime.
  destruct (truthy (cachedToken w)); cbn; [reflexivity|].
  destruct (present (env rt "CLIQ_ACCESS_TOKEN")); cbn; [reflexivity|].
  destruct (fromConfigFile rt w) as [[[tok|]|e] w1]; cbn; try reflexivity.
  apply fromSecretStore_ignores_status.
Qed.

Lemma apiRequest_ignores_status endpoint m b w :
  apiRequest (Spec.with_statuses f rt) endpoint m b w = apiRequest rt endpoint m b w.
Proof.
  unfold apiRequest, bind. rewrite loadToken_ignores_status.
  destruct (loadToken rt w) as [[token|e] w1]; cbn; [|reflexivity].
  destruct (truthy token); cbn; [|reflexivity].
  unfold try_catch, execSync, lift, ret, curl_stdout. cbn. same_runtime.
  destruct (curl rt _ _) as [r1|e]; cbn; [|reflexivity].
  destruct (JSON_parse rt (Sys.body r1)) as [d1|e]; cbn; [|reflexivity].
  destruct (get_prop d1 "code") as [code|e]; cbn; [|reflexivity].
  destruct (is_auth_rejection code); cbn; [|reflexivity].
  destruct (clearTokenCache _) as [[u|e] w3]; cbn; [|reflexivity].
  rewrite loadToken_ignores_status.
  destruct (loadToken rt w3) as [[newToken|e] w4]; cbn; [|reflexivity].
  destruct (truthy newToken); cbn; [|reflexivity].
  destruct (curl rt _ _) as [r2|e]; cbn; [|reflexivity].
  destruct (JSON_parse rt (Sys.body r2)); reflexivity.
Qed.

Lemma operations_ignore_status :
  (forall w, listChannels (Spec.with_statuses f rt) w = listChannels rt w) /\
  (forall input w, sendMessage (Spec.with_statuses f rt) input w = sendMessage rt input w) /\
  (forall input w, replyToMessage (Spec.with_statuses f rt) input w = replyToMessage rt input w).
Proof.
  repeat split; intros.
  - unfold listChannels, bind. now rewrite apiRequest_ignores_status.
  - unfold sendMessage, bind.
    destruct (is_empty (text input)); [reflexivity|].
    destruct (select_endpoint input); [|reflexivity].
    now rewrite apiRequest_ignores_status.
  - unfold replyToMessage, bind.
    destruct (is_empty (reply_text input) || is_empty (messageId input));
      [reflexivity|].
    now rewrite apiRequest_ignores_status.
Qed.
End StatusBlind.




(** ** Webhook variant: classification by status *)

Section WebhookFacts.

Import Webhook.
Variable rt : Runtime.

Lemma status_ok_interval (st : Z) :
  status_ok st = true <-> (200 <= st < 300)%Z.
Proof.
  unfold status_ok. rewrite andb_true_iff, Z.leb_le, Z.ltb_lt. tauto.
Qed.

Lemma outside_is_not_ok (st : Z) :
  (st <? 200)%Z || (300 <=? st)%Z = negb (status_ok st).
Proof.
  unfold status_ok.
  destruct (Z.ltb_spec st 200), (Z.leb_spec 300 st), (Z.leb_spec 200 st),
    (Z.ltb_spec st 300); cbn; try reflexivity; lia.
Qed.

(** An answered [curlJson]: the status as it came, and the body parsed, or
    [null] when there is no [require], the body is empty or it does not
    parse. *)
Lemma curlJson_answered (url : string) (m : Method)
  (headers : list (string * string)) (b : option json) (w : World)
  (resp : HttpResponse) :
  curl rt (List.length (trace w)) (curl_command rt url m headers b) = Ok resp ->
  curlJson rt url m headers b w
  = (Ok (mkCurl (Spec.response_data rt resp) (Sys.status resp)),
     Spec.after_curl rt (curl_command rt url m headers b) resp w).
Proof.
  intros H. unfold curlJson, bind, run_curl, try_catch, read_response_file,
    lift, ret, Spec.response_data, Spec.after_curl.
  rewrite H. cbn.
  destruct (require_fs rt); cbn; [|reflexivity].
  destruct (is_empty (Sys.body resp)); cbn; [reflexivity|].
  destruct (JSON_parse rt (Sys.body resp)); reflexivity.
Qed.

(** In the webhook variant a response with a status in [200,300) and no
    usable [channels] field gives "Unexpected response format" and no
    channel. *)
Lemma webhook_missing_channels (w w1 : World) (token : json)
  (resp : HttpResponse) :
  let cmd := curl_command rt (BASE_URL ++ "/channels") GET
               [("Authorization", "Zoho-oauthtoken " ++ ToString rt token);
                ("Content-Type", "application/json")] None in
  getOAuthToken rt w = (Ok token, w1) ->
  truthy token = true ->
  curl rt (List.length (trace w1)) cmd = Ok resp ->
  status_ok (Sys.status resp) = true ->
  (Spec.response_data rt resp = JNull \/
   exists chans, get_prop (Spec.response_data rt resp) "channels" = Ok chans /\
                 truthy_opt chans = false) ->
  listChannels rt w
  = (Ok (mkChannels [] (Some "Unexpected response format")),
     Spec.after_curl rt cmd resp w1).
Proof.
  intros cmd Hl Ht Hc Hs Hmiss.
  unfold listChannels, bind. rewrite Hl. cbv beta iota. rewrite Ht.
  cbn [negb]. cbv beta iota.
  unfold cmd in *. rewrite (curlJson_answered _ _ _ _ _ _ Hc).
  cbn [status data]. rewrite outside_is_not_ok, Hs. cbn [negb].
  destruct Hmiss as [Hn | (chans & Hg & Hf)].
  - now rewrite Hn.
  - destruct (Spec.response_data rt resp); try reflexivity;
      unfold lift, ret; rewrite Hg; cbn [negb]; now rewrite Hf.
Qed.

End WebhookFacts.

(** A channel is the raw entry's three fields, read as they are. *)
Lemma to_channel_verbatim (c : json) (ch : CliqChannel) :
  to_channel c = Ok ch ->
  get_prop c "id" = Ok (id ch) /\
  get_prop c "name" = Ok (name ch) /\
  get_prop c "unique_name" = Ok (unique_name ch).
Proof.
  unfold to_channel.
  destruct (get_prop c "id") as [i|e]; [|discriminate].
  destruct (get_prop c "name") as [n|e]; [|discriminate].
  destruct (get_prop c "unique_name") as [u|e]; [|discriminate].
  intros H. injection H as <-. cbn. auto.
Qed.

(** Mapping the entries reads no state and keeps order and number. *)
Lemma map_channels_verbatim {S : Type} (items : list json)
  (cs : list CliqChannel) (w w' : S) :
  mapM (fun c => lift (to_channel c)) items w = (Ok cs, w') ->
  w' = w /\ Forall2 (fun c ch => to_channel c = Ok ch) items cs.
Proof.
  revert cs w w'. induction items as [|c items IH]; intros cs w w' H.
  - cbn in H. unfold ret in H. inversion H; subst.
    split; [reflexivity | constructor].
  - cbn [mapM] in H. unfold bind at 1 in H. unfold lift at 1 in H.
    destruct (to_channel c) as [ch|e] eqn:Ec; [|discriminate].
    unfold bind at 1 in H.
    destruct (mapM (fun c => lift (to_channel c)) items w)
      as [[rest|e] w2] eqn:Em; [|discriminate].
    unfold ret in H. inversion H; subst.
    destruct (IH rest w w' Em) as [Hw HF]. split; [exact Hw|].
    constructor; assumption.
Qed.

(** C2, as the code has it.  In the webhook variant the status decides:
    when [listChannels] or [sendMessage] gets an answer whose status lies
    outside [200,300), the result is the failure "HTTP <status>: <data>",
    the data being the JSON rendering of what [curlJson] read back: [null]
    whenever [require("fs")] throws (the module has no [require]), and
    otherwise the parsed body, or [null] when the body is empty or is not
    JSON.  With a status inside [200,300) [sendMessage] succeeds and
    [listChannels] reports no error or "Unexpected response format", never
    an HTTP failure; where [require("fs")] throws it is always "Unexpected
    response format".  In the OAuth variant no operation reads the status:
    replacing the status of every answer by any other number changes
    neither the result nor the final state of [listChannels],
    [sendMessage] and [replyToMessage]. *)
Theorem status_decides_in_webhook_variant_only (rt : Runtime) :
  (forall (w w1 : Webhook.World) (token : json) (resp : HttpResponse),
      let cmd := Webhook.curl_command rt (Webhook.BASE_URL ++ "/channels")
                   Webhook.GET
                   [("Authorization", "Zoho-oauthtoken " ++ ToString rt token);
                    ("Content-Type", "application/json")] None in
      Webhook.getOAuthToken rt w = (Ok token, w1) ->
      truthy token = true ->
      curl rt (List.length (Webhook.trace w1)) cmd = Ok resp ->
      (~ (200 <= Sys.status resp < 300)%Z ->
       Webhook.listChannels rt w
       = (Ok (Webhook.mkChannels []
                (Some ("HTTP " ++ show_Z (Sys.status resp) ++ ": "
                       ++ JSON_stringify rt (Spec.response_data rt resp)))),
          Spec.after_curl rt cmd resp w1)) /\
      ((200 <= Sys.status resp < 300)%Z ->
       forall (res : Webhook.ChannelsResult) (w' : Webhook.World),
         Webhook.listChannels rt w = (Ok res, w') ->
         Webhook.channels_error res = None \/
         Webhook.channels_error res = Some "Unexpected response format") /\
      ((200 <= Sys.status resp < 300)%Z ->
       forall e : string, require_fs rt = Throw e ->
         Webhook.listChannels rt w
         = (Ok (Webhook.mkChannels [] (Some "Unexpected response format")),
            Spec.after_curl rt cmd resp w1))) /\
  (forall (input : Webhook.SendMessageInput) (w w1 : Webhook.World)
          (zapikey : json) (resp : HttpResponse),
      let cmd := Webhook.curl_command rt (Webhook.webhook_url rt zapikey)
                   Webhook.POST [("Content-Type", "application/json")]
                   (Some (Webhook.send_payload rt input)) in
      Webhook.text input <> "" ->
      Webhook.getZapikey rt w = (Ok zapikey, w1) ->
      truthy zapikey = true ->
      curl rt (List.length (Webhook.trace w1)) cmd = Ok resp ->
      (~ (200 <= Sys.status resp < 300)%Z ->
       Webhook.sendMessage rt input w
       = (Ok (Webhook.mkSend false
                (Some ("HTTP " ++ show_Z (Sys.status resp) ++ ": "
                       ++ JSON_stringify rt (Spec.response_data rt resp)))),
          Spec.after_curl rt cmd resp w1)) /\
      ((200 <= Sys.status resp < 300)%Z ->
       Webhook.sendMessage rt input w
       = (Ok (Webhook.mkSend true None), Spec.after_curl rt cmd resp w1))) /\
  (forall resp : HttpResponse,
      (forall e : string,
          require_fs rt = Throw e -> Spec.response_data rt resp = JNull) /\
      (require_fs rt = Ok tt ->
       (Sys.body resp = "" -> Spec.response_data rt resp = JNull) /\
       (forall v : json,
           Sys.body resp <> "" -> JSON_parse rt (Sys.body resp) = Ok v ->
           Spec.response_data rt resp = v) /\
       (forall e : string,
           Sys.body resp <> "" -> JSON_parse rt (Sys.body resp) = Throw e ->
           Spec.response_data rt resp = JNull))) /\
  (forall f : nat -> string -> Z,
      (forall w, OAuth.listChannels (Spec.with_statuses f rt) w
                 = OAuth.listChannels rt w) /\
      (forall input w, OAuth.sendMessage (Spec.with_statuses f rt) input w
                       = OAuth.sendMessage rt input w) /\
      (forall input w, OAuth.replyToMessage (Spec.with_statuses f rt) input w
                       = OAuth.replyToMessage rt input w)).
Proof.
  repeat apply conj.
  - intros w w1 token resp cmd Hl Ht Hc.
    assert (Hrun : Webhook.listChannels rt w
                   = (r <- ret (Webhook.mkCurl (Spec.response_data rt resp)
                                  (Sys.status resp)) ;;
                      if ((Webhook.status r <? 200)%Z
                          || (300 <=? Webhook.status r)%Z)%bool
                      then ret (Webhook.mkChannels []
                                  (Some (Webhook.http_error rt (Webhook.status r)
                                           (Webhook.data r))))
                      else
                        match Webhook.data r with
                        | JNull =>
                            ret (Webhook.mkChannels []
                                   (Some "Unexpected response format"))
                        | d =>
                            chans <- lift (get_prop d "channels") ;;
                            if negb (truthy_opt chans) then
                              ret (Webhook.mkChannels []
                                     (Some "Unexpected response format"))
                            else
                              match chans with
                              | Some (JArr items) =>
                                  cs <- mapM (fun c => lift (to_channel c)) items ;;
                                  ret (Webhook.mkChannels cs None)
                              | _ => throw type_error
                              end
                        end)
                       (Spec.after_curl rt cmd resp w1)).
    { unfold Webhook.listChannels. unfold bind at 1. rewrite Hl.
      cbv beta iota. rewrite Ht. cbn [negb]. cbv beta iota.
      unfold bind at 1. unfold cmd in *.
      rewrite (curlJson_answered _ _ _ _ _ _ _ Hc). reflexivity. }
    split; [intros Hout | split; [intros Hin res w' | intros Hin e He]];
      rewrite Hrun; unfold bind at 1; unfold ret at 1; cbv beta iota;
      cbn [Webhook.status Webhook.data]; rewrite outside_is_not_ok.
    + destruct (Webhook.status_ok (Sys.status resp)) eqn:Hs.
      * apply status_ok_interval in Hs. contradiction.
      * reflexivity.
    + apply status_ok_interval in Hin. rewrite Hin.
      cbn [negb]. unfold bind, lift, ret, throw.
      destruct (Spec.response_data rt resp) as [| | | |items|fields]; cbn.
      all: try (intros H; inversion H; subst; cbn; auto; fail).
      destruct (lookup_field "channels" fields) as [v|]; cbn.
      2: { intros H; inversion H; subst; cbn; auto. }
      destruct (truthy v); cbn.
      2: { intros H; inversion H; subst; cbn; auto. }
      destruct v; try (intros H; discriminate H).
      destruct (mapM _ _ _) as [[cs|e] w2]; intros H; inversion H; subst;
        cbn; auto.
    + apply status_ok_interval in Hin. rewrite Hin. cbn [negb].
      unfold Spec.response_data. rewrite He. reflexivity.
  - intros input w w1 zapikey resp cmd Htext Hl Ht Hc.
    assert (Hrun : Webhook.sendMessage rt input w
                   = (if Webhook.status_ok (Sys.status resp)
                      then Ok (Webhook.mkSend true None)
                      else Ok (Webhook.mkSend false
                                 (Some (Webhook.http_error rt (Sys.status resp)
                                          (Spec.response_data rt resp)))),
                      Spec.after_curl rt cmd resp w1)).
    { unfold Webhook.sendMessage. rewrite (is_empty_false _ Htext).
      unfold bind at 1. rewrite Hl. cbv beta iota. rewrite Ht.
      cbn [negb]. cbv beta iota.
      unfold bind at 1. unfold cmd in *.
      rewrite (curlJson_answered _ _ _ _ _ _ _ Hc).
      cbn [Webhook.status Webhook.data].
      destruct (Webhook.status_ok (Sys.status resp)); reflexivity. }
    rewrite Hrun. split.
    + intros Hout.
      destruct (Webhook.status_ok (Sys.status resp)) eqn:Hs.
      * apply status_ok_interval in Hs. contradiction.
      * reflexivity.
    + intros Hin. apply status_ok_interval in Hin. now rewrite Hin.
  - intros resp. unfold Spec.response_data. split.
    + intros e He. now rewrite He.
    + intros Hr. rewrite Hr. repeat apply conj.
      * intros Hb. now rewrite Hb.
      * intros v Hb Hp. now rewrite (is_empty_false _ Hb), Hp.
      * intros e Hb Hp. now rewrite (is_empty_false _ Hb), Hp.
  - intros f. apply operations_ignore_status.
Qed.

Lemma status_decides_in_webhook_variant_only_witness :
  Webhook.sendMessage Fixtures.rt_webhook_error Fixtures.hi_default
    Fixtures.fresh_webhook
  = (Ok (Webhook.mkSend false (Some "HTTP 500: null")),
     Webhook.mkWorld (JStr "key-1") JNull (Some 0%Z)
       (Some Fixtures.failure_text) 1000
       [EvApi (Webhook.curl_command Fixtures.rt_webhook_error
                 (Webhook.webhook_url Fixtures.rt_webhook_error (JStr "key-1"))
                 Webhook.POST [("Content-Type", "application/json")]
                 (Some (Webhook.send_payload Fixtures.rt_webhook_error
                          Fixtures.hi_default)))]) /\
  Webhook.sendMessage (Fixtures.commonjs Fixtures.rt_webhook_error)
    Fixtures.hi_default Fixtures.fresh_webhook
  = (Ok (Webhook.mkSend false
           (Some ("HTTP 500: " ++ Fixtures.failure_text))),
     Webhook.mkWorld (JStr "key-1") JNull (Some 0%Z)
       (Some Fixtures.failure_text) 1000
       [EvApi (Webhook.curl_command Fixtures.rt_webhook_error
                 (Webhook.webhook_url Fixtures.rt_webhook_error (JStr "key-1"))
                 Webhook.POST [("Content-Type", "application/json")]
                 (Some (Webhook.send_payload Fixtures.rt_webhook_error
                          Fixtures.hi_default)))]).
Proof.
  split.
  - refine (proj1
      (proj1 (proj2
         (status_decides_in_webhook_variant_only Fixtures.rt_webhook_error))
         Fixtures.hi_default Fixtures.fresh_webhook
         (Webhook.set_cachedZapikey (JStr "key-1") Fixtures.fresh_webhook)
         (JStr "key-1") (mkHttp 500 Fixtures.failure_text) _ _ _ _) _).
    + discriminate.
    + reflexivity.
    + reflexivity.
    + reflexivity.
    + cbn. lia.
  - refine (proj1
      (proj1 (proj2
         (status_decides_in_webhook_variant_only
            (Fixtures.commonjs Fixtures.rt_webhook_error)))
         Fixtures.hi_default Fixtures.fresh_webhook
         (Webhook.set_cachedZapikey (JStr "key-1") Fixtures.fresh_webhook)
         (JStr "key-1") (mkHttp 500 Fixtures.failure_text) _ _ _ _) _).
    + discriminate.
    + reflexivity.
    + reflexivity.
    + reflexivity.
    + cbn. lia.
Defined.

(** C2, as stated, fails in the OAuth variant: the API answers a send with
    status 500 and an error document, and [sendMessage] hands the document
    back as the message, with no error. *)
Lemma server_error_returned_as_message :
  curl Fixtures.rt_server_error 0
    (OAuth.curl_command Fixtures.rt_server_error OAuth.POST
       "https://cliq.zoho.com/api/v2/channels/42/messages" (JStr "tok-123")
       (Some (OAuth.send_payload Fixtures.hi_42)))
  = Ok (mkHttp 500 Fixtures.failure_text) /\
  ~ (200 <= 500 < 300)%Z /\
  fst (OAuth.sendMessage Fixtures.rt_server_error Fixtures.hi_42 Fixtures.fresh)
  = Ok (OAuth.mkSend Fixtures.failure_doc None) /\
  OAuth.trace
    (snd (OAuth.sendMessage Fixtures.rt_server_error Fixtures.hi_42
            Fixtures.fresh))
  = [EvApi (OAuth.curl_command Fixtures.rt_server_error OAuth.POST
              "https://cliq.zoho.com/api/v2/channels/42/messages"
              (JStr "tok-123") (Some (OAuth.send_payload Fixtures.hi_42)))].
Proof.
  repeat split; try reflexivity. lia.
Qed.

(** ** OAuth variant: a response without channels *)

(** C7, at the input where the OAuth variant departs from it.  The API
    answers the channel listing with status 200 and the JSON document
    [false], which has no [channels] field.  [listChannels] returns no
    channel and no error, instead of "Unexpected response format". *)
Theorem falsy_body_listed_without_error :
  curl Fixtures.rt_false_body 0
    (OAuth.curl_command Fixtures.rt_false_body OAuth.GET
       "https://cliq.zoho.com/api/v2/channels" (JStr "tok-123") None)
  = Ok (mkHttp 200 "false") /\
  JSON_parse Fixtures.rt_false_body "false" = Ok (JBool false) /\
  get_prop (JBool false) "channels" = Ok None /\
  OAuth.listChannels Fixtures.rt_false_body Fixtures.fresh
  = (Ok (OAuth.mkChannels [] None),
     OAuth.mkWorld (JStr "tok-123") OAuth.Absent true 1000
       [EvApi (OAuth.curl_command Fixtures.rt_false_body OAuth.GET
                 "https://cliq.zoho.com/api/v2/channels" (JStr "tok-123")
                 None)]).
Proof.
  repeat split; reflexivity.
Qed.

(** The same in general: whenever [apiRequest] comes back without an error
    and with falsy data, [listChannels] reports an empty list and no
    error. *)
Lemma falsy_data_listed_without_error (rt : Runtime) (w w1 : OAuth.World)
  (r : OAuth.ApiResponse) :
  OAuth.apiRequest rt "/channels" OAuth.GET None w = (Ok r, w1) ->
  OAuth.error r = None ->
  truthy (OAuth.data r) = false ->
  OAuth.listChannels rt w = (Ok (OAuth.mkChannels [] None), w1).
Proof.
  intros Ha He Hd. unfold OAuth.listChannels, bind. rewrite Ha.
  unfold OAuth.failed. rewrite He, Hd. reflexivity.
Qed.

(** Where the field is an array, both variants return the entries' fields as
    they are, in order: here for the OAuth variant. *)
Lemma oauth_channels_verbatim (rt : Runtime) (w w1 w' : OAuth.World)
  (r : OAuth.ApiResponse) (items : list json) (cs : list CliqChannel) :
  OAuth.apiRequest rt "/channels" OAuth.GET None w = (Ok r, w1) ->
  OAuth.failed r = false ->
  get_prop (OAuth.data r) "channels" = Ok (Some (JArr items)) ->
  OAuth.listChannels rt w = (Ok (OAuth.mkChannels cs None), w') ->
  w' = w1 /\
  Forall2 (fun c ch =>
             get_prop c "id" = Ok (id ch) /\
             get_prop c "name" = Ok (name ch) /\
             get_prop c "unique_name" = Ok (unique_name ch)) items cs.
Proof.
  intros Ha Hf Hg. unfold OAuth.listChannels. unfold bind at 1. rewrite Ha.
  rewrite Hf. unfold bind at 1. unfold lift at 1. rewrite Hg.
  cbn [truthy_opt truthy negb]. unfold bind at 1.
  destruct (mapM (fun c => lift (to_channel c)) items w1)
    as [[cs'|e] w2] eqn:Em; [|discriminate].
  unfold ret. intros H. inversion H; subst.
  destruct (map_channels_verbatim _ _ _ _ Em) as [-> HF]. split; [reflexivity|].
  clear -HF. induction HF; constructor; [now apply to_channel_verbatim | assumption].
Qed.

(** What the OAuth variant makes of the other bodies that lack the field,
    given what [apiRequest] returned: truthy data without a usable
    [channels] field gives "Unexpected response format"; an error of
    [apiRequest] (a body that does not parse, or [null], on which reading
    [code] throws) is passed on with its own message. *)
Lemma oauth_listChannels_without_channels (rt : Runtime) (w w1 : OAuth.World)
  (r : OAuth.ApiResponse) :
  OAuth.apiRequest rt "/channels" OAuth.GET None w = (Ok r, w1) ->
  (OAuth.failed r = false ->
   (exists chans, get_prop (OAuth.data r) "channels" = Ok chans /\
                  truthy_opt chans = false) ->
   OAuth.listChannels rt w
   = (Ok (OAuth.mkChannels [] (Some "Unexpected response format")), w1)) /\
  (forall msg, OAuth.error r = Some msg -> msg <> "" ->
   OAuth.listChannels rt w = (Ok (OAuth.mkChannels [] (Some msg)), w1)).
Proof.
  intros Ha. split.
  - intros Hf (chans & Hg & Hc). unfold OAuth.listChannels. unfold bind at 1.
    rewrite Ha, Hf. unfold bind, lift. rewrite Hg. now rewrite Hc.
  - intros msg He Hne. unfold OAuth.listChannels, bind. rewrite Ha.
    unfold OAuth.failed. rewrite He. cbn [present].
    rewrite (is_empty_false _ Hne). reflexivity.
Qed.

(* ================================================================== *)
(** * Further properties of the code *)

(** ** OAuth variant: what a refresh leaves behind *)

Section RefreshRuns.

Import OAuth.
Variable rt : Runtime.

Lemma refresh_run_shape (r : json) (w : World) :
  exists tok w' evs,
    refreshAccessToken rt r w = (Ok tok, w') /\
    trace w' = (trace w ++ evs)%list /\
    Trace.refresh_shape (OP_ITEM_ID rt) evs /\
    (filter Trace.is_write evs = [] ->
     tok = JNull /\ cachedToken w' = cachedToken w /\
     config_file w' = config_file w /\ disk_writable w' = disk_writable w) /\
    (filter Trace.is_write evs <> [] ->
     truthy tok = true /\ cachedToken w' = tok).
Proof.
  unfold refreshAccessToken, try_catch, bind, execSync, lift, ret, modify,
    Date_now, gets, writeFileSync, curl_stdout.
  cbn. run.
  all: eexists; eexists; eexists; split; [reflexivity|]; cbn.
  all: repeat rewrite <- app_assoc; cbn.
  all: split; [reflexivity|].
  all: split; [constructor|].
  all: cbn; split; intros H; try (now elim H); try discriminate H; auto.
Qed.

End RefreshRuns.

(** X1.  A run of [refreshAccessToken] never throws and leaves one of four
    traces: the lookup of the client id alone; both lookups; both lookups
    and the token exchange; or these three and one attempt to write the
    cache file with mode 0o600.  Only in the last case is a token returned, and it is
    then in the in-memory slot.  In the other three the result is [null]
    and the slot, the cache file and its writability are what they were: a
    failed refresh touches nothing, and the token endpoint is never
    contacted before both client fields were looked up. *)
Theorem refresh_touches_nothing_unless_it_succeeds
  (rt : Runtime) (refreshToken : json) (w : OAuth.World) :
  exists tok w' evs,
    OAuth.refreshAccessToken rt refreshToken w = (Ok tok, w') /\
    OAuth.trace w' = (OAuth.trace w ++ evs)%list /\
    Trace.refresh_shape (OAuth.OP_ITEM_ID rt) evs /\
    (filter Trace.is_write evs = [] ->
     tok = JNull /\ OAuth.cachedToken w' = OAuth.cachedToken w /\
     OAuth.config_file w' = OAuth.config_file w /\
     OAuth.disk_writable w' = OAuth.disk_writable w) /\
    (filter Trace.is_write evs <> [] ->
     truthy tok = true /\ OAuth.cachedToken w' = tok).
Proof.
  apply refresh_run_shape.
Qed.

(** ** OAuth variant: what a resolution leaves behind *)

Section ResolutionEffects.

Import OAuth.
Variable rt : Runtime.

Lemma refresh_file_effect (r : json) (w : World) :
  exists tok w' evs,
    refreshAccessToken rt r w = (Ok tok, w') /\
    trace w' = (trace w ++ evs)%list /\
    (truthy tok = false ->
     tok = JNull /\ cachedToken w' = cachedToken w /\
     config_file w' = config_file w /\ filter Trace.is_write evs = []) /\
    (config_file w' = config_file w \/
     exists pre content,
       evs = (pre ++ [EvWrite content 384 true])%list /\
       config_file w' = Content content /\ truthy tok = true).
Proof.
  unfold refreshAccessToken, try_catch, bind, execSync, lift, ret, modify,
    Date_now, gets, writeFileSync, curl_stdout.
  cbn. run.
  all: eexists; eexists; eexists; split; [reflexivity|]; cbn.
  all: repeat rewrite <- app_assoc; cbn.
  all: split; [reflexivity|].
  all: split; [intros H; try congruence; auto|].
  all: try (left; reflexivity).
  right. eexists [_; _; _], _. repeat split; try reflexivity. assumption.
Qed.

Lemma loadToken_effects (w : World) :
  exists tok w' evs,
    loadToken rt w = (Ok tok, w') /\
    trace w' = (trace w ++ evs)%list /\
    (truthy tok = false ->
     tok = JNull /\ cachedToken w' = cachedToken w /\
     config_file w' = config_file w /\ filter Trace.is_write evs = []) /\
    (config_file w' = config_file w \/
     exists pre content,
       evs = (pre ++ [EvWrite content 384 true])%list /\
       config_file w' = Content content /\ truthy tok = true).
Proof.
  unfold loadToken, bind, gets, ret, modify. cbn.
  destruct (truthy (cachedToken w)) eqn:Hc; cbn.
  { exists (cachedToken w), w, []. rewrite app_nil_r.
    repeat split; auto; congruence. }
  destruct (present (env rt "CLIQ_ACCESS_TOKEN")) eqn:He; cbn.
  { eexists; eexists; exists []; cbn. rewrite app_nil_r.
    split; [reflexivity|]. split; [reflexivity|]. split; [|left; reflexivity].
    destruct (env rt "CLIQ_ACCESS_TOKEN"); [cbn in *; congruence | discriminate]. }
  destruct (fromConfigFile_total rt w) as [E | (tok & Ht & E)]; rewrite E; cbn.
  2: { eexists; eexists; exists []; cbn. rewrite app_nil_r.
       split; [reflexivity|]. split; [reflexivity|].
       split; [congruence | left; reflexivity]. }
  unfold fromSecretStore, try_catch, bind, execSync, lift, ret. cbn.
  destruct (op_cli rt _ _) as [s|e]; cbn;
    [destruct (JSON_parse rt s) as [p|e]; cbn;
     [destruct (find_value "refresh_token" p) as [[v|]|e]; cbn;
      [destruct (truthy v) eqn:Hv|..]|]|].
  2-6: eexists; eexists; eexists [_]; cbn;
       (split; [reflexivity|]); (split; [reflexivity|]);
       (split; [auto | left; reflexivity]).
  match goal with
  | |- context [refreshAccessToken rt v ?w0] =>
      destruct (refresh_file_effect v w0)
        as (tok & w' & evs & E' & Htr & Hnull & Hfile)
  end.
  rewrite E'. exists tok, w', (EvOp (op_item_get (OP_ITEM_ID rt) "refresh_token") :: evs).
  split; [reflexivity|]. split; [rewrite Htr; cbn; now rewrite <- app_assoc|].
  split.
  - intros Hf. destruct (Hnull Hf) as (H1 & H2 & H3 & H4). cbn in *. auto.
  - destruct Hfile as [Hsame | (pre & content & Hev & Hc' & Ht)].
    + left. exact Hsame.
    + right. exists (EvOp (op_item_get (OP_ITEM_ID rt) "refresh_token") :: pre), content.
      rewrite Hev. auto.
Qed.

End ResolutionEffects.

(** X2.  [loadToken] never throws.  When it yields no token, the result is
    [null], the in-memory slot and the cache file are what they were and no
    write was attempted.  Whenever the cache file differs afterwards, a
    token was returned and the last thing that happened is a successful
    write of the new content with mode 0o600. *)
Theorem resolution_writes_only_a_fresh_record (rt : Runtime) (w : OAuth.World) :
  exists tok w' evs,
    OAuth.loadToken rt w = (Ok tok, w') /\
    OAuth.trace w' = (OAuth.trace w ++ evs)%list /\
    (truthy tok = false ->
     tok = JNull /\ OAuth.cachedToken w' = OAuth.cachedToken w /\
     OAuth.config_file w' = OAuth.config_file w /\
     filter Trace.is_write evs = []) /\
    (OAuth.config_file w' = OAuth.config_file w \/
     exists pre content,
       evs = (pre ++ [EvWrite content 384 true])%list /\
       OAuth.config_file w' = OAuth.Content content /\ truthy tok = true).
Proof.
  apply loadToken_effects.
Qed.

(** ** OAuth variant: invalidation followed by resolution *)

Section Invalidation.

Import OAuth.
Variable rt : Runtime.

(** With an empty slot, [loadToken] is the override, else the token of the
    configuration file, else the secret-store step. *)
Lemma loadToken_from_empty_slot (w : World) :
  truthy (cachedToken w) = false ->
  loadToken rt w
  = if present (env rt "CLIQ_ACCESS_TOKEN")
    then (Ok (JStr (field_text (env rt "CLIQ_ACCESS_TOKEN"))),
          set_cachedToken (JStr (field_text (env rt "CLIQ_ACCESS_TOKEN"))) w)
    else match Spec.disk_token rt w with
         | Some tok => (Ok tok, set_cachedToken tok w)
         | None => fromSecretStore rt w
         end.
Proof.
  intros Hslot. unfold loadToken, bind, gets, ret, modify. cbn.
  rewrite Hslot. cbn.
  destruct (present (env rt "CLIQ_ACCESS_TOKEN")); cbn; [reflexivity|].
  rewrite fromConfigFile_disk_token.
  destruct (Spec.disk_token rt w); reflexivity.
Qed.

Lemma clearTokenCache_run (w : World) :
  clearTokenCache w
  = (Ok tt,
     match config_file w with
     | Absent => set_cachedToken JNull w
     | _ =>
         if disk_writable w
         then mkWorld JNull (Content "{}") true (now w)
                (trace w ++ [EvWrite "{}" 384 true])
         else mkWorld JNull (config_file w) false (now w)
                (trace w ++ [EvWrite "{}" 384 false])
     end).
Proof.
  unfold clearTokenCache, try_catch, bind, modify, existsSync, gets,
    writeFileSync, ret.
  destruct w as [c f d n t]. cbn.
  destruct f; cbn; try reflexivity; destruct d; reflexivity.
Qed.

End Invalidation.

(** X3.  What [clearTokenCache] followed by [loadToken] does, without an
    override in the environment.  If there is no cache file, nothing is
    written.  If the file is there and can be written, it is overwritten
    with the empty object (mode 0o600); provided the parser reads that text
    as the empty object, the file offers no token any more and the next
    resolution is the secret-store step.  If the file is there but the
    write fails, the failure is swallowed and the file keeps its record: as
    long as that record has not expired, the next resolution returns the
    very token that was to be invalidated, without asking the secret
    store. *)
Theorem invalidation_then_resolution (rt : Runtime) (w : OAuth.World) :
  present (env rt "CLIQ_ACCESS_TOKEN") = false ->
  (OAuth.config_file w = OAuth.Absent ->
   OAuth.clearTokenCache w = (Ok tt, OAuth.set_cachedToken JNull w)) /\
  (OAuth.config_file w <> OAuth.Absent ->
   OAuth.disk_writable w = true ->
   JSON_parse rt "{}" = Ok (JObj []) ->
   let w1 := snd (OAuth.clearTokenCache w) in
   OAuth.config_file w1 = OAuth.Content "{}" /\
   OAuth.trace w1 = (OAuth.trace w ++ [EvWrite "{}" 384 true])%list /\
   Spec.disk_token rt w1 = None /\
   OAuth.loadToken rt w1 = OAuth.fromSecretStore rt w1) /\
  (OAuth.config_file w <> OAuth.Absent ->
   OAuth.disk_writable w = false ->
   forall tok : json,
     Spec.disk_token rt w = Some tok ->
     let w1 := snd (OAuth.clearTokenCache w) in
     OAuth.trace w1 = (OAuth.trace w ++ [EvWrite "{}" 384 false])%list /\
     OAuth.loadToken rt w1 = (Ok tok, OAuth.set_cachedToken tok w1)).
Proof.
  intros He. repeat apply conj.
  - intros Hf. rewrite clearTokenCache_run, Hf. reflexivity.
  - intros Hf Hw Hp w1.
    assert (E : w1 = OAuth.mkWorld JNull (OAuth.Content "{}") true (OAuth.now w)
                       (OAuth.trace w ++ [EvWrite "{}" 384 true])).
    { unfold w1. rewrite clearTokenCache_run, Hw.
      destruct (OAuth.config_file w); [now elim Hf | reflexivity ..]. }
    assert (Hd : Spec.disk_token rt w1 = None).
    { rewrite E. unfold Spec.disk_token. cbn. now rewrite Hp. }
    rewrite (loadToken_from_empty_slot rt w1) by (now rewrite E).
    rewrite He, Hd. rewrite E. repeat split; reflexivity.
  - intros Hf Hw tok Hd w1.
    assert (E : w1 = OAuth.mkWorld JNull (OAuth.config_file w) false (OAuth.now w)
                       (OAuth.trace w ++ [EvWrite "{}" 384 false])).
    { unfold w1. rewrite clearTokenCache_run, Hw.
      destruct (OAuth.config_file w); [now elim Hf | reflexivity ..]. }
    assert (Hd1 : Spec.disk_token rt w1 = Some tok).
    { rewrite E. exact Hd. }
    rewrite (loadToken_from_empty_slot rt w1) by (now rewrite E).
    rewrite He, Hd1. rewrite E. split; reflexivity.
Qed.

Lemma invalidation_then_resolution_witness :
  (OAuth.config_file (snd (OAuth.clearTokenCache
                             (Fixtures.disk_world (JStr "disk-tok") 100)))
   = OAuth.Content "{}" /\
   OAuth.trace (snd (OAuth.clearTokenCache
                       (Fixtures.disk_world (JStr "disk-tok") 100)))
   = [EvWrite "{}" 384 true] /\
   Spec.disk_token Fixtures.rt_disk_reset
     (snd (OAuth.clearTokenCache (Fixtures.disk_world (JStr "disk-tok") 100)))
   = None /\
   OAuth.loadToken Fixtures.rt_disk_reset
     (snd (OAuth.clearTokenCache (Fixtures.disk_world (JStr "disk-tok") 100)))
   = OAuth.fromSecretStore Fixtures.rt_disk_reset
       (snd (OAuth.clearTokenCache
               (Fixtures.disk_world (JStr "disk-tok") 100)))) /\
  (OAuth.trace (snd (OAuth.clearTokenCache
                       (Fixtures.locked_world (JStr "disk-tok") 100)))
   = [EvWrite "{}" 384 false] /\
   OAuth.loadToken Fixtures.rt_disk_reset
     (snd (OAuth.clearTokenCache (Fixtures.locked_world (JStr "disk-tok") 100)))
   = (Ok (JStr "disk-tok"),
      OAuth.set_cachedToken (JStr "disk-tok")
        (snd (OAuth.clearTokenCache
                (Fixtures.locked_world (JStr "disk-tok") 100))))).
Proof.
  split.
  - refine (proj1 (proj2
      (invalidation_then_resolution Fixtures.rt_disk_reset
         (Fixtures.disk_world (JStr "disk-tok") 100) _)) _ _ _);
      try reflexivity.
    discriminate.
  - refine (proj2 (proj2
      (invalidation_then_resolution Fixtures.rt_disk_reset
         (Fixtures.locked_world (JStr "disk-tok") 100) _)) _ _
      (JStr "disk-tok") _); try reflexivity.
    discriminate.
Defined.

(** ** OAuth variant: the retry under an override *)

Lemma prefix_drop (p s : string) :
  String.prefix p s = true -> s = p ++ drop (String.length p) s.
Proof.
  revert s. induction p as [|x p IH]; intros s H; [reflexivity|].
  destruct s as [|y s]; [discriminate H|].
  cbn in H. destruct (ascii_dec x y) as [->|]; [|discriminate H].
  cbn. now rewrite <- (IH s H).
Qed.

Lemma split_first_sound (pat s before after : string) :
  split_first pat s = Some (before, after) -> s = before ++ pat ++ after.
Proof.
  revert before. induction s as [|c s IH]; intros before H;
    rewrite split_first_eq in H;
    destruct (String.prefix pat _) eqn:Hp.
  - injection H as <- <-. now apply prefix_drop.
  - discriminate H.
  - injection H as <- <-. now apply prefix_drop.
  - destruct (split_first pat s) as [[b a]|]; [|discriminate H].
    injection H as <- <-. cbn. now rewrite <- (IH b eq_refl).
Qed.

(** Replacing a text without dollar sign by itself changes nothing. *)
Lemma replace_same (s pat : string) :
  has_char dollar pat = false -> replace s pat pat = s.
Proof.
  intros Hd. unfold replace.
  destruct (split_first pat s) as [[b a]|] eqn:Hs; [|reflexivity].
  rewrite expand_replacement_plain by exact Hd.
  symmetry. now apply split_first_sound.
Qed.

Section RejectedRuns.

Import OAuth.
Variable rt : Runtime.

(** The run of [apiRequest] after a rejected first call. *)
Lemma apiRequest_rejected_run (endpoint : string) (m : Method)
  (b : option json) (w w1 w4 : World) (token newToken : json)
  (r1 : HttpResponse) (d1 : json) (code : option json) :
  let cmd := curl_command rt m (request_url rt endpoint) token b in
  let retry := replace cmd (authorization rt token) (authorization rt newToken) in
  loadToken rt w = (Ok token, w1) ->
  truthy token = true ->
  curl rt (List.length (trace w1)) cmd = Ok r1 ->
  JSON_parse rt (Sys.body r1) = Ok d1 ->
  get_prop d1 "code" = Ok code ->
  is_auth_rejection code = true ->
  loadToken rt (snd (clearTokenCache (Spec.after_call rt EvApi cmd w1)))
    = (Ok newToken, w4) ->
  apiRequest rt endpoint m b w
  = if negb (truthy newToken)
    then (Ok (mkApi JNull (Some "Failed to refresh access token")), w4)
    else (Ok (Spec.retried_response rt (curl rt (List.length (trace w4)) retry)),
          Spec.after_call rt EvApi retry w4).
Proof.
  intros cmd retry Hl Ht Hc Hp Hcode Hrej Hl2.
  unfold apiRequest, bind. rewrite Hl. cbn. rewrite Ht. cbn.
  unfold try_catch, execSync, lift, ret, curl_stdout.
  fold cmd. rewrite Hc. cbn. rewrite Hp. cbn. rewrite Hcode. cbn.
  rewrite Hrej. cbn.
  change (mkWorld (cachedToken w1) (config_file w1) (disk_writable w1)
            (time_after rt (List.length (trace w1)))
            (trace w1 ++ [EvApi cmd]))
    with (Spec.after_call rt EvApi cmd w1).
  set (w2 := Spec.after_call rt EvApi cmd w1) in *.
  pose proof (clearTokenCache_run w2) as Ec.
  destruct (clearTokenCache w2) as [res w3].
  injection Ec as -> _. cbn [snd] in Hl2. cbn. rewrite Hl2. cbn.
  destruct (truthy newToken); cbn; [|reflexivity].
  unfold Spec.retried_response, Spec.after_call. fold retry.
  destruct (curl rt (List.length (trace w4)) _) as [r2|e]; cbn; [|reflexivity].
  destruct (JSON_parse rt (Sys.body r2)); reflexivity.
Qed.

End RejectedRuns.

Section OverrideRuns.

Import OAuth.
Variable rt : Runtime.
Variable e : string.
Hypothesis override_set : env rt "CLIQ_ACCESS_TOKEN" = Some e.
Hypothesis override_nonempty : e <> "".

(** Under an override the resolution is the override, from an empty slot
    and from a slot that holds it. *)
Lemma loadToken_under_override (w : World) :
  truthy (cachedToken w) = false \/ cachedToken w = JStr e ->
  loadToken rt w = (Ok (JStr e), set_cachedToken (JStr e) w).
Proof.
  intros [Hslot | Hslot].
  - rewrite (loadToken_from_empty_slot rt w Hslot), override_set. cbn.
    now rewrite is_empty_false.
  - rewrite loadToken_cached.
    + rewrite Hslot. destruct w as [c f d n t]. cbn in Hslot. now subst c.
    + rewrite Hslot. cbn. now rewrite is_empty_false.
Qed.

(** Whatever the API answers, a call leaves the override in the slot. *)
Lemma apiRequest_keeps_override (endpoint : string) (m : Method)
  (b : option json) (w : World) :
  truthy (cachedToken w) = false \/ cachedToken w = JStr e ->
  cachedToken (snd (apiRequest rt endpoint m b w)) = JStr e.
Proof.
  intros Hslot.
  assert (Ht : truthy (JStr e) = true) by (cbn; now rewrite is_empty_false).
  unfold apiRequest, bind. rewrite (loadToken_under_override w Hslot).
  cbv beta iota. rewrite Ht. cbn [negb]. cbv beta iota.
  unfold try_catch, execSync, lift, ret, curl_stdout.
  destruct (curl rt _ _) as [r1|err]; cbn; [|reflexivity].
  destruct (JSON_parse rt (Sys.body r1)) as [d1|err]; cbn; [|reflexivity].
  destruct (get_prop d1 "code") as [code|err]; cbn; [|reflexivity].
  destruct (is_auth_rejection code); cbn; [|reflexivity].
  match goal with
  | |- context [clearTokenCache ?w0] =>
      pose proof (clearTokenCache_run w0) as Ec;
      destruct (clearTokenCache w0) as [res w3]
  end.
  injection Ec as -> Hw3. cbn.
  rewrite (loadToken_under_override w3).
  2: { left. rewrite Hw3. cbn.
       destruct (config_file w); [reflexivity | ..];
         destruct (disk_writable w); reflexivity. }
  cbn. rewrite (is_empty_false _ override_nonempty). cbn.
  destruct (curl rt _ _) as [r2|err]; cbn; [|reflexivity].
  destruct (JSON_parse rt (Sys.body r2)); reflexivity.
Qed.

End OverrideRuns.

(** X4.  In a process where the override [CLIQ_ACCESS_TOKEN] is set, the
    in-memory slot is empty (at the start) or holds the override (after any
    call): every call leaves the override in the slot, whatever the API
    answered.  In such a state an auth rejection cannot be cured: the
    re-resolution that follows the invalidation yields the override again,
    so (the override being free of dollar signs) the retry sends exactly
    the command line that was just rejected, and its answer is the
    result. *)
Theorem override_retry_repeats_the_call
  (rt : Runtime) (endpoint : string) (m : OAuth.Method) (b : option json)
  (w : OAuth.World) (e : string) :
  let cmd := OAuth.curl_command rt m (OAuth.request_url rt endpoint) (JStr e) b in
  let w3 := snd (OAuth.clearTokenCache
                   (Spec.after_call rt EvApi cmd
                      (OAuth.set_cachedToken (JStr e) w))) in
  env rt "CLIQ_ACCESS_TOKEN" = Some e ->
  e <> "" ->
  truthy (OAuth.cachedToken w) = false \/ OAuth.cachedToken w = JStr e ->
  OAuth.cachedToken (snd (OAuth.apiRequest rt endpoint m b w)) = JStr e /\
  (forall (r1 : HttpResponse) (d1 : json) (code : option json),
      has_char dollar e = false ->
      curl rt (List.length (OAuth.trace w)) cmd = Ok r1 ->
      JSON_parse rt (Sys.body r1) = Ok d1 ->
      get_prop d1 "code" = Ok code ->
      OAuth.is_auth_rejection code = true ->
      OAuth.apiRequest rt endpoint m b w
      = (Ok (Spec.retried_response rt
               (curl rt (List.length (OAuth.trace w3)) cmd)),
         Spec.after_call rt EvApi cmd (OAuth.set_cachedToken (JStr e) w3))).
Proof.
  intros cmd w3 He Hne Hslot.
  split; [now apply apiRequest_keeps_override|].
  intros r1 d1 code Hd Hc Hp Hcode Hrej.
  assert (Ht : truthy (JStr e) = true) by (cbn; now rewrite is_empty_false).
  assert (Hl := loadToken_under_override rt e He Hne w Hslot).
  assert (Hl2 : OAuth.loadToken rt w3
                = (Ok (JStr e), OAuth.set_cachedToken (JStr e) w3)).
  { apply (loadToken_under_override rt e He Hne). left.
    unfold w3. rewrite clearTokenCache_run. cbn.
    destruct (OAuth.config_file w); [reflexivity | ..];
      destruct (OAuth.disk_writable w); reflexivity. }
  rewrite (apiRequest_rejected_run rt endpoint m b w _ _ _ _ r1 d1 code
             Hl Ht Hc Hp Hcode Hrej Hl2).
  rewrite Ht. cbn [negb].
  rewrite replace_same; [reflexivity|].
  unfold OAuth.authorization.
  change ("Zoho-oauthtoken " ++ ToString rt (JStr e))
    with (String "Z" ("oho-oauthtoken " ++ e)).
  cbn [has_char append]. exact Hd.
Qed.

(** The first call of a process, and a call that finds the override in the
    slot. *)
Lemma override_retry_repeats_the_call_witness :
  OAuth.apiRequest Fixtures.rt_rejecting "/channels" OAuth.GET None
    Fixtures.fresh
  = (Ok (OAuth.mkApi Fixtures.rejected None), Fixtures.after_second) /\
  OAuth.apiRequest Fixtures.rt_rejecting "/channels" OAuth.GET None
    (OAuth.set_cachedToken (JStr "tok-123") Fixtures.fresh)
  = (Ok (OAuth.mkApi Fixtures.rejected None), Fixtures.after_second).
Proof.
  split.
  - refine (proj2
      (override_retry_repeats_the_call Fixtures.rt_rejecting "/channels"
         OAuth.GET None Fixtures.fresh "tok-123" _ _ _)
      (mkHttp 401 Fixtures.rejected_text) Fixtures.rejected
      (Some (JStr "INVALID_OAUTH")) _ _ _ _ _); try reflexivity.
    + discriminate.
    + left. reflexivity.
  - refine (proj2
      (override_retry_repeats_the_call Fixtures.rt_rejecting "/channels"
         OAuth.GET None
         (OAuth.set_cachedToken (JStr "tok-123") Fixtures.fresh) "tok-123"
         _ _ _)
      (mkHttp 401 Fixtures.rejected_text) Fixtures.rejected
      (Some (JStr "INVALID_OAUTH")) _ _ _ _ _); try reflexivity.
    + discriminate.
    + right. reflexivity.
Defined.

(** ** OAuth variant: when a second call is made *)

(** X5.  [apiRequest] makes no API call, one, or two.  It makes none only
    when no token could be resolved, and then answers with the "No access
    token available" error.  When it makes one, the response is determined
    by the answer to that call: the message of the exception when the
    subprocess failed, the body did not parse or was [null]; "Failed to
    refresh access token" when the answer was a rejection; the parsed body
    with no error otherwise.  It makes a second call only after the first
    answer parsed to a document carrying INVALID_OAUTH or OAUTH_EXPIRED:
    transport and parse failures are never retried. *)
Theorem second_call_only_after_rejection
  (rt : Runtime) (endpoint : string) (m : OAuth.Method) (b : option json)
  (w : OAuth.World) :
  exists resp w' evs,
    OAuth.apiRequest rt endpoint m b w = (Ok resp, w') /\
    OAuth.trace w' = (OAuth.trace w ++ evs)%list /\
    ((filter is_api evs = [] /\
      resp = OAuth.mkApi JNull (Some OAuth.no_token_message)) \/
     (exists c n,
         filter is_api evs = [EvApi c] /\
         resp = Trace.single_call_response rt (curl rt n c)) \/
     (exists c c' n r d code,
         filter is_api evs = [EvApi c; EvApi c'] /\
         curl rt n c = Ok r /\
         JSON_parse rt (Sys.body r) = Ok d /\
         get_prop d "code" = Ok code /\
         OAuth.is_auth_rejection code = true)).
Proof.
  destruct (loadToken_total rt w) as (token & w1 & El & _ & (e1 & Hq1 & F1)).
  unfold OAuth.apiRequest, bind. rewrite El. cbn.
  destruct (truthy token) eqn:Ht; cbn.
  2: { eexists; eexists; exists e1. split; [reflexivity|]. split; [exact Hq1|].
       left. split; [now apply no_api_filter | reflexivity]. }
  unfold try_catch, OAuth.execSync, lift, ret, OAuth.curl_stdout.
  set (cmd := OAuth.curl_command rt m (OAuth.request_url rt endpoint) token b).
  assert (Hone : filter is_api (e1 ++ [EvApi cmd]) = [EvApi cmd]).
  { rewrite filter_app, (no_api_filter _ F1). reflexivity. }
  destruct (curl rt (List.length (OAuth.trace w1)) cmd) as [r1|e] eqn:Hc; cbn.
  2: { eexists; eexists; exists (e1 ++ [EvApi cmd])%list.
       split; [reflexivity|]. cbn. split; [now rewrite Hq1, app_assoc|].
       right; left. exists cmd, (List.length (OAuth.trace w1)).
       split; [exact Hone|]. now rewrite Hc. }
  destruct (JSON_parse rt (Sys.body r1)) as [d1|e] eqn:Hp; cbn.
  2: { eexists; eexists; exists (e1 ++ [EvApi cmd])%list.
       split; [reflexivity|]. cbn. split; [now rewrite Hq1, app_assoc|].
       right; left. exists cmd, (List.length (OAuth.trace w1)).
       split; [exact Hone|]. unfold Trace.single_call_response.
       now rewrite Hc, Hp. }
  destruct (get_prop d1 "code") as [code|e] eqn:Hcode; cbn.
  2: { eexists; eexists; exists (e1 ++ [EvApi cmd])%list.
       split; [reflexivity|]. cbn. split; [now rewrite Hq1, app_assoc|].
       right; left. exists cmd, (List.length (OAuth.trace w1)).
       split; [exact Hone|]. unfold Trace.single_call_response.
       now rewrite Hc, Hp, Hcode. }
  destruct (OAuth.is_auth_rejection code) eqn:Hrej; cbn.
  2: { eexists; eexists; exists (e1 ++ [EvApi cmd])%list.
       split; [reflexivity|]. cbn. split; [now rewrite Hq1, app_assoc|].
       right; left. exists cmd, (List.length (OAuth.trace w1)).
       split; [exact Hone|]. unfold Trace.single_call_response.
       now rewrite Hc, Hp, Hcode, Hrej. }
  match goal with
  | |- context [OAuth.clearTokenCache ?w0] =>
      destruct (clearTokenCache_spec w0) as (w3 & Ec & _ & _ & (e3 & Hq3 & F3) & _)
  end.
  rewrite Ec. cbn.
  destruct (loadToken_total rt w3) as (newTok & w4 & El2 & _ & (e4 & Hq4 & F4)).
  rewrite El2. cbn. cbn in Hq3.
  assert (Hmid : filter is_api (e1 ++ [EvApi cmd] ++ e3 ++ e4) = [EvApi cmd]).
  { rewrite !filter_app, (no_api_filter _ F1), (no_api_filter _ F3),
      (no_api_filter _ F4). reflexivity. }
  destruct (truthy newTok); cbn.
  - set (retry := replace cmd _ _).
    exists (Spec.retried_response rt (curl rt (List.length (OAuth.trace w4)) retry)),
      (Spec.after_call rt EvApi retry w4),
      (e1 ++ [EvApi cmd] ++ e3 ++ e4 ++ [EvApi retry])%list.
    split.
    { unfold Spec.retried_response, Spec.after_call.
      destruct (curl rt (List.length (OAuth.trace w4)) retry) as [r2|e]; cbn;
        [|reflexivity].
      destruct (JSON_parse rt (Sys.body r2)); reflexivity. }
    split.
    { cbn. rewrite Hq4, Hq3, Hq1. now repeat rewrite <- app_assoc. }
    right; right. exists cmd, retry, (List.length (OAuth.trace w1)), r1, d1, code.
    repeat split; try assumption.
    replace (e1 ++ [EvApi cmd] ++ e3 ++ e4 ++ [EvApi retry])%list
      with ((e1 ++ [EvApi cmd] ++ e3 ++ e4) ++ [EvApi retry])%list
      by (now repeat rewrite <- app_assoc).
    rewrite filter_app, Hmid. reflexivity.
  - eexists; eexists; exists (e1 ++ [EvApi cmd] ++ e3 ++ e4)%list.
    split; [reflexivity|]. split.
    { rewrite Hq4, Hq3, Hq1. now repeat rewrite <- app_assoc. }
    right; left. exists cmd, (List.length (OAuth.trace w1)).
    split; [exact Hmid|]. unfold Trace.single_call_response.
    now rewrite Hc, Hp, Hcode, Hrej.
Qed.

(** ** Mapping the channel entries *)

Lemma to_channel_defined (c : json) :
  c <> JNull -> exists ch, to_channel c = Ok ch.
Proof.
  intros Hc. unfold to_channel.
  destruct c; try (now elim Hc); cbn; eexists; reflexivity.
Qed.

Lemma map_channels_defined {S : Type} (items : list json) (w : S) :
  ~ In JNull items ->
  exists cs, mapM (fun c => lift (to_channel c)) items w = (Ok cs, w).
Proof.
  induction items as [|c items IH]; intros Hn.
  - exists []. reflexivity.
  - destruct (to_channel_defined c) as (ch & Ec).
    { intros ->. apply Hn. now left. }
    destruct IH as (cs & E). { intros H. apply Hn. now right. }
    exists (ch :: cs). cbn [mapM]. unfold bind at 1. unfold lift at 1.
    rewrite Ec. unfold bind at 1. rewrite E. reflexivity.
Qed.

Lemma map_channels_null_entry {S : Type} (items : list json) (w : S) :
  In JNull items ->
  mapM (fun c => lift (to_channel c)) items w = (Throw type_error, w).
Proof.
  induction items as [|c items IH]; intros Hin; [now elim Hin|].
  cbn [mapM]. unfold bind at 1. unfold lift at 1.
  destruct (to_channel c) as [ch|e] eqn:Ec.
  - destruct Hin as [-> | Hin]; [discriminate Ec|].
    unfold bind at 1. now rewrite (IH Hin).
  - destruct c; cbn in Ec; try discriminate Ec. now injection Ec as <-.
Qed.

(** X6.  What the OAuth [listChannels] does with a truthy [channels] field
    of a successful answer.  If it is an array without [null] entries, the
    result has one channel per entry, in order, each holding the entry's
    [id], [name] and [unique_name] as read (undefined where the entry has
    none), and no error.  If the array has a [null] entry, or the field is
    not an array at all, [listChannels] throws: it is the caller that has
    to catch the TypeError. *)
Theorem listChannels_maps_entries
  (rt : Runtime) (w w1 : OAuth.World) (r : OAuth.ApiResponse) (v : json) :
  OAuth.apiRequest rt "/channels" OAuth.GET None w = (Ok r, w1) ->
  OAuth.failed r = false ->
  get_prop (OAuth.data r) "channels" = Ok (Some v) ->
  truthy v = true ->
  (forall items, v = JArr items -> ~ In JNull items ->
     exists cs,
       OAuth.listChannels rt w = (Ok (OAuth.mkChannels cs None), w1) /\
       Forall2 (fun c ch =>
                  get_prop c "id" = Ok (id ch) /\
                  get_prop c "name" = Ok (name ch) /\
                  get_prop c "unique_name" = Ok (unique_name ch)) items cs) /\
  (forall items, v = JArr items -> In JNull items ->
     OAuth.listChannels rt w = (Throw type_error, w1)) /\
  ((forall items, v <> JArr items) ->
     OAuth.listChannels rt w = (Throw type_error, w1)).
Proof.
  intros Ha Hf Hg Hv.
  assert (Hrun : OAuth.listChannels rt w
                 = match v with
                   | JArr items =>
                       (cs <- mapM (fun c => lift (to_channel c)) items ;;
                        ret (OAuth.mkChannels cs None)) w1
                   | _ => (Throw type_error, w1)
                   end).
  { unfold OAuth.listChannels. unfold bind at 1. rewrite Ha, Hf.
    unfold bind at 1. unfold lift at 1. rewrite Hg. cbn [truthy_opt].
    rewrite Hv. cbn [negb]. destruct v; reflexivity. }
  rewrite Hrun. repeat apply conj.
  - intros items -> Hn.
    destruct (map_channels_defined items w1 Hn) as (cs & E).
    exists cs. unfold bind. rewrite E. split; [reflexivity|].
    destruct (map_channels_verbatim _ _ _ _ E) as [_ HF].
    clear -HF. induction HF; constructor;
      [now apply to_channel_verbatim | assumption].
  - intros items -> Hin. unfold bind.
    now rewrite (map_channels_null_entry items w1 Hin).
  - intros Hna. destruct v; try reflexivity. now elim (Hna items).
Qed.

Lemma listChannels_maps_entries_witness :
  exists cs,
    OAuth.listChannels Fixtures.rt_listing Fixtures.fresh
    = (Ok (OAuth.mkChannels cs None),
       OAuth.mkWorld (JStr "tok-123") OAuth.Absent true 1000
         [EvApi (OAuth.curl_command Fixtures.rt_listing OAuth.GET
                   "https://cliq.zoho.com/api/v2/channels" (JStr "tok-123")
                   None)]) /\
    Forall2 (fun c ch =>
               get_prop c "id" = Ok (id ch) /\
               get_prop c "name" = Ok (name ch) /\
               get_prop c "unique_name" = Ok (unique_name ch))
      [Fixtures.general_entry] cs.
Proof.
  refine (proj1
    (listChannels_maps_entries Fixtures.rt_listing Fixtures.fresh _
       (OAuth.mkApi Fixtures.listing_doc None) (JArr [Fixtures.general_entry])
       _ _ _ _) [Fixtures.general_entry] _ _); try reflexivity.
  intros [H | []]. discriminate H.
Defined.

(** ** OAuth variant: the schemas and the handler *)

(** X7.  Arguments accepted by the send schema always pass the validation
    of [sendMessage] itself: the text is the non-empty [text] of the
    arguments and an endpoint is selected, so neither "Message text is
    required" nor "Must specify ..." can come out of a call made through
    the handler.  Likewise arguments accepted by the reply schema have a
    non-empty message id and text. *)
Theorem accepted_arguments_pass_validation (rt : Runtime) (args : option json) :
  (forall input : OAuth.SendMessageInput,
      OAuth.SendMessageSchema_parse rt args = Ok input ->
      is_empty (OAuth.text input) = false /\
      (exists fs, args = Some (JObj fs) /\
                  lookup_field "text" fs = Some (JStr (OAuth.text input))) /\
      exists k : Spec.Selector,
        Spec.selected k input = true /\
        OAuth.select_endpoint input = Spec.by_priority input /\
        Spec.by_priority input <> None) /\
  (forall input : OAuth.ReplyInput,
      OAuth.ReplyToMessageSchema_parse rt args = Ok input ->
      is_empty (OAuth.reply_text input) || is_empty (OAuth.messageId input)
      = false).
Proof.
  split.
  - intros input H. unfold OAuth.SendMessageSchema_parse in H.
    destruct args as [[| | | | |fs]|]; try discriminate H.
    destruct (lookup_field "text" fs) as [[| | |t| |]|] eqn:Ht;
      try discriminate H.
    destruct (is_empty t) eqn:Et; [discriminate H|].
    destruct (OAuth.optional_string "channelId" fs) as [cid|]; [|discriminate H].
    destruct (OAuth.optional_string "channelName" fs) as [cn|]; [|discriminate H].
    destruct (OAuth.optional_string "chatId" fs) as [ch|]; [|discriminate H].
    destruct (OAuth.optional_string "userId" fs) as [u|]; [|discriminate H].
    destruct (present cid || present cn || present ch || present u) eqn:Hany;
      [|discriminate H].
    injection H as <-. cbn [OAuth.text].
    split; [exact Et|]. split; [exists fs; auto|].
    assert (Hsel : exists k, Spec.selected k (OAuth.mkInput t cid cn ch u) = true).
    { unfold Spec.selected. cbn.
      destruct (present cid) eqn:H1; [now exists Spec.ChannelId|].
      destruct (present cn) eqn:H2; [now exists Spec.ChannelName|].
      destruct (present ch) eqn:H3; [now exists Spec.ChatId|].
      destruct (present u) eqn:H4; [now exists Spec.UserId|].
      discriminate Hany. }
    destruct Hsel as (k & Hk). exists k. split; [exact Hk|].
    split; [apply select_endpoint_by_priority|].
    unfold Spec.by_priority, Spec.priority. cbn [find].
    destruct (Spec.selected Spec.ChannelId _) eqn:A1; [discriminate|].
    destruct (Spec.selected Spec.ChannelName _) eqn:A2; [discriminate|].
    destruct (Spec.selected Spec.ChatId _) eqn:A3; [discriminate|].
    destruct (Spec.selected Spec.UserId _) eqn:A4; [discriminate|].
    destruct k; congruence.
  - intros input H. unfold OAuth.ReplyToMessageSchema_parse in H.
    destruct args as [[| | | | |fs]|]; try discriminate H.
    destruct (lookup_field "messageId" fs) as [[| | |mid| |]|];
      try discriminate H.
    destruct (lookup_field "text" fs) as [[| | |t| |]|]; try discriminate H.
    destruct (is_empty mid || is_empty t) eqn:E; [discriminate H|].
    injection H as <-. cbn. now rewrite orb_comm.
Qed.

Lemma accepted_arguments_pass_validation_witness :
  is_empty "hi" = false /\
  (exists fs, Some Fixtures.send_args = Some (JObj fs) /\
              lookup_field "text" fs = Some (JStr "hi")) /\
  exists k : Spec.Selector,
    Spec.selected k (OAuth.mkInput "hi" (Some "") None None (Some "7")) = true /\
    OAuth.select_endpoint (OAuth.mkInput "hi" (Some "") None None (Some "7"))
    = Spec.by_priority (OAuth.mkInput "hi" (Some "") None None (Some "7")) /\
    Spec.by_priority (OAuth.mkInput "hi" (Some "") None None (Some "7")) <> None.
Proof.
  apply (proj1 (accepted_arguments_pass_validation Fixtures.rt_accepting
                  (Some Fixtures.send_args))
           (OAuth.mkInput "hi" (Some "") None None (Some "7"))).
  reflexivity.
Defined.

Lemma accepted_arguments_nonempty (rt : Runtime) (args : option json) :
  (forall input : OAuth.SendMessageInput,
      OAuth.SendMessageSchema_parse rt args = Ok input ->
      is_empty (OAuth.text input) = false).
Proof.
  intros input H. unfold OAuth.SendMessageSchema_parse in H.
  destruct args as [[| | | | |fs]|]; try discriminate H.
  destruct (lookup_field "text" fs) as [[| | |t| |]|]; try discriminate H.
  destruct (is_empty t) eqn:Et; [discriminate H|].
  destruct (OAuth.optional_string "channelId" fs); [|discriminate H].
  destruct (OAuth.optional_string "channelName" fs); [|discriminate H].
  destruct (OAuth.optional_string "chatId" fs); [|discriminate H].
  destruct (OAuth.optional_string "userId" fs); [|discriminate H].
  destruct (_ || _); [|discriminate H].
  injection H as <-. auto.
Qed.

(** X8.  The handler of the OAuth server never lets an exception out: for
    every tool name, arguments and state it returns a result.  A name that
    is none of the three tools is answered with "Unknown tool: <name>", and
    arguments the schema of the tool rejects are answered with "Error: "
    followed by the schema's message; in both cases the error flag is set
    and the state is untouched (no credential is resolved, nothing is
    sent).  An exception thrown by [listChannels] comes back as an error
    result carrying its message. *)
Theorem handler_always_answers
  (rt : Runtime) (tool : string) (args : option json) (w : OAuth.World) :
  (exists res w', OAuth.callTool rt tool args w = (Ok res, w')) /\
  (String.eqb tool "cliq_list_channels" = false ->
   String.eqb tool "cliq_send_message" = false ->
   String.eqb tool "cliq_reply_to_message" = false ->
   OAuth.callTool rt tool args w
   = (Ok (OAuth.mkTool ("Unknown tool: " ++ tool) true), w)) /\
  (forall msg,
      OAuth.ListChannelsSchema_parse rt args = Throw msg ->
      OAuth.callTool rt "cliq_list_channels" args w
      = (Ok (OAuth.mkTool ("Error: " ++ msg) true), w)) /\
  (forall msg,
      OAuth.SendMessageSchema_parse rt args = Throw msg ->
      OAuth.callTool rt "cliq_send_message" args w
      = (Ok (OAuth.mkTool ("Error: " ++ msg) true), w)) /\
  (forall msg,
      OAuth.ReplyToMessageSchema_parse rt args = Throw msg ->
      OAuth.callTool rt "cliq_reply_to_message" args w
      = (Ok (OAuth.mkTool ("Error: " ++ msg) true), w)) /\
  (forall msg w1,
      OAuth.ListChannelsSchema_parse rt args = Ok tt ->
      OAuth.listChannels rt w = (Throw msg, w1) ->
      OAuth.callTool rt "cliq_list_channels" args w
      = (Ok (OAuth.mkTool ("Error: " ++ msg) true), w1)).
Proof.
  repeat apply conj.
  - unfold OAuth.callTool, try_catch.
    match goal with
    | |- context [match ?x with _ => _ end] => destruct x as [[res|e] w']
    end; eexists; eexists; reflexivity.
  - intros H1 H2 H3. unfold OAuth.callTool, try_catch.
    now rewrite H1, H2, H3.
  - intros msg H. unfold OAuth.callTool, try_catch, bind, lift. cbn.
    now rewrite H.
  - intros msg H. unfold OAuth.callTool, try_catch, bind, lift. cbn.
    now rewrite H.
  - intros msg H. unfold OAuth.callTool, try_catch, bind, lift. cbn.
    now rewrite H.
  - intros msg w1 H Hl. unfold OAuth.callTool, try_catch, bind, lift. cbn.
    now rewrite H, Hl.
Qed.

Lemma handler_always_answers_witness :
  OAuth.callTool Fixtures.rt_accepting "cliq_send_message"
    (Some (JObj [("text", JStr "")])) Fixtures.fresh
  = (Ok (OAuth.mkTool ("Error: " ++ "invalid arguments") true), Fixtures.fresh) /\
  OAuth.callTool Fixtures.rt_accepting "cliq_delete_channel" None Fixtures.fresh
  = (Ok (OAuth.mkTool ("Unknown tool: " ++ "cliq_delete_channel") true),
     Fixtures.fresh).
Proof.
  split.
  - apply (proj1 (proj2 (proj2 (proj2
      (handler_always_answers Fixtures.rt_accepting "cliq_send_message"
         (Some (JObj [("text", JStr "")])) Fixtures.fresh))))).
    reflexivity.
  - apply (proj1 (proj2
      (handler_always_answers Fixtures.rt_accepting "cliq_delete_channel"
         None Fixtures.fresh))); reflexivity.
Defined.

(** X9.  When the API answers a send with a falsy JSON document ([false],
    [0], the empty string) and [apiRequest] therefore reports falsy data and
    no error, [sendMessage] returns neither a message nor an error, and the
    handler, which looks at the error only, reports "Message sent
    successfully." followed by the rendering of [null], with the error flag
    unset. *)
Theorem falsy_answer_reported_as_sent
  (rt : Runtime) (args : option json) (input : OAuth.SendMessageInput)
  (endpoint : string) (w w1 : OAuth.World) (r : OAuth.ApiResponse) :
  OAuth.SendMessageSchema_parse rt args = Ok input ->
  OAuth.select_endpoint input = Some endpoint ->
  OAuth.apiRequest rt endpoint OAuth.POST (Some (OAuth.send_payload input)) w
    = (Ok r, w1) ->
  OAuth.error r = None ->
  truthy (OAuth.data r) = false ->
  OAuth.sendMessage rt input w = (Ok (OAuth.mkSend JNull None), w1) /\
  OAuth.callTool rt "cliq_send_message" args w
  = (Ok (OAuth.mkTool ("Message sent successfully." ++ OAuth.newline ++
                       JSON_stringify_pretty rt JNull) false), w1).
Proof.
  intros Hparse Hsel Ha He Hd.
  assert (Htext : is_empty (OAuth.text input) = false).
  { exact (accepted_arguments_nonempty rt args input Hparse). }
  assert (Hs : OAuth.sendMessage rt input w = (Ok (OAuth.mkSend JNull None), w1)).
  { unfold OAuth.sendMessage. rewrite Htext, Hsel. unfold bind. rewrite Ha.
    unfold OAuth.failed. rewrite He, Hd. reflexivity. }
  split; [exact Hs|].
  unfold OAuth.callTool, try_catch, bind, lift. cbn.
  rewrite Hparse, Hs. reflexivity.
Qed.

Lemma falsy_answer_reported_as_sent_witness :
  OAuth.sendMessage Fixtures.rt_false_body
    (OAuth.mkInput "hi" (Some "") None None (Some "7")) Fixtures.fresh
  = (Ok (OAuth.mkSend JNull None),
     OAuth.mkWorld (JStr "tok-123") OAuth.Absent true 1000
       [EvApi (OAuth.curl_command Fixtures.rt_false_body OAuth.POST
                 "https://cliq.zoho.com/api/v2/users/7/messages"
                 (JStr "tok-123")
                 (Some (OAuth.send_payload
                          (OAuth.mkInput "hi" (Some "") None None (Some "7")))))]) /\
  OAuth.callTool Fixtures.rt_false_body "cliq_send_message"
    (Some Fixtures.send_args) Fixtures.fresh
  = (Ok (OAuth.mkTool ("Message sent successfully." ++ OAuth.newline ++
                       JSON_stringify_pretty Fixtures.rt_false_body JNull)
           false),
     OAuth.mkWorld (JStr "tok-123") OAuth.Absent true 1000
       [EvApi (OAuth.curl_command Fixtures.rt_false_body OAuth.POST
                 "https://cliq.zoho.com/api/v2/users/7/messages"
                 (JStr "tok-123")
                 (Some (OAuth.send_payload
                          (OAuth.mkInput "hi" (Some "") None None (Some "7")))))]).
Proof.
  refine (falsy_answer_reported_as_sent Fixtures.rt_false_body
            (Some Fixtures.send_args)
            (OAuth.mkInput "hi" (Some "") None None (Some "7"))
            "/users/7/messages" Fixtures.fresh _ (OAuth.mkApi (JBool false) None)
            _ _ _ _ _); reflexivity.
Defined.

(** ** Webhook variant: the secret-store lookup *)

Section WebhookLookups.

Import Webhook.
Variable rt : Runtime.

Lemma opGet_run (item field : string) (w : World) :
  opGet rt item field w
  = (Ok (Trace.lookup_value rt field
           (op_cli rt (List.length (trace w)) (op_item_get item field))),
     Trace.after_lookup rt (op_item_get item field) w).
Proof.
  unfold opGet, try_catch, bind, execSync, lift, ret, Trace.lookup_value,
    Trace.after_lookup.
  destruct (op_cli rt _ _) as [out|e]; cbn; [|reflexivity].
  destruct (JSON_parse rt out) as [p|e]; cbn; [|reflexivity].
  destruct p; cbn; try reflexivity.
  destruct (find_label field items) as [[f|]|e]; cbn; try reflexivity.
  destruct (get_prop f "value"); reflexivity.
Qed.

End WebhookLookups.

(** [find] passes over an entry that is not [null] and whose label is not
    the field asked for. *)
Lemma find_label_skips (field : string) (g : json) (rest : list json) :
  g <> JNull ->
  get_prop g "label" <> Ok (Some (JStr field)) ->
  find_label field (g :: rest) = find_label field rest.
Proof.
  intros Hn Hl. cbn [find_label].
  destruct (get_prop g "label") as [[[| | |l| |]|]|err] eqn:Hg;
    try reflexivity.
  - destruct (String.eqb_spec l field) as [->|]; [now elim Hl | reflexivity].
  - destruct g; cbn in Hg; try discriminate Hg. now elim Hn.
Qed.

Lemma find_label_passed (field : string) (before rest : list json) :
  Forall (fun g => g <> JNull /\ get_prop g "label" <> Ok (Some (JStr field)))
    before ->
  find_label field (before ++ rest) = find_label field rest.
Proof.
  induction 1 as [|g before [Hn Hl] _ IH]; [reflexivity|].
  cbn [app]. now rewrite find_label_skips.
Qed.

(** X10.  [opGet] never throws and always makes exactly one lookup, without
    touching any cache slot.  It accepts both shapes the secret store may
    print.  For an object it returns the object's [value], wherever it
    stands among the keys, and [null] when there is none.  For an array it
    returns the [value] of the first entry whose [label] is the field asked
    for, the entries before it being of any shape but [null]; the result is
    [null] when that entry has no [value], when no entry has the label, and
    when a [null] entry comes before any match.  When the lookup fails or
    its output does not parse, the result is [null]. *)
Theorem opGet_reads_both_shapes
  (rt : Runtime) (item field : string) (w : Webhook.World) :
  let cmd := op_item_get item field in
  let answer := op_cli rt (List.length (Webhook.trace w)) cmd in
  let passed (g : json) :=
    g <> JNull /\ get_prop g "label" <> Ok (Some (JStr field)) in
  (exists v, Webhook.opGet rt item field w
             = (Ok v, Trace.after_lookup rt cmd w)) /\
  (forall out fs v,
      answer = Ok out -> JSON_parse rt out = Ok (JObj fs) ->
      lookup_field "value" fs = Some v ->
      Webhook.opGet rt item field w = (Ok v, Trace.after_lookup rt cmd w)) /\
  (forall out fs,
      answer = Ok out -> JSON_parse rt out = Ok (JObj fs) ->
      lookup_field "value" fs = None ->
      Webhook.opGet rt item field w = (Ok JNull, Trace.after_lookup rt cmd w)) /\
  (forall out before f rest,
      answer = Ok out ->
      JSON_parse rt out = Ok (JArr (before ++ f :: rest)%list) ->
      Forall passed before ->
      get_prop f "label" = Ok (Some (JStr field)) ->
      (forall v, get_prop f "value" = Ok (Some v) ->
         Webhook.opGet rt item field w = (Ok v, Trace.after_lookup rt cmd w)) /\
      (get_prop f "value" = Ok None ->
       Webhook.opGet rt item field w
       = (Ok JNull, Trace.after_lookup rt cmd w))) /\
  (forall out items,
      answer = Ok out -> JSON_parse rt out = Ok (JArr items) ->
      Forall passed items ->
      Webhook.opGet rt item field w = (Ok JNull, Trace.after_lookup rt cmd w)) /\
  (forall out before rest,
      answer = Ok out ->
      JSON_parse rt out = Ok (JArr (before ++ JNull :: rest)%list) ->
      Forall passed before ->
      Webhook.opGet rt item field w = (Ok JNull, Trace.after_lookup rt cmd w)) /\
  (forall e, answer = Throw e ->
   Webhook.opGet rt item field w = (Ok JNull, Trace.after_lookup rt cmd w)) /\
  (forall out e, answer = Ok out -> JSON_parse rt out = Throw e ->
   Webhook.opGet rt item field w = (Ok JNull, Trace.after_lookup rt cmd w)).
Proof.
  intros cmd answer passed. repeat apply conj.
  - eexists. apply opGet_run.
  - intros out fs v Ha Hp Hv. rewrite opGet_run. unfold Trace.lookup_value.
    fold cmd. fold answer. rewrite Ha, Hp. cbn. now rewrite Hv.
  - intros out fs Ha Hp Hv. rewrite opGet_run. unfold Trace.lookup_value.
    fold cmd. fold answer. rewrite Ha, Hp. cbn. now rewrite Hv.
  - intros out before f rest Ha Hp Hb Hl.
    assert (Hfind : find_label field (before ++ f :: rest) = Ok (Some f)).
    { rewrite (find_label_passed field before (f :: rest) Hb).
      cbn [find_label]. rewrite Hl. now rewrite String.eqb_refl. }
    split; [intros v Hv | intros Hv]; rewrite opGet_run;
      unfold Trace.lookup_value; fold cmd; fold answer; rewrite Ha, Hp;
      cbn [find_value]; rewrite Hfind, Hv; reflexivity.
  - intros out items Ha Hp Hb.
    assert (Hfind : find_label field items = Ok None).
    { rewrite <- (app_nil_r items).
      now rewrite (find_label_passed field items [] Hb). }
    rewrite opGet_run. unfold Trace.lookup_value. fold cmd. fold answer.
    rewrite Ha, Hp. cbn [find_value]. now rewrite Hfind.
  - intros out before rest Ha Hp Hb.
    assert (Hfind : find_label field (before ++ JNull :: rest)
                    = Throw type_error).
    { now rewrite (find_label_passed field before (JNull :: rest) Hb). }
    rewrite opGet_run. unfold Trace.lookup_value. fold cmd. fold answer.
    rewrite Ha, Hp. cbn [find_value]. now rewrite Hfind.
  - intros e Ha. rewrite opGet_run. unfold Trace.lookup_value. fold cmd.
    fold answer. now rewrite Ha.
  - intros out e Ha Hp. rewrite opGet_run. unfold Trace.lookup_value.
    fold cmd. fold answer. now rewrite Ha, Hp.
Qed.

(** The key read from the array the secret store prints, where it is the
    second entry, and from the object it prints for one field. *)
Lemma opGet_reads_both_shapes_witness :
  Webhook.opGet Fixtures.rt_vault_list "Cliq luminous-agent-api"
    "credential" Fixtures.fresh_webhook
  = (Ok (JStr "key-9"),
     Trace.after_lookup Fixtures.rt_vault_list
       (op_item_get "Cliq luminous-agent-api" "credential")
       Fixtures.fresh_webhook) /\
  Webhook.opGet Fixtures.rt_vault_field "Cliq luminous-agent-api"
    "credential" Fixtures.fresh_webhook
  = (Ok (JStr "key-9"),
     Trace.after_lookup Fixtures.rt_vault_field
       (op_item_get "Cliq luminous-agent-api" "credential")
       Fixtures.fresh_webhook).
Proof.
  split.
  - refine (proj1 (proj1 (proj2 (proj2 (proj2
      (opGet_reads_both_shapes Fixtures.rt_vault_list
         "Cliq luminous-agent-api" "credential" Fixtures.fresh_webhook))))
      Fixtures.vault_list_text
      [Fixtures.vault_entry "username" "STRING" "bot"]
      (Fixtures.vault_entry "credential" "CONCEALED" "key-9") []
      _ _ _ _) (JStr "key-9") _); try reflexivity.
    constructor; [|constructor].
    split; discriminate.
  - refine (proj1 (proj2
      (opGet_reads_both_shapes Fixtures.rt_vault_field
         "Cliq luminous-agent-api" "credential" Fixtures.fresh_webhook))
      (Fixtures.vault_entry_text "credential" "CONCEALED" "key-9")
      [("id", JStr "credential"); ("type", JStr "CONCEALED");
       ("label", JStr "credential"); ("value", JStr "key-9")]
      (JStr "key-9") _ _ _); reflexivity.
Defined.

(** ** Webhook variant: the two credentials *)

(** X11.  The webhook key is kept for the life of the process.  A key in
    the slot is returned with nothing read or done.  With an empty slot, a
    key in [CLIQ_ZAPIKEY] is returned and stored without any lookup;
    otherwise the result of one lookup of the field [credential] is stored
    and returned, whatever it is.  Once a call has returned a key, every
    later call returns it and changes nothing.  A lookup that gave nothing
    is not remembered: the next call looks the key up again. *)
Theorem zapikey_is_kept (rt : Runtime) (w : Webhook.World) :
  let cmd := op_item_get (Webhook.WEBHOOK_OP_ITEM rt) "credential" in
  (truthy (Webhook.cachedZapikey w) = true ->
   Webhook.getZapikey rt w = (Ok (Webhook.cachedZapikey w), w)) /\
  (truthy (Webhook.cachedZapikey w) = false ->
   forall e, env rt "CLIQ_ZAPIKEY" = Some e -> e <> "" ->
     Webhook.getZapikey rt w
     = (Ok (JStr e), Webhook.set_cachedZapikey (JStr e) w)) /\
  (truthy (Webhook.cachedZapikey w) = false ->
   present (env rt "CLIQ_ZAPIKEY") = false ->
   exists v,
     Webhook.getZapikey rt w
     = (Ok v, Webhook.set_cachedZapikey v (Trace.after_lookup rt cmd w))) /\
  (forall k w',
      Webhook.getZapikey rt w = (Ok k, w') -> truthy k = true ->
      Webhook.getZapikey rt w' = (Ok k, w')) /\
  (forall k w',
      Webhook.getZapikey rt w = (Ok k, w') -> truthy k = false ->
      exists k2,
        Webhook.getZapikey rt w'
        = (Ok k2, Webhook.set_cachedZapikey k2 (Trace.after_lookup rt cmd w'))).
Proof.
  intros cmd.
  assert (Hrun : forall w0,
    Webhook.getZapikey rt w0
    = if truthy (Webhook.cachedZapikey w0) then (Ok (Webhook.cachedZapikey w0), w0)
      else if present (env rt "CLIQ_ZAPIKEY")
           then (Ok (JStr (field_text (env rt "CLIQ_ZAPIKEY"))),
                 Webhook.set_cachedZapikey
                   (JStr (field_text (env rt "CLIQ_ZAPIKEY"))) w0)
           else (Ok (Trace.lookup_value rt "credential"
                       (op_cli rt (List.length (Webhook.trace w0)) cmd)),
                 Webhook.set_cachedZapikey
                   (Trace.lookup_value rt "credential"
                      (op_cli rt (List.length (Webhook.trace w0)) cmd))
                   (Trace.after_lookup rt cmd w0))).
  { intros w0. unfold Webhook.getZapikey, bind, gets, ret, modify. cbn.
    destruct (truthy (Webhook.cachedZapikey w0)); [reflexivity|].
    destruct (present (env rt "CLIQ_ZAPIKEY")); cbn; [reflexivity|].
    rewrite opGet_run. reflexivity. }
  assert (Hslot : forall k w', Webhook.getZapikey rt w = (Ok k, w') ->
                               Webhook.cachedZapikey w' = k).
  { intros k w' H. rewrite Hrun in H.
    destruct (truthy (Webhook.cachedZapikey w));
      [|destruct (present (env rt "CLIQ_ZAPIKEY"))];
      injection H as <- <-; reflexivity. }
  repeat apply conj.
  - intros Hc. now rewrite Hrun, Hc.
  - intros Hc e He Hne. rewrite Hrun, Hc, He. cbn.
    now rewrite (is_empty_false _ Hne).
  - intros Hc He. rewrite Hrun, Hc, He. eexists. reflexivity.
  - intros k w' H Hk. rewrite Hrun, (Hslot k w' H), Hk. reflexivity.
  - intros k w' H Hk.
    assert (He : present (env rt "CLIQ_ZAPIKEY") = false).
    { rewrite Hrun in H.
      destruct (truthy (Webhook.cachedZapikey w)) eqn:Hc.
      - injection H as <- _. congruence.
      - destruct (env rt "CLIQ_ZAPIKEY") as [e|] eqn:Ee; [|reflexivity].
        cbn in *. destruct (is_empty e) eqn:Eem; [reflexivity|].
        cbn in H. injection H as <- _. cbn in Hk. rewrite Eem in Hk.
        discriminate Hk. }
    rewrite Hrun, (Hslot k w' H), Hk, He. eexists. reflexivity.
Qed.

Lemma zapikey_is_kept_witness :
  Webhook.getZapikey Fixtures.rt_webhook_error Fixtures.fresh_webhook
  = (Ok (JStr "key-1"),
     Webhook.set_cachedZapikey (JStr "key-1") Fixtures.fresh_webhook) /\
  Webhook.getZapikey Fixtures.rt_webhook_error
    (Webhook.set_cachedZapikey (JStr "key-1") Fixtures.fresh_webhook)
  = (Ok (JStr "key-1"),
     Webhook.set_cachedZapikey (JStr "key-1") Fixtures.fresh_webhook).
Proof.
  split.
  - refine (proj1 (proj2
      (zapikey_is_kept Fixtures.rt_webhook_error Fixtures.fresh_webhook))
      _ "key-1" _ _); try reflexivity. discriminate.
  - refine (proj1 (proj2 (proj2 (proj2
      (zapikey_is_kept Fixtures.rt_webhook_error Fixtures.fresh_webhook))))
      (JStr "key-1") _ _ _); reflexivity.
Defined.

Section WebhookToken.

Import Webhook.
Variable rt : Runtime.

(** Past its cache, [getOAuthToken] never throws, leaves one of three
    traces, and changes the token slot and the expiry only together, when
    it returns a token. *)
Lemma getOAuthToken_refresh (w : World) :
  truthy (cachedOAuthToken w) && lt_expiry (now w) (oauthExpiresAt w) = false ->
  exists tok w' evs,
    getOAuthToken rt w = (Ok tok, w') /\
    trace w' = (trace w ++ evs)%list /\
    Trace.oauth_shape (OAUTH_OP_ITEM rt) evs /\
    cachedZapikey w' = cachedZapikey w /\
    response_file w' = response_file w /\
    (truthy tok = false ->
     tok = JNull /\ cachedOAuthToken w' = cachedOAuthToken w /\
     oauthExpiresAt w' = oauthExpiresAt w) /\
    (truthy tok = true ->
     cachedOAuthToken w' = tok /\
     (exists cmd, evs = [EvOp (op_item_get (OAUTH_OP_ITEM rt) "refresh_token");
                         EvOp (op_item_get (OAUTH_OP_ITEM rt) "client_id");
                         EvOp (op_item_get (OAUTH_OP_ITEM rt) "client_secret");
                         EvTokenExchange cmd]) /\
     exists lifetime,
       oauthExpiresAt w' = expiry_instant rt (now w') lifetime).
Proof.
  intros Hc. unfold getOAuthToken, bind, gets, ret, Date_now. cbn.
  rewrite Hc. rewrite opGet_run. cbn.
  destruct (truthy (Trace.lookup_value rt "refresh_token" _)); cbn.
  2: { eexists; eexists; eexists [_]. split; [reflexivity|]. cbn.
       split; [reflexivity|]. split; [constructor|].
       repeat split; try reflexivity; intros; discriminate. }
  rewrite opGet_run. cbn. rewrite opGet_run. cbn.
  destruct (negb (truthy (Trace.lookup_value rt "client_id" _))
            || negb (truthy (Trace.lookup_value rt "client_secret" _))); cbn.
  { eexists; eexists; eexists [_; _; _]. split; [reflexivity|]. cbn.
    repeat rewrite <- app_assoc. cbn.
    split; [reflexivity|]. split; [constructor|].
    repeat split; try reflexivity; intros; discriminate. }
  unfold try_catch, bind, execSync, lift, ret, modify, Date_now, gets,
    curl_stdout. cbn.
  run.
  all: eexists; eexists; eexists [_; _; _; _]; split; [reflexivity|]; cbn.
  all: repeat rewrite <- app_assoc; cbn.
  all: split; [reflexivity|]; split; [constructor|].
  all: repeat split; try reflexivity; try (intros; congruence).
  all: try (eexists; reflexivity).
Qed.

End WebhookToken.

(** X12.  In the webhook variant the OAuth token in memory is served only
    while it is fresh: [getOAuthToken] returns it, with nothing read or
    done, exactly when the slot holds a token and the clock is strictly
    before the stored expiry.  At the expiry instant or after, or with an
    empty slot, the call goes to the secret store, beginning with the lookup
    of the refresh token. *)
Theorem webhook_token_served_until_expiry (rt : Runtime) (w : Webhook.World) :
  (forall x : Z,
      truthy (Webhook.cachedOAuthToken w) = true ->
      Webhook.oauthExpiresAt w = Some x ->
      (Webhook.now w < x)%Z ->
      Webhook.getOAuthToken rt w = (Ok (Webhook.cachedOAuthToken w), w)) /\
  (truthy (Webhook.cachedOAuthToken w) = false \/
   Webhook.oauthExpiresAt w = None \/
   (exists x, Webhook.oauthExpiresAt w = Some x /\ (x <= Webhook.now w)%Z) ->
   exists tok w' evs,
     Webhook.getOAuthToken rt w = (Ok tok, w') /\
     Webhook.trace w'
     = (Webhook.trace w
        ++ EvOp (op_item_get (Webhook.OAUTH_OP_ITEM rt) "refresh_token")
           :: evs)%list).
Proof.
  split.
  - intros x Hc Hx Hlt. unfold Webhook.getOAuthToken, bind, gets, ret,
      Webhook.Date_now. cbn. rewrite Hc, Hx. cbn.
    destruct (Z.ltb_spec (Webhook.now w) x); [reflexivity | lia].
  - intros H.
    assert (Hc : truthy (Webhook.cachedOAuthToken w)
                 && Webhook.lt_expiry (Webhook.now w) (Webhook.oauthExpiresAt w)
                 = false).
    { destruct H as [-> | [-> | (x & -> & Hx)]]; cbn.
      - reflexivity.
      - apply andb_false_r.
      - destruct (Z.ltb_spec (Webhook.now w) x); [lia | apply andb_false_r]. }
    destruct (getOAuthToken_refresh rt w Hc)
      as (tok & w' & evs & E & Htr & Hs & _).
    exists tok, w'. destruct Hs; eexists; (split; [exact E | exact Htr]).
Qed.

Lemma webhook_token_served_until_expiry_witness :
  Webhook.getOAuthToken Fixtures.rt_webhook_error (Fixtures.warm_webhook 1999)
  = (Ok (JStr "tok-w"), Fixtures.warm_webhook 1999) /\
  exists tok w' evs,
    Webhook.getOAuthToken Fixtures.rt_webhook_error (Fixtures.warm_webhook 2000)
    = (Ok tok, w') /\
    Webhook.trace w'
    = (EvOp (op_item_get "cliq.zoho.com" "refresh_token") :: evs).
Proof.
  split.
  - refine (proj1 (webhook_token_served_until_expiry Fixtures.rt_webhook_error
                     (Fixtures.warm_webhook 1999)) 2000%Z _ _ _);
      try reflexivity.
  - refine (proj2 (webhook_token_served_until_expiry Fixtures.rt_webhook_error
                     (Fixtures.warm_webhook 2000)) _).
    right; right. exists 2000%Z. split; [reflexivity | cbn; lia].
Defined.

(** X13.  The webhook variant's [getOAuthToken] never throws, never touches
    the webhook key or the response file, and never writes a file.  When it
    goes past its cache it makes the lookup of the refresh token and stops
    there if there is none; otherwise it looks up both client fields and
    stops if either is missing; only then does it call the token endpoint.
    A token is returned only after that call, and then the slot holds it and
    the expiry is computed from the clock after the call; in every other
    case the result is [null] and slot and expiry are what they were. *)
Theorem webhook_refresh_is_all_or_nothing (rt : Runtime) (w : Webhook.World) :
  exists tok w' evs,
    Webhook.getOAuthToken rt w = (Ok tok, w') /\
    Webhook.trace w' = (Webhook.trace w ++ evs)%list /\
    (evs = [] \/ Trace.oauth_shape (Webhook.OAUTH_OP_ITEM rt) evs) /\
    Webhook.cachedZapikey w' = Webhook.cachedZapikey w /\
    Webhook.response_file w' = Webhook.response_file w /\
    (truthy tok = false ->
     tok = JNull /\
     Webhook.cachedOAuthToken w' = Webhook.cachedOAuthToken w /\
     Webhook.oauthExpiresAt w' = Webhook.oauthExpiresAt w) /\
    (truthy tok = true ->
     Webhook.cachedOAuthToken w' = tok /\
     (evs = [] \/
      (exists cmd,
          evs = [EvOp (op_item_get (Webhook.OAUTH_OP_ITEM rt) "refresh_token");
                 EvOp (op_item_get (Webhook.OAUTH_OP_ITEM rt) "client_id");
                 EvOp (op_item_get (Webhook.OAUTH_OP_ITEM rt) "client_secret");
                 EvTokenExchange cmd]) /\
      exists lifetime,
        Webhook.oauthExpiresAt w'
        = Webhook.expiry_instant rt (Webhook.now w') lifetime)).
Proof.
  destruct (truthy (Webhook.cachedOAuthToken w)
            && Webhook.lt_expiry (Webhook.now w) (Webhook.oauthExpiresAt w))
    eqn:Hc.
  - exists (Webhook.cachedOAuthToken w), w, []. rewrite app_nil_r.
    apply andb_true_iff in Hc as [Ht Hl].
    split.
    { unfold Webhook.getOAuthToken, bind, gets, ret, Webhook.Date_now. cbn.
      now rewrite Ht, Hl. }
    repeat split; auto; congruence.
  - destruct (getOAuthToken_refresh rt w Hc)
      as (tok & w' & evs & E & Htr & Hs & Hz & Hf & Hnull & Htok).
    exists tok, w', evs. repeat split; auto.
    + now apply Hnull.
    + now apply Hnull.
    + now apply Hnull.
    + now apply Htok.
    + right. now apply Htok.
Qed.

(** ** Webhook variant: the operations *)

Section WebhookOperations.

Import Webhook.
Variable rt : Runtime.

Lemma getZapikey_run (w : World) :
  exists k w' evs,
    getZapikey rt w = (Ok k, w') /\
    trace w' = (trace w ++ evs)%list /\
    filter is_api evs = [].
Proof.
  unfold getZapikey, bind, gets, ret, modify. cbn.
  destruct (truthy (cachedZapikey w)).
  { exists (cachedZapikey w), w, []. rewrite app_nil_r.
    repeat split; reflexivity. }
  destruct (present (env rt "CLIQ_ZAPIKEY")); cbn.
  { eexists; eexists; exists []. cbn. rewrite app_nil_r.
    repeat split; reflexivity. }
  rewrite opGet_run. cbn. eexists; eexists; eexists [_]. cbn.
  repeat split; reflexivity.
Qed.

Lemma getOAuthToken_run (w : World) :
  exists tok w' evs,
    getOAuthToken rt w = (Ok tok, w') /\
    trace w' = (trace w ++ evs)%list /\
    filter is_api evs = [].
Proof.
  destruct (truthy (cachedOAuthToken w) && lt_expiry (now w) (oauthExpiresAt w))
    eqn:Hc.
  - exists (cachedOAuthToken w), w, []. rewrite app_nil_r.
    split; [|auto]. unfold getOAuthToken, bind, gets, ret, Date_now. cbn.
    apply andb_true_iff in Hc as [Ht Hl]. now rewrite Ht, Hl.
  - destruct (getOAuthToken_refresh rt w Hc)
      as (tok & w' & evs & E & Htr & Hs & _).
    exists tok, w', evs. repeat split; auto. destruct Hs; reflexivity.
Qed.

Lemma curlJson_run (url : string) (m : Method)
  (headers : list (string * string)) (b : option json) (w : World) :
  exists res w',
    curlJson rt url m headers b w = (res, w') /\
    trace w' = (trace w ++ [EvApi (curl_command rt url m headers b)])%list.
Proof.
  unfold curlJson, bind, run_curl, try_catch, read_response_file, lift, ret.
  destruct (curl rt _ _) as [r|e]; cbn.
  - destruct (require_fs rt); cbn;
      [destruct (is_empty (Sys.body r)); cbn;
       [|destruct (JSON_parse rt (Sys.body r)); cbn]|];
      eexists; eexists; split; reflexivity.
  - eexists; eexists; split; reflexivity.
Qed.

End WebhookOperations.

(** Mapping the entries never changes the state, whether it succeeds or
    throws. *)
Lemma map_channels_pure {S : Type} (items : list json) (w : S) :
  exists res, mapM (fun c => lift (to_channel c)) items w = (res, w).
Proof.
  induction items as [|c items (res & IH)].
  - eexists. reflexivity.
  - cbn [mapM]. unfold bind at 1. unfold lift at 1.
    destruct (to_channel c); [|eexists; reflexivity].
    unfold bind at 1. rewrite IH. destruct res; eexists; reflexivity.
Qed.

(** X14.  In the webhook variant nothing is ever retried: [listChannels]
    and [sendMessage] make at most one API call each, whatever the answer.
    They make none only when they stop before sending, and the result is
    then one of the fixed errors: no OAuth token for [listChannels]; empty
    text or no webhook key for [sendMessage]. *)
Theorem webhook_operations_call_at_most_once (rt : Runtime) :
  (forall w : Webhook.World,
      exists res w' evs,
        Webhook.listChannels rt w = (res, w') /\
        Webhook.trace w' = (Webhook.trace w ++ evs)%list /\
        (List.length (filter is_api evs) <= 1)%nat /\
        (filter is_api evs = [] ->
         res = Ok (Webhook.mkChannels [] (Some Webhook.no_oauth_message)))) /\
  (forall (input : Webhook.SendMessageInput) (w : Webhook.World),
      exists res w' evs,
        Webhook.sendMessage rt input w = (res, w') /\
        Webhook.trace w' = (Webhook.trace w ++ evs)%list /\
        (List.length (filter is_api evs) <= 1)%nat /\
        (filter is_api evs = [] ->
         res = Ok (Webhook.mkSend false (Some "Message text is required")) \/
         res = Ok (Webhook.mkSend false (Some Webhook.no_webhook_message)))).
Proof.
  split.
  - intros w.
    destruct (getOAuthToken_run rt w) as (tok & w1 & e1 & E & Htr & Hq).
    unfold Webhook.listChannels. unfold bind at 1. rewrite E.
    destruct (truthy tok); cbn [negb].
    2: { eexists; eexists; exists e1. split; [reflexivity|].
         split; [exact Htr|]. rewrite Hq. cbn. split; [lia | reflexivity]. }
    unfold bind at 1.
    match goal with
    | |- context [Webhook.curlJson rt ?u ?m ?h ?b w1] =>
        destruct (curlJson_run rt u m h b w1) as (res & w2 & Ec & Htr2);
        rewrite Ec
    end.
    assert (Hcalls : forall c, filter is_api (e1 ++ [EvApi c]) = [EvApi c]).
    { intros c. rewrite filter_app, Hq. reflexivity. }
    match type of Htr2 with
    | _ = (_ ++ [EvApi ?c])%list => set (cmd := c) in *
    end.
    assert (Htrace : Webhook.trace w2
                     = (Webhook.trace w ++ e1 ++ [EvApi cmd])%list).
    { rewrite Htr2, Htr. now rewrite <- app_assoc. }
    destruct res as [r|e].
    2: { eexists; eexists; eexists. split; [reflexivity|].
         split; [exact Htrace|]. rewrite Hcalls. cbn.
         split; [lia | discriminate]. }
    unfold bind, lift, ret, throw.
    destruct ((Webhook.status r <? 200)%Z || (300 <=? Webhook.status r)%Z).
    { eexists; eexists; eexists. split; [reflexivity|].
      split; [exact Htrace|]. rewrite Hcalls. cbn. split; [lia | discriminate]. }
    destruct (Webhook.data r) as [| | | |items|fields]; cbn.
    all: try (eexists; eexists; eexists; split; [reflexivity|];
              split; [exact Htrace|]; rewrite Hcalls; cbn;
              split; [lia | discriminate]).
    destruct (lookup_field "channels" fields) as [v|]; cbn.
    2: { eexists; eexists; eexists. split; [reflexivity|].
         split; [exact Htrace|]. rewrite Hcalls. cbn.
         split; [lia | discriminate]. }
    destruct (truthy v); cbn.
    2: { eexists; eexists; eexists. split; [reflexivity|].
         split; [exact Htrace|]. rewrite Hcalls. cbn.
         split; [lia | discriminate]. }
    destruct v.
    all: try (eexists; eexists; eexists; split; [reflexivity|];
              split; [exact Htrace|]; rewrite Hcalls; cbn;
              split; [lia | discriminate]).
    change (fun (c : json) (w0 : Webhook.World) => (to_channel c, w0))
      with (fun c : json => @lift Webhook.World _ (to_channel c)).
    destruct (map_channels_pure items w2) as (res & Em). rewrite Em.
    destruct res; eexists; eexists; eexists; (split; [reflexivity|]);
      (split; [exact Htrace|]); rewrite Hcalls; cbn;
      (split; [lia | discriminate]).
  - intros input w. unfold Webhook.sendMessage.
    destruct (is_empty (Webhook.text input)).
    { eexists; eexists; exists []. split; [reflexivity|]. cbn.
      rewrite app_nil_r. split; [reflexivity|]. split; [lia | auto]. }
    destruct (getZapikey_run rt w) as (k & w1 & e1 & E & Htr & Hq).
    unfold bind at 1. rewrite E.
    destruct (truthy k); cbn [negb].
    2: { eexists; eexists; exists e1. split; [reflexivity|].
         split; [exact Htr|]. rewrite Hq. cbn. split; [lia | auto]. }
    unfold bind at 1.
    match goal with
    | |- context [Webhook.curlJson rt ?u ?m ?h ?b w1] =>
        destruct (curlJson_run rt u m h b w1) as (res & w2 & Ec & Htr2);
        rewrite Ec
    end.
    assert (Hcalls : forall c, filter is_api (e1 ++ [EvApi c]) = [EvApi c]).
    { intros c. rewrite filter_app, Hq. reflexivity. }
    match type of Htr2 with
    | _ = (_ ++ [EvApi ?c])%list => set (cmd := c) in *
    end.
    assert (Htrace : Webhook.trace w2
                     = (Webhook.trace w ++ e1 ++ [EvApi cmd])%list).
    { rewrite Htr2, Htr. now rewrite <- app_assoc. }
    destruct res as [r|e]; [destruct (Webhook.status_ok (Webhook.status r))|].
    all: eexists; eexists; eexists; split; [reflexivity|];
      split; [exact Htrace|]; rewrite Hcalls; cbn; split; [lia | discriminate].
Qed.

Lemma lookup_field_other (k k' : string) (v : json) (fs : list (string * json)) :
  k' <> k -> lookup_field k' ((k, v) :: fs) = lookup_field k' fs.
Proof.
  intros Hne. cbn [lookup_field].
  destruct (String.eqb_spec k' k); [contradiction | reflexivity].
Qed.

(** X15.  The webhook variant of [sendMessage] looks at the text and the
    channel name only: changing [chatId] and [userId] changes neither the
    result nor the final state.  The schema drops every other key, so the
    arguments it lets through never carry a chat or user id, and putting
    such a key ([channelId], [chatId], [userId], ...) before arguments the
    schema accepts changes nothing of what the handler does: contrary to
    what the tool's description offers, the message goes to the named or the
    default channel. *)
Theorem webhook_send_ignores_chat_and_user (rt : Runtime) :
  (forall (t : string) (c ch u ch' u' : option string) (w : Webhook.World),
      Webhook.sendMessage rt (Webhook.mkInput t c ch u) w
      = Webhook.sendMessage rt (Webhook.mkInput t c ch' u') w) /\
  (forall (args : option json) (input : Webhook.SendMessageInput),
      Webhook.SendMessageSchema_parse rt args = Ok input ->
      Webhook.chatId input = None /\ Webhook.userId input = None) /\
  (forall (k : string) (v : json) (fs : list (string * json))
          (input : Webhook.SendMessageInput) (w : Webhook.World),
      k <> "text" -> k <> "channelName" ->
      Webhook.SendMessageSchema_parse rt (Some (JObj fs)) = Ok input ->
      Webhook.SendMessageSchema_parse rt (Some (JObj ((k, v) :: fs))) = Ok input /\
      Webhook.callTool rt "cliq_send_message" (Some (JObj ((k, v) :: fs))) w
      = Webhook.callTool rt "cliq_send_message" (Some (JObj fs)) w).
Proof.
  repeat apply conj.
  - intros. reflexivity.
  - intros args input H. unfold Webhook.SendMessageSchema_parse in H.
    destruct args as [[| | | | |fs]|]; try discriminate H.
    destruct (lookup_field "text" fs) as [[| | |t| |]|]; try discriminate H.
    destruct (is_empty t); [discriminate H|].
    destruct (lookup_field "channelName" fs) as [[| | |c| |]|];
      try discriminate H; injection H as <-; split; reflexivity.
  - intros k v fs input w Ht Hc H.
    assert (Hp : Webhook.SendMessageSchema_parse rt (Some (JObj ((k, v) :: fs)))
                 = Ok input).
    { unfold Webhook.SendMessageSchema_parse in *.
      rewrite !lookup_field_other by (intros E; symmetry in E; contradiction).
      destruct (lookup_field "text" fs) as [[| | |t| |]|]; try discriminate H.
      destruct (is_empty t); [discriminate H|].
      destruct (lookup_field "channelName" fs) as [[| | |c| |]|];
        try discriminate H; exact H. }
    split; [exact Hp|].
    unfold Webhook.callTool, try_catch, bind.
    change (String.eqb "cliq_send_message" "cliq_list_channels") with false.
    change (String.eqb "cliq_send_message" "cliq_send_message") with true.
    cbv beta iota. unfold lift. now rewrite Hp, H.
Qed.

Lemma webhook_send_ignores_chat_and_user_witness :
  Webhook.SendMessageSchema_parse Fixtures.rt_webhook_ops
    (Some (JObj [("userId", JStr "7"); ("text", JStr "hi")]))
  = Ok Fixtures.hi_default /\
  Webhook.callTool Fixtures.rt_webhook_ops "cliq_send_message"
    (Some (JObj [("userId", JStr "7"); ("text", JStr "hi")]))
    Fixtures.fresh_webhook
  = Webhook.callTool Fixtures.rt_webhook_ops "cliq_send_message"
      (Some (JObj [("text", JStr "hi")])) Fixtures.fresh_webhook.
Proof.
  refine (proj2 (proj2
    (webhook_send_ignores_chat_and_user Fixtures.rt_webhook_ops))
    "userId" (JStr "7") [("text", JStr "hi")] Fixtures.hi_default
    Fixtures.fresh_webhook _ _ _); try reflexivity; discriminate.
Defined.

(** X16.  The handler of the webhook server never lets an exception out.
    An unknown tool name and arguments the schema rejects are answered with
    an error result and leave the state untouched, and an exception thrown
    by [sendMessage] or [listChannels] (a failed [curl], a malformed channel
    list) comes back as "Error: " followed by its message. *)
Theorem webhook_handler_always_answers
  (rt : Runtime) (tool : string) (args : option json) (w : Webhook.World) :
  (exists res w', Webhook.callTool rt tool args w = (Ok res, w')) /\
  (String.eqb tool "cliq_list_channels" = false ->
   String.eqb tool "cliq_send_message" = false ->
   String.eqb tool "cliq_reply_to_message" = false ->
   Webhook.callTool rt tool args w
   = (Ok (Webhook.mkTool ("Unknown tool: " ++ tool) true), w)) /\
  (forall msg,
      Webhook.ListChannelsSchema_parse rt args = Throw msg ->
      Webhook.callTool rt "cliq_list_channels" args w
      = (Ok (Webhook.mkTool ("Error: " ++ msg) true), w)) /\
  (forall msg,
      Webhook.SendMessageSchema_parse rt args = Throw msg ->
      Webhook.callTool rt "cliq_send_message" args w
      = (Ok (Webhook.mkTool ("Error: " ++ msg) true), w)) /\
  (forall input msg w1,
      Webhook.SendMessageSchema_parse rt args = Ok input ->
      Webhook.sendMessage rt input w = (Throw msg, w1) ->
      Webhook.callTool rt "cliq_send_message" args w
      = (Ok (Webhook.mkTool ("Error: " ++ msg) true), w1)) /\
  (forall msg w1,
      Webhook.ListChannelsSchema_parse rt args = Ok tt ->
      Webhook.listChannels rt w = (Throw msg, w1) ->
      Webhook.callTool rt "cliq_list_channels" args w
      = (Ok (Webhook.mkTool ("Error: " ++ msg) true), w1)).
Proof.
  repeat apply conj.
  - unfold Webhook.callTool, try_catch.
    match goal with
    | |- context [match ?x with _ => _ end] => destruct x as [[res|e] w']
    end; eexists; eexists; reflexivity.
  - intros H1 H2 H3. unfold Webhook.callTool, try_catch.
    now rewrite H1, H2, H3.
  - intros msg H. unfold Webhook.callTool, try_catch, bind, lift. cbn.
    now rewrite H.
  - intros msg H. unfold Webhook.callTool, try_catch, bind, lift. cbn.
    now rewrite H.
  - intros input msg w1 H Hs. unfold Webhook.callTool, try_catch, bind, lift.
    cbn. now rewrite H, Hs.
  - intros msg w1 H Hl. unfold Webhook.callTool, try_catch, bind, lift. cbn.
    now rewrite H, Hl.
Qed.

Lemma webhook_handler_always_answers_witness :
  Webhook.callTool Fixtures.rt_webhook_error "cliq_send_message"
    (Some (JObj [("text", JStr "")])) Fixtures.fresh_webhook
  = (Ok (Webhook.mkTool ("Error: " ++ "invalid arguments") true),
     Fixtures.fresh_webhook) /\
  Webhook.callTool Fixtures.rt_webhook_error "cliq_delete_channel" None
    Fixtures.fresh_webhook
  = (Ok (Webhook.mkTool ("Unknown tool: " ++ "cliq_delete_channel") true),
     Fixtures.fresh_webhook).
Proof.
  split.
  - apply (proj1 (proj2 (proj2 (proj2
      (webhook_handler_always_answers Fixtures.rt_webhook_error
         "cliq_send_message" (Some (JObj [("text", JStr "")]))
         Fixtures.fresh_webhook))))).
    reflexivity.
  - apply (proj1 (proj2
      (webhook_handler_always_answers Fixtures.rt_webhook_error
         "cliq_delete_channel" None Fixtures.fresh_webhook))); reflexivity.
Defined.

(** X17.  After a successful send without a channel name, the webhook
    handler's confirmation always reads "Message sent to #luminous as bot.",
    while the message was posted with the configured default channel
    ([CLIQ_DEFAULT_CHANNEL], "luminous" only when that is unset) in its
    payload: the confirmation does not follow the configuration. *)
Theorem confirmation_names_luminous
  (rt : Runtime) (args : option json) (input : Webhook.SendMessageInput)
  (w w1 : Webhook.World) (r : Webhook.SendResult) :
  Webhook.SendMessageSchema_parse rt args = Ok input ->
  present (Webhook.channelName input) = false ->
  Webhook.sendMessage rt input w = (Ok r, w1) ->
  present (Webhook.send_error r) = false ->
  Webhook.callTool rt "cliq_send_message" args w
  = (Ok (Webhook.mkTool "Message sent to #luminous as bot." false), w1) /\
  Webhook.send_payload rt input
  = JObj [("text", JStr (Webhook.text input));
          ("channel", JStr (env_or (env rt "CLIQ_DEFAULT_CHANNEL") "luminous"))].
Proof.
  intros Hp Hc Hs He. split.
  - unfold Webhook.callTool, try_catch, bind, lift. cbn.
    rewrite Hp, Hs. cbn. rewrite He, Hc. reflexivity.
  - unfold Webhook.send_payload. now rewrite Hc.
Qed.

Lemma confirmation_names_luminous_witness :
  Webhook.callTool Fixtures.rt_webhook_ops "cliq_send_message"
    (Some (JObj [("text", JStr "hi")])) Fixtures.fresh_webhook
  = (Ok (Webhook.mkTool "Message sent to #luminous as bot." false),
     snd (Webhook.sendMessage Fixtures.rt_webhook_ops Fixtures.hi_default
            Fixtures.fresh_webhook)) /\
  Webhook.send_payload Fixtures.rt_webhook_ops Fixtures.hi_default
  = JObj [("text", JStr "hi"); ("channel", JStr "ops")].
Proof.
  refine (confirmation_names_luminous Fixtures.rt_webhook_ops
            (Some (JObj [("text", JStr "hi")])) Fixtures.hi_default
            Fixtures.fresh_webhook _ (Webhook.mkSend true None) _ _ _ _);
    reflexivity.
Defined.

(** ** OAuth variant: the reply *)

(** X18.  With a non-empty message id and text, [replyToMessage] resolves
    the token and, if there is one, its first API call is the POST to
    [/messages] under the base URL, with the text and the id of the parent
    message as body; if there is none it answers with the "No access token
    available" error and sends nothing. *)
Theorem reply_is_posted_to_messages
  (rt : Runtime) (input : OAuth.ReplyInput) (w w1 : OAuth.World)
  (token : json) :
  OAuth.messageId input <> "" ->
  OAuth.reply_text input <> "" ->
  OAuth.loadToken rt w = (Ok token, w1) ->
  (truthy token = true ->
   exists r w' evs,
     OAuth.replyToMessage rt input w = (Ok r, w') /\
     OAuth.trace w'
     = (OAuth.trace w1
        ++ EvApi (OAuth.curl_command rt OAuth.POST
                    (OAuth.BASE_URL rt ++ "/messages") token
                    (Some (JObj [("text", JStr (OAuth.reply_text input));
                                 ("parent_message_id",
                                  JStr (OAuth.messageId input))])))
           :: evs)%list) /\
  (truthy token = false ->
   OAuth.replyToMessage rt input w
   = (Ok (OAuth.mkReplyResult JNull (Some OAuth.no_token_message)), w1)).
Proof.
  intros Hid Htext Hl.
  assert (Hv : is_empty (OAuth.reply_text input)
               || is_empty (OAuth.messageId input) = false).
  { now rewrite (is_empty_false _ Hid), (is_empty_false _ Htext). }
  split; intros Ht.
  - destruct (apiRequest_first_call rt "/messages" OAuth.POST
                (Some (OAuth.reply_payload input)) w w1 token Hl Ht)
      as (resp & w' & evs & E & Htr & _).
    unfold OAuth.replyToMessage. rewrite Hv. unfold bind. rewrite E.
    destruct (OAuth.failed resp); eexists; eexists; exists evs;
      (split; [reflexivity | exact Htr]).
  - unfold OAuth.replyToMessage. rewrite Hv. unfold bind.
    rewrite (apiRequest_no_token rt "/messages" OAuth.POST _ w w1 token Hl Ht).
    reflexivity.
Qed.

Lemma reply_is_posted_to_messages_witness :
  exists r w' evs,
    OAuth.replyToMessage Fixtures.rt_accepting (OAuth.mkReply "m0" "ok")
      Fixtures.fresh = (Ok r, w') /\
    OAuth.trace w'
    = (EvApi (OAuth.curl_command Fixtures.rt_accepting OAuth.POST
                "https://cliq.zoho.com/api/v2/messages" (JStr "tok-123")
                (Some (JObj [("text", JStr "ok");
                             ("parent_message_id", JStr "m0")])))
       :: evs).
Proof.
  refine (proj1 (reply_is_posted_to_messages Fixtures.rt_accepting
                   (OAuth.mkReply "m0" "ok") Fixtures.fresh
                   (OAuth.set_cachedToken (JStr "tok-123") Fixtures.fresh)
                   (JStr "tok-123") _ _ _) _); try reflexivity; discriminate.
Defined.

(** ** The body on the command line *)

Lemma quoted_body_inside (s : string) :
  Shell.word true (escape_quotes s ++ "'") = Some s.
Proof.
  induction s as [|c s IH].
  - reflexivity.
  - cbn [escape_quotes]. destruct (Ascii.eqb c apostrophe) eqn:Ec.
    + apply Ascii.eqb_eq in Ec. subst c. cbn. now rewrite IH.
    + cbn [append Shell.word]. rewrite Ec. now rewrite IH.
Qed.

(** X19.  The body of a request is put on the command line between single
    quotes after [escape_quotes]; read back the way a POSIX shell reads such
    a word, it is the body again, whatever apostrophes it contains, and the
    escaping never shortens the text. *)
Theorem quoted_body_reads_back (s : string) :
  Shell.word false ("'" ++ escape_quotes s ++ "'") = Some s /\
  (String.length s <= String.length (escape_quotes s))%nat /\
  (has_char apostrophe s = false -> escape_quotes s = s).
Proof.
  repeat apply conj.
  - change ("'" ++ escape_quotes s ++ "'")
      with (String apostrophe (escape_quotes s ++ "'")).
    cbn [Shell.word]. rewrite Ascii.eqb_refl. apply quoted_body_inside.
  - induction s as [|c s IH]; [apply le_n|].
    cbn [escape_quotes]. destruct (Ascii.eqb c apostrophe); cbn; lia.
  - induction s as [|c s IH]; [reflexivity|].
    cbn [has_char escape_quotes]. intros H.
    apply orb_false_iff in H as [Hc Hs]. rewrite Ascii.eqb_sym in Hc.
    now rewrite Hc, IH.
Qed.

(** ** OAuth variant: the record on disk, written and read back *)

Section WrittenRecord.

Import OAuth.
Variable rt : Runtime.

(** The file a successful refresh leaves on a writable disk. *)
Lemma refresh_written_record (r : json) (w w' : World) (tok : json) :
  refreshAccessToken rt r w = (Ok tok, w') ->
  truthy tok = true ->
  disk_writable w = true ->
  exists (lifetime : json) (created : string),
    config_file w'
    = Content (JSON_stringify rt
                 (cache_record tok (expiry_instant rt (now w') lifetime) created)).
Proof.
  intros H Ht Hw. revert H.
  unfold refreshAccessToken, try_catch, bind, execSync, lift, ret, modify,
    Date_now, gets, writeFileSync, curl_stdout.
  cbn. rewrite Hw. run.
  all: intros H; injection H as <- <-; try discriminate Ht.
  all: cbn; eexists; eexists; reflexivity.
Qed.

(** What the configuration file offers when it holds a record as the
    refresh writes it and the parser reads that record back. *)
Lemma disk_token_of_record (tok : json) (expiry : option Z) (created : string)
  (w : World) :
  config_file w = Content (JSON_stringify rt (cache_record tok expiry created)) ->
  JSON_parse rt (JSON_stringify rt (cache_record tok expiry created))
  = Ok (cache_record tok expiry created) ->
  truthy tok = true ->
  Spec.disk_token rt w
  = match expiry with
    | Some e => if negb (e =? 0)%Z && (now w <? e)%Z then Some tok else None
    | None => None
    end.
Proof.
  intros Hf Hp Ht. unfold Spec.disk_token. rewrite Hf, Hp.
  unfold cache_record. cbn. rewrite Ht.
  destruct expiry as [e|]; cbn; reflexivity.
Qed.

End WrittenRecord.

(** X20.  The cache file is a round trip between [refreshAccessToken] and
    [loadToken].  After a refresh that returned a token on a writable disk,
    the file holds the serialised record of that token with the expiry
    computed from the clock of the refresh.  Provided the parser reads that
    text back as the record, a later resolution that starts with an empty
    slot and no override (a new process) returns the very token without
    asking the secret store as long as the clock is strictly before the
    expiry; from the expiry instant on, or when the expiry was not a number,
    the record is passed over and the resolution is the secret-store
    step. *)
Theorem refreshed_token_survives_restart
  (rt : Runtime) (refreshToken : json) (w w' : OAuth.World) (tok : json) :
  OAuth.refreshAccessToken rt refreshToken w = (Ok tok, w') ->
  truthy tok = true ->
  OAuth.disk_writable w = true ->
  present (env rt "CLIQ_ACCESS_TOKEN") = false ->
  exists (lifetime : json) (created : string),
    let expiry := OAuth.expiry_instant rt (OAuth.now w') lifetime in
    let record := OAuth.cache_record tok expiry created in
    OAuth.config_file w' = OAuth.Content (JSON_stringify rt record) /\
    (JSON_parse rt (JSON_stringify rt record) = Ok record ->
     forall w2 : OAuth.World,
       truthy (OAuth.cachedToken w2) = false ->
       OAuth.config_file w2 = OAuth.config_file w' ->
       (forall e, expiry = Some e -> (OAuth.now w2 < e)%Z -> e <> 0%Z ->
          OAuth.loadToken rt w2 = (Ok tok, OAuth.set_cachedToken tok w2)) /\
       (forall e, expiry = Some e -> (e <= OAuth.now w2)%Z ->
          OAuth.loadToken rt w2 = OAuth.fromSecretStore rt w2) /\
       (expiry = None -> OAuth.loadToken rt w2 = OAuth.fromSecretStore rt w2)).
Proof.
  intros Hr Ht Hw He.
  destruct (refresh_written_record rt refreshToken w w' tok Hr Ht Hw)
    as (lifetime & created & Hf).
  exists lifetime, created. cbv zeta. split; [exact Hf|].
  intros Hp w2 Hslot Hsame.
  assert (Hd := disk_token_of_record rt tok _ created w2
                  (eq_trans Hsame Hf) Hp Ht).
  rewrite (loadToken_from_empty_slot rt w2 Hslot), He, Hd.
  repeat apply conj.
  - intros e -> Hlt Hne.
    destruct (Z.eqb_spec e 0); [contradiction|].
    destruct (Z.ltb_spec (OAuth.now w2) e); [reflexivity | lia].
  - intros e -> Hle.
    destruct (Z.ltb_spec (OAuth.now w2) e); [lia|].
    now rewrite andb_false_r.
  - intros ->. reflexivity.
Qed.

(** A run of the round trip: the record written at instant 5000 for 7200
    seconds is served at 7204999 and passed over at 7205000. *)
Example round_trip_run :
  let w' := snd (OAuth.refreshAccessToken Fixtures.rt_round_trip (JStr "r")
                   Fixtures.fresh) in
  let restarted (t : Z) :=
    OAuth.mkWorld JNull (OAuth.config_file w') true t [] in
  OAuth.config_file w'
  = OAuth.Content (JSON_stringify Fixtures.rt_round_trip
                     Fixtures.refreshed_record) /\
  JSON_parse Fixtures.rt_round_trip
    (JSON_stringify Fixtures.rt_round_trip Fixtures.refreshed_record)
  = Ok Fixtures.refreshed_record /\
  OAuth.loadToken Fixtures.rt_round_trip (restarted 7204999%Z)
  = (Ok (JStr "new-tok"),
     OAuth.set_cachedToken (JStr "new-tok") (restarted 7204999%Z)) /\
  fst (OAuth.loadToken Fixtures.rt_round_trip (restarted 7205000%Z)) = Ok JNull.
Proof.
  vm_compute. repeat split.
Qed.

Lemma refreshed_token_survives_restart_witness :
  exists (lifetime : json) (created : string),
    let w' := snd (OAuth.refreshAccessToken Fixtures.rt_round_trip (JStr "r")
                     Fixtures.fresh) in
    let expiry := OAuth.expiry_instant Fixtures.rt_round_trip (OAuth.now w')
                    lifetime in
    let record := OAuth.cache_record (JStr "new-tok") expiry created in
    OAuth.config_file w'
    = OAuth.Content (JSON_stringify Fixtures.rt_round_trip record) /\
    (JSON_parse Fixtures.rt_round_trip
       (JSON_stringify Fixtures.rt_round_trip record) = Ok record ->
     forall w2 : OAuth.World,
       truthy (OAuth.cachedToken w2) = false ->
       OAuth.config_file w2 = OAuth.config_file w' ->
       (forall e, expiry = Some e -> (OAuth.now w2 < e)%Z -> e <> 0%Z ->
          OAuth.loadToken Fixtures.rt_round_trip w2
          = (Ok (JStr "new-tok"), OAuth.set_cachedToken (JStr "new-tok") w2)) /\
       (forall e, expiry = Some e -> (e <= OAuth.now w2)%Z ->
          OAuth.loadToken Fixtures.rt_round_trip w2
          = OAuth.fromSecretStore Fixtures.rt_round_trip w2) /\
       (expiry = None ->
        OAuth.loadToken Fixtures.rt_round_trip w2
        = OAuth.fromSecretStore Fixtures.rt_round_trip w2)).
Proof.
  apply (refreshed_token_survives_restart Fixtures.rt_round_trip (JStr "r")
           Fixtures.fresh
           (snd (OAuth.refreshAccessToken Fixtures.rt_round_trip (JStr "r")
                   Fixtures.fresh))
           (JStr "new-tok")); reflexivity.
Defined.
